(** * PChat system-tray backends: a shallow embedding and its properties

    The development follows the layout of [src/fe-gtk3]:
    - [Glib]         : the pieces of GLib / GdkPixbuf the tray code reads;
    - [TrayWindows]  : [tray-windows.c]  (Shell_NotifyIcon backend);
    - [TrayLinux]    : [tray-linux.c]    (AppIndicator backend);
    - [TrayMacos]    : [tray-macos.m]    (NSStatusBar backend);
    - [TrayBackend]  : [tray-backend.c]  (compile-time dispatcher).

    A [TrayBackend *] is an [option] of the backend's struct ([None] is the
    NULL pointer).  Every operation returns the struct as the call leaves it
    together with the ordered list of native calls and host callbacks it
    performed: a writer monad over the backend's event type. *)

From Stdlib Require Import ZArith List String Ascii Bool Lia DecimalString.
From Stdlib.Strings Require Import Byte.
Import ListNotations.
Open Scope Z_scope.

Set Implicit Arguments.

(* ------------------------------------------------------------------------- *)
(** ** Effects: calls performed by an operation, in program order *)

Section Effects.
Context {E : Type}.

Definition eff (A : Type) : Type := (A * list E)%type.

Definition ret {A} (a : A) : eff A := (a, []).

Definition bind {A B} (m : eff A) (k : A -> eff B) : eff B :=
  let '(a, t1) := m in
  let '(b, t2) := k a in
  (b, t1 ++ t2).

Definition emit (e : E) : eff unit := (tt, [e]).

(** [if (c) stmt;] *)
Definition when (c : bool) (m : eff unit) : eff unit :=
  if c then m else ret tt.

(** [if (p) f(p);] on a nullable pointer *)
Definition when_some {A} (p : option A) (f : A -> eff unit) : eff unit :=
  match p with
  | Some a => f a
  | None => ret tt
  end.

Definition value {A} (m : eff A) : A := fst m.
Definition trace {A} (m : eff A) : list E := snd m.
End Effects.

Declare Scope eff_scope.
Delimit Scope eff_scope with eff.
Notation "x <- c ;; k" := (bind c (fun x => k))
  (at level 100, c at next level, right associativity) : eff_scope.
Notation "c ;; k" := (bind c (fun _ => k))
  (at level 100, right associativity) : eff_scope.

(** How many events of a trace satisfy a (decidable) test. *)
Definition count {E} (p : E -> bool) (t : list E) : nat :=
  List.length (List.filter p t).

(* ------------------------------------------------------------------------- *)
(** ** GLib and GdkPixbuf *)

Module Glib.

(** [gpointer] / [void *]: an address; callbacks take it opaquely. *)
Definition gpointer := Z.

(** A C function pointer, identified by its address. *)
Definition fnptr := Z.

(** [guchar]: a value in 0..255.  Assigning an [int] expression to a
    [guchar] keeps the low eight bits. *)
Definition guchar := Z.
Definition to_guchar (v : Z) : guchar := v mod 256.

Definition INT_MAX : Z := 2147483647.

(** What the accessors [gdk_pixbuf_get_width], [_height], [_rowstride],
    [_n_channels] and [_pixels] return. *)
Record GdkPixbuf := {
  pb_width : Z;
  pb_height : Z;
  pb_rowstride : Z;
  pb_n_channels : Z;
  pb_pixels : list byte
}.

(** [src[i]] for [guchar *src = pixels + off]: the byte at [off + i],
    promoted to [int]. *)
Definition byte_at (pixels : list byte) (off : Z) : option Z :=
  if off <? 0 then None
  else option_map (fun b => Z.of_N (Byte.to_N b)) (nth_error pixels (Z.to_nat off)).

(** A read outside the buffer is undefined in C; the embedding reads 0
    there, and [valid_pixbuf] below rules the case out. *)
Definition read (pixels : list byte) (off : Z) : Z :=
  match byte_at pixels off with
  | Some v => v
  | None => 0
  end.

(** The guarantees gdk-pixbuf gives for every pixbuf it hands out (the
    Source Image of the specification): 3 or 4 channels, rows of
    [rowstride] bytes holding [width * n_channels] pixel bytes, the last
    row possibly short, and sizes that fit an [int]. *)
Definition valid_pixbuf (p : GdkPixbuf) : Prop :=
  0 < pb_width p /\ 0 < pb_height p /\
  (pb_n_channels p = 3 \/ pb_n_channels p = 4) /\
  pb_width p * pb_n_channels p <= pb_rowstride p /\
  pb_height p * pb_rowstride p <= INT_MAX /\
  (pb_height p - 1) * pb_rowstride p + pb_width p * pb_n_channels p
    <= Z.of_nat (List.length (pb_pixels p)).

(** How many objects a nullable pointer holds on to. *)
Definition held {A} (p : option A) : nat :=
  match p with
  | Some _ => 1
  | None => 0
  end.

(** The object a nullable pointer holds on to, as a list. *)
Definition pointee {A} (p : option A) : list A :=
  match p with
  | Some a => [a]
  | None => []
  end.

End Glib.
Import Glib.

(* ------------------------------------------------------------------------- *)
(** ** tray-windows.c: the Shell_NotifyIcon backend *)

Module TrayWindows.

(** *** Win32 objects *)

Definition HWND := Z.

(** The colour bitmap of [pixbuf_to_hicon]: a top-down, 32-bit DIB section
    ([bV5Width = width], [bV5Height = -height], masks for BGRA), of which
    [dib_bits] are the bytes the loop stores through [dest]. *)
Record DIB := {
  dib_width : Z;
  dib_height : Z;
  dib_bits : list guchar
}.

(** An icon as [CreateIconIndirect] builds it from [ICONINFO]: it copies
    the colour bitmap; the 1-bit mask is created without bits
    ([CreateBitmap (width, height, 1, 1, NULL)]) and has no content. *)
Record HICON := {
  icon_color : DIB;
  icon_mask_width : Z;
  icon_mask_height : Z
}.

(** The part of GDI that can fail: whether [CreateDIBSection] returns a
    bitmap with bits for the given size, and whether [CreateIconIndirect]
    returns an icon for the given colour bitmap. *)
Record Win32 := {
  CreateDIBSection_ok : Z -> Z -> bool;
  CreateIconIndirect_ok : DIB -> bool;
  CreateWindowExW_result : option HWND
}.

(** *** pixbuf_to_hicon *)

(** The body of the inner loop for a pixel at [src]: the four bytes stored
    through [dest], in store order. *)
Definition convert_pixel (pixels : list byte) (channels src : Z) : list guchar :=
  let r := read pixels src in
  let g := read pixels (src + 1) in
  let b := read pixels (src + 2) in
  let a := if channels =? 4 then read pixels (src + 3) else 255 in
  (* Pre-multiply alpha for Windows *)
  let '(r, g, b) :=
    if a <? 255
    then (to_guchar (Z.quot (r * a) 255),
          to_guchar (Z.quot (g * a) 255),
          to_guchar (Z.quot (b * a) 255))
    else (r, g, b) in
  (* BGRA format for Windows *)
  [b; g; r; a].

(** [for (x = 0; x < width; x++) { ...; src += channels; }], with [n] the
    iterations still to run. *)
Fixpoint row_loop (pixels : list byte) (channels : Z) (n : nat) (src : Z)
  : list guchar :=
  match n with
  | O => []
  | S n' => convert_pixel pixels channels src
            ++ row_loop pixels channels n' (src + channels)
  end.

(** [for (y = 0; y < height; y++) { src = pixels + y * stride; ... }] *)
Fixpoint image_loop (pixels : list byte) (stride channels width : Z)
         (n : nat) (y : Z) : list guchar :=
  match n with
  | O => []
  | S n' => row_loop pixels channels (Z.to_nat width) (y * stride)
            ++ image_loop pixels stride channels width n' (y + 1)
  end.

Definition pixbuf_to_hicon (os : Win32) (pixbuf : option GdkPixbuf)
  : option HICON :=
  match pixbuf with
  | None => None
  | Some pb =>
      let width := pb_width pb in
      let height := pb_height pb in
      let pixels := pb_pixels pb in
      let stride := pb_rowstride pb in
      let channels := pb_n_channels pb in
      if CreateDIBSection_ok os width height then
        let bits :=
          image_loop pixels stride channels width (Z.to_nat height) 0 in
        let hbm_color :=
          {| dib_width := width; dib_height := height; dib_bits := bits |} in
        if CreateIconIndirect_ok os hbm_color
        then Some {| icon_color := hbm_color;
                     icon_mask_width := width;
                     icon_mask_height := height |}
        else None
      else None
  end.

(** Reading the colour bitmap of an icon back: byte [i] of its bits. *)
Definition dib_byte (icon : HICON) (i : Z) : option guchar :=
  if i <? 0 then None
  else nth_error (dib_bits (icon_color icon)) (Z.to_nat i).

(** *** The handle *)

Inductive NIM := NIM_ADD | NIM_MODIFY | NIM_DELETE.

Definition WM_APP : Z := 32768.
Definition WM_TRAYICON : Z := WM_APP + 1.
Definition TRAY_ID : Z := 1.
Definition NIF_MESSAGE : Z := 1.
Definition NIF_ICON : Z := 2.
Definition NIF_TIP : Z := 4.

(** [szTip]: the tooltip as wide characters. *)
Definition WCHAR := Z.

(** The fields of [NOTIFYICONDATAW] the backend fills in. *)
Record NOTIFYICONDATAW := {
  nid_hWnd : option HWND;
  nid_uID : Z;
  nid_uFlags : Z;
  nid_uCallbackMessage : Z;
  nid_hIcon : option HICON;
  nid_szTip : list WCHAR
}.

(** [ZeroMemory (&nid, sizeof nid)] *)
Definition nid_zero : NOTIFYICONDATAW :=
  {| nid_hWnd := None; nid_uID := 0; nid_uFlags := 0;
     nid_uCallbackMessage := 0; nid_hIcon := None; nid_szTip := [] |}.

Definition nid_with_hIcon (n : NOTIFYICONDATAW) (h : option HICON) :=
  {| nid_hWnd := nid_hWnd n; nid_uID := nid_uID n; nid_uFlags := nid_uFlags n;
     nid_uCallbackMessage := nid_uCallbackMessage n;
     nid_hIcon := h; nid_szTip := nid_szTip n |}.

Definition nid_with_szTip (n : NOTIFYICONDATAW) (tip : list WCHAR) :=
  {| nid_hWnd := nid_hWnd n; nid_uID := nid_uID n; nid_uFlags := nid_uFlags n;
     nid_uCallbackMessage := nid_uCallbackMessage n;
     nid_hIcon := nid_hIcon n; nid_szTip := tip |}.

(** Two descriptors naming the same icon to the shell: the fields other
    than [hIcon] and [szTip] agree. *)
Definition same_target (n m : NOTIFYICONDATAW) : Prop :=
  nid_hWnd n = nid_hWnd m /\ nid_uID n = nid_uID m /\
  nid_uFlags n = nid_uFlags m /\
  nid_uCallbackMessage n = nid_uCallbackMessage m.

(** [struct _TrayBackend] *)
Record TrayBackend := {
  nid : NOTIFYICONDATAW;
  hwnd : option HWND;
  hicon : option HICON;
  current_icon : option GdkPixbuf;
  visible : bool;
  activate_callback : option fnptr;
  activate_userdata : gpointer;
  menu_callback : option fnptr;
  menu_userdata : gpointer;
  embedded_callback : option fnptr;
  embedded_userdata : gpointer
}.

(** [g_new0 (TrayBackend, 1)] *)
Definition backend_zero : TrayBackend :=
  {| nid := nid_zero; hwnd := None; hicon := None; current_icon := None;
     visible := false;
     activate_callback := None; activate_userdata := 0;
     menu_callback := None; menu_userdata := 0;
     embedded_callback := None; embedded_userdata := 0 |}.

Definition with_nid (b : TrayBackend) (n : NOTIFYICONDATAW) :=
  {| nid := n; hwnd := hwnd b; hicon := hicon b;
     current_icon := current_icon b; visible := visible b;
     activate_callback := activate_callback b;
     activate_userdata := activate_userdata b;
     menu_callback := menu_callback b; menu_userdata := menu_userdata b;
     embedded_callback := embedded_callback b;
     embedded_userdata := embedded_userdata b |}.

Definition with_hwnd (b : TrayBackend) (h : option HWND) :=
  {| nid := nid b; hwnd := h; hicon := hicon b;
     current_icon := current_icon b; visible := visible b;
     activate_callback := activate_callback b;
     activate_userdata := activate_userdata b;
     menu_callback := menu_callback b; menu_userdata := menu_userdata b;
     embedded_callback := embedded_callback b;
     embedded_userdata := embedded_userdata b |}.

Definition with_hicon (b : TrayBackend) (h : option HICON) :=
  {| nid := nid b; hwnd := hwnd b; hicon := h;
     current_icon := current_icon b; visible := visible b;
     activate_callback := activate_callback b;
     activate_userdata := activate_userdata b;
     menu_callback := menu_callback b; menu_userdata := menu_userdata b;
     embedded_callback := embedded_callback b;
     embedded_userdata := embedded_userdata b |}.

Definition with_current_icon (b : TrayBackend) (p : option GdkPixbuf) :=
  {| nid := nid b; hwnd := hwnd b; hicon := hicon b;
     current_icon := p; visible := visible b;
     activate_callback := activate_callback b;
     activate_userdata := activate_userdata b;
     menu_callback := menu_callback b; menu_userdata := menu_userdata b;
     embedded_callback := embedded_callback b;
     embedded_userdata := embedded_userdata b |}.

Definition with_visible (b : TrayBackend) (v : bool) :=
  {| nid := nid b; hwnd := hwnd b; hicon := hicon b;
     current_icon := current_icon b; visible := v;
     activate_callback := activate_callback b;
     activate_userdata := activate_userdata b;
     menu_callback := menu_callback b; menu_userdata := menu_userdata b;
     embedded_callback := embedded_callback b;
     embedded_userdata := embedded_userdata b |}.

Definition with_activate (b : TrayBackend) (cb : option fnptr) (ud : gpointer) :=
  {| nid := nid b; hwnd := hwnd b; hicon := hicon b;
     current_icon := current_icon b; visible := visible b;
     activate_callback := cb; activate_userdata := ud;
     menu_callback := menu_callback b; menu_userdata := menu_userdata b;
     embedded_callback := embedded_callback b;
     embedded_userdata := embedded_userdata b |}.

Definition with_menu (b : TrayBackend) (cb : option fnptr) (ud : gpointer) :=
  {| nid := nid b; hwnd := hwnd b; hicon := hicon b;
     current_icon := current_icon b; visible := visible b;
     activate_callback := activate_callback b;
     activate_userdata := activate_userdata b;
     menu_callback := cb; menu_userdata := ud;
     embedded_callback := embedded_callback b;
     embedded_userdata := embedded_userdata b |}.

Definition with_embedded (b : TrayBackend) (cb : option fnptr) (ud : gpointer) :=
  {| nid := nid b; hwnd := hwnd b; hicon := hicon b;
     current_icon := current_icon b; visible := visible b;
     activate_callback := activate_callback b;
     activate_userdata := activate_userdata b;
     menu_callback := menu_callback b; menu_userdata := menu_userdata b;
     embedded_callback := cb; embedded_userdata := ud |}.

(** *** Calls the backend makes: Win32, GObject, and host callbacks *)

Inductive Event :=
| RegisterClassExW
| CreateWindowExW
| SetWindowLongPtr (h : HWND)
| DestroyWindow (h : HWND)
| Shell_NotifyIconW (msg : NIM) (data : NOTIFYICONDATAW)
| DestroyIcon (h : HICON)
| g_object_ref (p : GdkPixbuf)
| g_object_unref (p : GdkPixbuf)
| g_free_backend
| call_click (cb : fnptr) (userdata : gpointer).

Definition is_request (m : NIM) (e : Event) : bool :=
  match e, m with
  | Shell_NotifyIconW NIM_ADD _, NIM_ADD => true
  | Shell_NotifyIconW NIM_MODIFY _, NIM_MODIFY => true
  | Shell_NotifyIconW NIM_DELETE _, NIM_DELETE => true
  | _, _ => false
  end.

Definition is_call_click (cb : fnptr) (ud : gpointer) (e : Event) : bool :=
  match e with
  | call_click cb' ud' => (cb' =? cb) && (ud' =? ud)
  | _ => false
  end.

(** The requests a trace submits to the shell, in order, each with the
    descriptor it carries. *)
Fixpoint requests (t : list Event) : list (NIM * NOTIFYICONDATAW) :=
  match t with
  | [] => []
  | Shell_NotifyIconW msg data :: t' => (msg, data) :: requests t'
  | _ :: t' => requests t'
  end.

(** The host callbacks a trace invokes, in order. *)
Fixpoint callbacks (t : list Event) : list (fnptr * gpointer) :=
  match t with
  | [] => []
  | call_click cb ud :: t' => (cb, ud) :: callbacks t'
  | _ :: t' => callbacks t'
  end.

(** [MultiByteToWideChar (CP_UTF8, 0, tooltip, -1, szTip, 128)]: the
    contents of [szTip] afterwards, given the text and the old contents.
    The conversion is Win32's and is kept abstract. *)
Definition Utf8ToWide := string -> list WCHAR -> list WCHAR.

Section Operations.
Variable os : Win32.
Variable MultiByteToWideChar : Utf8ToWide.

Local Open Scope eff_scope.
Local Abbreviation io := (@eff Event).

Definition tray_windows_new (icon : option GdkPixbuf) (tooltip : option string)
  : io (option TrayBackend) :=
  let backend := with_visible backend_zero false in
  (* Register window class for hidden window, create hidden window *)
  emit RegisterClassExW ;;
  emit CreateWindowExW ;;
  match CreateWindowExW_result os with
  | None =>
      emit g_free_backend ;;
      ret None
  | Some w =>
      let backend := with_hwnd backend (Some w) in
      (* Associate backend with window *)
      emit (SetWindowLongPtr w) ;;
      (* Initialize NOTIFYICONDATA *)
      let backend :=
        with_nid backend
          {| nid_hWnd := hwnd backend; nid_uID := TRAY_ID;
             nid_uFlags := Z.lor (Z.lor NIF_MESSAGE NIF_ICON) NIF_TIP;
             nid_uCallbackMessage := WM_TRAYICON;
             nid_hIcon := None; nid_szTip := [] |} in
      (* Set initial icon *)
      backend <-
        match icon with
        | Some i =>
            emit (g_object_ref i) ;;
            let backend := with_current_icon backend (Some i) in
            let backend := with_hicon backend (pixbuf_to_hicon os (Some i)) in
            ret (with_nid backend (nid_with_hIcon (nid backend) (hicon backend)))
        | None => ret backend
        end ;;
      (* Set tooltip *)
      let backend :=
        match tooltip with
        | Some t =>
            with_nid backend
              (nid_with_szTip (nid backend)
                 (MultiByteToWideChar t (nid_szTip (nid backend))))
        | None => backend
        end in
      ret (Some backend)
  end.

Definition tray_windows_set_icon (backend : option TrayBackend)
           (icon : option GdkPixbuf) : io (option TrayBackend) :=
  match backend, icon with
  | Some b, Some i =>
      (* Clean up old icon *)
      when_some (hicon b) (fun h => emit (DestroyIcon h)) ;;
      when_some (current_icon b) (fun p => emit (g_object_unref p)) ;;
      (* Set new icon *)
      emit (g_object_ref i) ;;
      let b := with_current_icon b (Some i) in
      let b := with_hicon b (pixbuf_to_hicon os (Some i)) in
      let b := with_nid b (nid_with_hIcon (nid b) (hicon b)) in
      when (visible b) (emit (Shell_NotifyIconW NIM_MODIFY (nid b))) ;;
      ret (Some b)
  | _, _ => ret backend
  end.

Definition tray_windows_set_tooltip (backend : option TrayBackend)
           (tooltip : option string) : io (option TrayBackend) :=
  match backend, tooltip with
  | Some b, Some t =>
      let b := with_nid b
                 (nid_with_szTip (nid b)
                    (MultiByteToWideChar t (nid_szTip (nid b)))) in
      when (visible b) (emit (Shell_NotifyIconW NIM_MODIFY (nid b))) ;;
      ret (Some b)
  | _, _ => ret backend
  end.

Definition tray_windows_set_visible (backend : option TrayBackend)
           (visible' : bool) : io (option TrayBackend) :=
  match backend with
  | None => ret None
  | Some b =>
      if visible' && negb (visible b) then
        emit (Shell_NotifyIconW NIM_ADD (nid b)) ;;
        let b := with_visible b true in
        when_some (embedded_callback b)
                  (fun cb => emit (call_click cb (embedded_userdata b))) ;;
        ret (Some b)
      else if negb visible' && visible b then
        emit (Shell_NotifyIconW NIM_DELETE (nid b)) ;;
        ret (Some (with_visible b false))
      else ret (Some b)
  end.

Definition tray_windows_is_embedded (backend : option TrayBackend) : bool :=
  match backend with
  | None => false
  | Some b => visible b
  end.

Definition tray_windows_set_activate_callback (backend : option TrayBackend)
           (callback : option fnptr) (userdata : gpointer)
  : io (option TrayBackend) :=
  match backend with
  | None => ret None
  | Some b => ret (Some (with_activate b callback userdata))
  end.

Definition tray_windows_set_menu_callback (backend : option TrayBackend)
           (callback : option fnptr) (userdata : gpointer)
  : io (option TrayBackend) :=
  match backend with
  | None => ret None
  | Some b => ret (Some (with_menu b callback userdata))
  end.

Definition tray_windows_set_embedded_callback (backend : option TrayBackend)
           (callback : option fnptr) (userdata : gpointer)
  : io (option TrayBackend) :=
  match backend with
  | None => ret None
  | Some b => ret (Some (with_embedded b callback userdata))
  end.

(** The handle is freed: the result is the dangling pointer's target,
    [None]. *)
Definition tray_windows_destroy (backend : option TrayBackend)
  : io (option TrayBackend) :=
  match backend with
  | None => ret None
  | Some b =>
      (* Remove tray icon *)
      when (visible b) (emit (Shell_NotifyIconW NIM_DELETE (nid b))) ;;
      (* Clean up icon *)
      when_some (hicon b) (fun h => emit (DestroyIcon h)) ;;
      when_some (current_icon b) (fun p => emit (g_object_unref p)) ;;
      (* Destroy window *)
      when_some (hwnd b) (fun w => emit (DestroyWindow w)) ;;
      emit g_free_backend ;;
      ret None
  end.

End Operations.

(** *** The hidden window's procedure *)

Definition GDK_CURRENT_TIME : Z := 0.






(** *** The host's use of a handle

    Between creation and destruction the host calls the operations in any
    order, any number of times; each call meets its own Win32. *)
Inductive Call :=
| set_icon (os : Win32) (icon : option GdkPixbuf)
| set_tooltip (MultiByteToWideChar : Utf8ToWide) (tooltip : option string)
| set_visible (visible : bool)
| set_activate_callback (callback : option fnptr) (userdata : gpointer)
| set_menu_callback (callback : option fnptr) (userdata : gpointer)
| set_embedded_callback (callback : option fnptr) (userdata : gpointer).

Definition call (c : Call) (backend : option TrayBackend)
  : @eff Event (option TrayBackend) :=
  match c with
  | set_icon os icon => tray_windows_set_icon os backend icon
  | set_tooltip mb t => tray_windows_set_tooltip mb backend t
  | set_visible v => tray_windows_set_visible backend v
  | set_activate_callback cb ud => tray_windows_set_activate_callback backend cb ud
  | set_menu_callback cb ud => tray_windows_set_menu_callback backend cb ud
  | set_embedded_callback cb ud => tray_windows_set_embedded_callback backend cb ud
  end.

Fixpoint calls (cs : list Call) (backend : option TrayBackend)
  : @eff Event (option TrayBackend) :=
  match cs with
  | [] => ret backend
  | c :: cs' => bind (call c backend) (calls cs')
  end.

(** A whole life: creation, the host's calls, destruction. *)
Definition lifetime (os : Win32) (mb : Utf8ToWide) (icon : option GdkPixbuf)
           (tooltip : option string) (cs : list Call)
  : @eff Event (option TrayBackend) :=
  bind (tray_windows_new os mb icon tooltip) (fun b =>
  bind (calls cs b) tray_windows_destroy).

(** The order of the requests for the one icon id this backend uses,
    followed against a flag that says whether the icon was last added:
    "add" is in order only while the flag is false, "modify" and "delete"
    only while it is true.  The result is the flag after the requests, or
    [None] if one of them was out of order. *)
Fixpoint requests_in_order (added : bool) (rs : list (NIM * NOTIFYICONDATAW))
  : option bool :=
  match rs with
  | [] => Some added
  | (NIM_ADD, _) :: rs' => if added then None else requests_in_order true rs'
  | (NIM_MODIFY, _) :: rs' => if added then requests_in_order true rs' else None
  | (NIM_DELETE, _) :: rs' => if added then requests_in_order false rs' else None
  end.

(** The shell's side.  [Shell_NotifyIconW] answers a BOOL, which the
    backend never reads: [grants m n] is that answer for a request the shell
    could carry out.  An "add" for an icon already registered fails, and so
    do "modify" and "delete" for one that is not. *)
Definition Shell := NIM -> NOTIFYICONDATAW -> bool.

(** Whether the icon is registered with the shell after the requests. *)
Fixpoint shell_state (grants : Shell) (registered : bool)
         (rs : list (NIM * NOTIFYICONDATAW)) : bool :=
  match rs with
  | [] => registered
  | (NIM_ADD, n) :: rs' =>
      shell_state grants (if registered then true else grants NIM_ADD n) rs'
  | (NIM_MODIFY, _) :: rs' => shell_state grants registered rs'
  | (NIM_DELETE, n) :: rs' =>
      shell_state grants (if registered then negb (grants NIM_DELETE n) else false)
                  rs'
  end.

(** A shell that grants every request, one that refuses every request, and
    one that answers as [s] does except that it grants every "delete". *)
Definition granting : Shell := fun _ _ => true.

Definition refusing : Shell := fun _ _ => false.

Definition granting_delete (s : Shell) : Shell :=
  fun m n =>
    match m with
    | NIM_DELETE => true
    | _ => s m n
    end.

(** The visibility the host asked for last, [d] if it never asked. *)
Fixpoint last_visible (cs : list Call) (d : bool) : bool :=
  match cs with
  | [] => d
  | set_visible v :: cs' => last_visible cs' v
  | _ :: cs' => last_visible cs' d
  end.

Definition is_ref (e : Event) : bool :=
  match e with g_object_ref _ => true | _ => false end.

Definition is_unref (e : Event) : bool :=
  match e with g_object_unref _ => true | _ => false end.

Definition is_DestroyIcon (e : Event) : bool :=
  match e with DestroyIcon _ => true | _ => false end.

Definition is_DestroyWindow (e : Event) : bool :=
  match e with DestroyWindow _ => true | _ => false end.

(** Whether a call builds a native icon: [set_icon] with an image whose
    conversion succeeds. *)
Definition builds_icon (c : Call) : bool :=
  match c with
  | set_icon os (Some i) =>
      match pixbuf_to_hicon os (Some i) with Some _ => true | None => false end
  | _ => false
  end.


(** A descriptor that designates this backend's icon: id [TRAY_ID] on the
    hidden window [w], with messages sent back as [WM_TRAYICON] and the
    message, icon and tip fields declared valid. *)
Definition designates (w : HWND) (n : NOTIFYICONDATAW) : Prop :=
  nid_hWnd n = Some w /\ nid_uID n = TRAY_ID /\
  nid_uFlags n = 7 /\ nid_uCallbackMessage n = WM_TRAYICON.

(** *** What a trace takes and gives back, object by object *)

(** The images a trace takes a reference on, in order. *)
Definition refs (t : list Event) : list GdkPixbuf :=
  flat_map (fun e => match e with g_object_ref p => [p] | _ => [] end) t.

(** The images a trace drops a reference on, in order. *)
Definition unrefs (t : list Event) : list GdkPixbuf :=
  flat_map (fun e => match e with g_object_unref p => [p] | _ => [] end) t.

(** The native icons and the windows a trace destroys, in order. *)
Definition icons_destroyed (t : list Event) : list HICON :=
  flat_map (fun e => match e with DestroyIcon h => [h] | _ => [] end) t.

Definition windows_destroyed (t : list Event) : list HWND :=
  flat_map (fun e => match e with DestroyWindow w => [w] | _ => [] end) t.

(** The image a call hands to the backend to keep, and the native icon the
    call builds from it. *)
Definition image_given (c : Call) : list GdkPixbuf :=
  match c with
  | set_icon _ (Some i) => [i]
  | _ => []
  end.

Definition icon_built (c : Call) : list HICON :=
  match c with
  | set_icon os (Some i) => pointee (pixbuf_to_hicon os (Some i))
  | _ => []
  end.

End TrayWindows.

(* ------------------------------------------------------------------------- *)
(** ** tray-linux.c: the AppIndicator backend *)

Module TrayLinux.

Local Open Scope string_scope.

(** *** GLib string helpers, for the file names this backend builds *)

(** ["%d"] / ["%ld"] of [g_strdup_printf]. *)
Definition decimal (n : Z) : string := NilZero.string_of_int (Z.to_int n).

(** The text before and after the last ['/'] of a path, if it has one. *)
Fixpoint split_last_slash (s : string) : option (string * string) :=
  match s with
  | EmptyString => None
  | String c rest =>
      match split_last_slash rest with
      | Some (dir, base) => Some (String c dir, base)
      | None => if Ascii.eqb c "/" then Some ("", rest) else None
      end
  end.

(** [g_path_get_dirname] and [g_path_get_basename], for a file name with
    no trailing or doubled separator (all this backend passes). *)
Definition g_path_get_dirname (path : string) : string :=
  match split_last_slash path with
  | None => "."
  | Some (EmptyString, _) => "/"
  | Some (dir, _) => dir
  end.

Definition g_path_get_basename (path : string) : string :=
  match split_last_slash path with
  | None => path
  | Some (_, base) => base
  end.

(** [g_strndup (s, strlen (s) - 4)]: the count is a [gsize], so for a
    string shorter than four characters it wraps to a huge value and the
    whole string is copied. *)
Definition strip_extension (s : string) : string :=
  if (String.length s <? 4)%nat then s
  else substring 0 (String.length s - 4) s.

(** *** GTK and AppIndicator objects *)

(** A widget, identified by its address. *)
Definition GtkWidget := Z.

(** The persistent menu container: the [GtkMenu] widget and its children
    in order. *)
Record GtkMenu := {
  menu_widget : GtkWidget;
  menu_children : list GtkWidget
}.

Inductive AppIndicatorStatus :=
| APP_INDICATOR_STATUS_PASSIVE
| APP_INDICATOR_STATUS_ACTIVE
| APP_INDICATOR_STATUS_ATTENTION.

Definition status_eqb (a b : AppIndicatorStatus) : bool :=
  match a, b with
  | APP_INDICATOR_STATUS_PASSIVE, APP_INDICATOR_STATUS_PASSIVE
  | APP_INDICATOR_STATUS_ACTIVE, APP_INDICATOR_STATUS_ACTIVE
  | APP_INDICATOR_STATUS_ATTENTION, APP_INDICATOR_STATUS_ATTENTION => true
  | _, _ => false
  end.

(** The properties of the native indicator object this backend sets or
    reads.  [app_indicator_new] leaves the status at its default,
    passive. *)
Record AppIndicator := {
  ai_id : string;
  ai_status : AppIndicatorStatus;
  ai_icon_theme_path : option string;
  ai_icon_name : string;
  ai_icon_desc : option string;
  ai_title : option string;
  ai_menu : option GtkWidget
}.

Definition indicator_new (id icon_name : string) : AppIndicator :=
  {| ai_id := id; ai_status := APP_INDICATOR_STATUS_PASSIVE;
     ai_icon_theme_path := None; ai_icon_name := icon_name;
     ai_icon_desc := None; ai_title := None; ai_menu := None |}.

Definition indicator_set_icon_theme_path (i : AppIndicator) (dir : string) :=
  {| ai_id := ai_id i; ai_status := ai_status i;
     ai_icon_theme_path := Some dir; ai_icon_name := ai_icon_name i;
     ai_icon_desc := ai_icon_desc i; ai_title := ai_title i;
     ai_menu := ai_menu i |}.

Definition indicator_set_icon_full (i : AppIndicator) (name : string)
           (desc : option string) :=
  {| ai_id := ai_id i; ai_status := ai_status i;
     ai_icon_theme_path := ai_icon_theme_path i; ai_icon_name := name;
     ai_icon_desc := desc; ai_title := ai_title i; ai_menu := ai_menu i |}.

Definition indicator_set_menu (i : AppIndicator) (m : GtkWidget) :=
  {| ai_id := ai_id i; ai_status := ai_status i;
     ai_icon_theme_path := ai_icon_theme_path i;
     ai_icon_name := ai_icon_name i; ai_icon_desc := ai_icon_desc i;
     ai_title := ai_title i; ai_menu := Some m |}.

Definition indicator_set_status (i : AppIndicator) (s : AppIndicatorStatus) :=
  {| ai_id := ai_id i; ai_status := s;
     ai_icon_theme_path := ai_icon_theme_path i;
     ai_icon_name := ai_icon_name i; ai_icon_desc := ai_icon_desc i;
     ai_title := ai_title i; ai_menu := ai_menu i |}.

Definition indicator_set_title (i : AppIndicator) (t : string) :=
  {| ai_id := ai_id i; ai_status := ai_status i;
     ai_icon_theme_path := ai_icon_theme_path i;
     ai_icon_name := ai_icon_name i; ai_icon_desc := ai_icon_desc i;
     ai_title := Some t; ai_menu := ai_menu i |}.

(** *** The handle *)

(** [struct _TrayBackend].  The menu callback is a function pointer; what
    the host's function does to the menu is given separately ([HostMenu]). *)
Record TrayBackend := {
  indicator : option AppIndicator;
  menu : option GtkMenu;
  current_icon : option GdkPixbuf;
  icon_name : option string;
  temp_icon_path : option string;
  activate_callback : option fnptr;
  activate_userdata : gpointer;
  menu_callback : option fnptr;
  menu_userdata : gpointer;
  embedded_callback : option fnptr;
  embedded_userdata : gpointer
}.

(** [g_new0 (TrayBackend, 1)] *)
Definition backend_zero : TrayBackend :=
  {| indicator := None; menu := None; current_icon := None;
     icon_name := None; temp_icon_path := None;
     activate_callback := None; activate_userdata := 0;
     menu_callback := None; menu_userdata := 0;
     embedded_callback := None; embedded_userdata := 0 |}.

Definition with_indicator (b : TrayBackend) (i : option AppIndicator) :=
  {| indicator := i; menu := menu b; current_icon := current_icon b;
     icon_name := icon_name b; temp_icon_path := temp_icon_path b;
     activate_callback := activate_callback b;
     activate_userdata := activate_userdata b;
     menu_callback := menu_callback b; menu_userdata := menu_userdata b;
     embedded_callback := embedded_callback b;
     embedded_userdata := embedded_userdata b |}.

Definition with_menu (b : TrayBackend) (m : option GtkMenu) :=
  {| indicator := indicator b; menu := m; current_icon := current_icon b;
     icon_name := icon_name b; temp_icon_path := temp_icon_path b;
     activate_callback := activate_callback b;
     activate_userdata := activate_userdata b;
     menu_callback := menu_callback b; menu_userdata := menu_userdata b;
     embedded_callback := embedded_callback b;
     embedded_userdata := embedded_userdata b |}.

Definition with_current_icon (b : TrayBackend) (p : option GdkPixbuf) :=
  {| indicator := indicator b; menu := menu b; current_icon := p;
     icon_name := icon_name b; temp_icon_path := temp_icon_path b;
     activate_callback := activate_callback b;
     activate_userdata := activate_userdata b;
     menu_callback := menu_callback b; menu_userdata := menu_userdata b;
     embedded_callback := embedded_callback b;
     embedded_userdata := embedded_userdata b |}.

Definition with_icon_name (b : TrayBackend) (n : option string) :=
  {| indicator := indicator b; menu := menu b; current_icon := current_icon b;
     icon_name := n; temp_icon_path := temp_icon_path b;
     activate_callback := activate_callback b;
     activate_userdata := activate_userdata b;
     menu_callback := menu_callback b; menu_userdata := menu_userdata b;
     embedded_callback := embedded_callback b;
     embedded_userdata := embedded_userdata b |}.

Definition with_temp_icon_path (b : TrayBackend) (p : option string) :=
  {| indicator := indicator b; menu := menu b; current_icon := current_icon b;
     icon_name := icon_name b; temp_icon_path := p;
     activate_callback := activate_callback b;
     activate_userdata := activate_userdata b;
     menu_callback := menu_callback b; menu_userdata := menu_userdata b;
     embedded_callback := embedded_callback b;
     embedded_userdata := embedded_userdata b |}.

Definition with_activate_callback (b : TrayBackend) (cb : option fnptr)
           (ud : gpointer) :=
  {| indicator := indicator b; menu := menu b; current_icon := current_icon b;
     icon_name := icon_name b; temp_icon_path := temp_icon_path b;
     activate_callback := cb; activate_userdata := ud;
     menu_callback := menu_callback b; menu_userdata := menu_userdata b;
     embedded_callback := embedded_callback b;
     embedded_userdata := embedded_userdata b |}.

Definition with_menu_callback (b : TrayBackend) (cb : option fnptr)
           (ud : gpointer) :=
  {| indicator := indicator b; menu := menu b; current_icon := current_icon b;
     icon_name := icon_name b; temp_icon_path := temp_icon_path b;
     activate_callback := activate_callback b;
     activate_userdata := activate_userdata b;
     menu_callback := cb; menu_userdata := ud;
     embedded_callback := embedded_callback b;
     embedded_userdata := embedded_userdata b |}.

Definition with_embedded_callback (b : TrayBackend) (cb : option fnptr)
           (ud : gpointer) :=
  {| indicator := indicator b; menu := menu b; current_icon := current_icon b;
     icon_name := icon_name b; temp_icon_path := temp_icon_path b;
     activate_callback := activate_callback b;
     activate_userdata := activate_userdata b;
     menu_callback := menu_callback b; menu_userdata := menu_userdata b;
     embedded_callback := cb; embedded_userdata := ud |}.

(** *** Calls the backend makes *)

Inductive Event :=
| app_indicator_new (id icon : string)
| app_indicator_set_icon_theme_path (dir : string)
| app_indicator_set_icon_full (name : string) (desc : option string)
| app_indicator_set_menu (m : GtkWidget)
| app_indicator_set_status (s : AppIndicatorStatus)
| app_indicator_set_title (t : string)
| gtk_menu_new (w : GtkWidget)
| gtk_widget_destroy (w : GtkWidget)
| gdk_pixbuf_save (p : GdkPixbuf) (filename : string)
| g_warning (msg : string)
| unlink (path : string)
| g_object_ref (p : GdkPixbuf)
| g_object_unref (p : GdkPixbuf)
| g_object_unref_indicator
| g_free_backend
| call_click (cb : fnptr) (userdata : gpointer)
| call_menu (cb : fnptr) (widget : option GtkWidget) (button time : Z)
            (userdata : gpointer).

Definition is_call_menu (e : Event) : bool :=
  match e with
  | call_menu _ _ _ _ _ => true
  | _ => false
  end.

Definition is_icon_registration (e : Event) : bool :=
  match e with
  | app_indicator_set_icon_theme_path _ => true
  | app_indicator_set_icon_full _ _ => true
  | _ => false
  end.

(** What the process sees of its surroundings during one call. *)
Record Posix := {
  getpid : Z;
  g_get_real_time : Z;
  (** whether [gdk_pixbuf_save (pixbuf, filename, "png", ...)] succeeds *)
  gdk_pixbuf_save_ok : GdkPixbuf -> string -> bool;
  (** the message of the [GError] a failed [gdk_pixbuf_save] reports, if
      it reports one *)
  gdk_pixbuf_save_error : GdkPixbuf -> string -> option string;
  (** the widget [gtk_menu_new] returns *)
  gtk_menu_new_result : GtkWidget
}.

(** The host's menu-building function at address [cb]: the children of the
    menu container when it returns, given the container it was passed
    (with its children at the call), button, time and user data. *)
Definition HostMenu :=
  fnptr -> GtkMenu -> Z -> Z -> gpointer -> list GtkWidget.

Section Operations.
Variable os : Posix.
Variable host : HostMenu.

Local Open Scope eff_scope.
Local Abbreviation io := (@eff Event).

(** Convert GdkPixbuf to temporary icon file for AppIndicator *)
Definition save_pixbuf_to_temp (pixbuf : GdkPixbuf) (name : string)
  : io (option string) :=
  let filename :=
    "/tmp/pchat-tray-" ++ name ++ "-" ++ decimal (getpid os) ++ ".png" in
  emit (gdk_pixbuf_save pixbuf filename) ;;
  if negb (gdk_pixbuf_save_ok os pixbuf filename) then
    let error := gdk_pixbuf_save_error os pixbuf filename in
    emit (g_warning ("Failed to save tray icon: "
                     ++ match error with
                        | Some message => message
                        | None => "unknown error"
                        end)) ;;
    ret None
  else ret (Some filename).

(** A call [app_indicator_set_...(backend->indicator, ...)]; on a NULL
    indicator the library returns without doing anything. *)
Definition indicator_call (b : TrayBackend) (e : Event)
           (f : AppIndicator -> AppIndicator) : io TrayBackend :=
  emit e ;;
  ret (with_indicator b (option_map f (indicator b))).

(** The block both [tray_linux_new] and [tray_linux_set_icon] run when
    the file was written: register its directory and base name. *)
Definition register_icon (b : TrayBackend) (path : string)
           (desc : option string) : io TrayBackend :=
  let dirname := g_path_get_dirname path in
  let basename := g_path_get_basename path in
  let name_without_ext := strip_extension basename in
  b <- indicator_call b (app_indicator_set_icon_theme_path dirname)
         (fun i => indicator_set_icon_theme_path i dirname) ;;
  indicator_call b (app_indicator_set_icon_full name_without_ext desc)
    (fun i => indicator_set_icon_full i name_without_ext desc).

(** Activation handler - called when clicking restore/hide menu item *)
Definition on_activate_clicked (userdata : option TrayBackend) : io unit :=
  match userdata with
  | Some backend =>
      when_some (activate_callback backend)
                (fun cb => emit (call_click cb (activate_userdata backend)))
  | None => ret tt
  end.

Definition tray_linux_new (icon : option GdkPixbuf) (tooltip : option string)
  : io (option TrayBackend) :=
  let backend := backend_zero in
  (* Create AppIndicator *)
  emit (app_indicator_new "pchat-tray" "pchat") ;;
  let backend :=
    with_indicator backend (Some (indicator_new "pchat-tray" "pchat")) in
  (* Set initial icon *)
  backend <-
    match icon with
    | Some i =>
        emit (g_object_ref i) ;;
        let backend := with_current_icon backend (Some i) in
        let backend := with_icon_name backend (Some "pchat-normal") in
        path <- save_pixbuf_to_temp i "pchat-normal" ;;
        let backend := with_temp_icon_path backend path in
        match temp_icon_path backend with
        | Some p => register_icon backend p tooltip
        | None => ret backend
        end
    | None => ret backend
    end ;;
  (* Create empty menu *)
  emit (gtk_menu_new (gtk_menu_new_result os)) ;;
  let m := {| menu_widget := gtk_menu_new_result os; menu_children := [] |} in
  let backend := with_menu backend (Some m) in
  backend <- indicator_call backend (app_indicator_set_menu (menu_widget m))
               (fun i => indicator_set_menu i (menu_widget m)) ;;
  (* Set status to active (visible) *)
  backend <- indicator_call backend
               (app_indicator_set_status APP_INDICATOR_STATUS_ACTIVE)
               (fun i => indicator_set_status i APP_INDICATOR_STATUS_ACTIVE) ;;
  ret (Some backend).

Definition tray_linux_set_icon (backend : option TrayBackend)
           (icon : option GdkPixbuf) : io (option TrayBackend) :=
  match backend, icon with
  | Some b, Some i =>
      (* Clean up old icon *)
      when_some (current_icon b) (fun p => emit (g_object_unref p)) ;;
      when_some (temp_icon_path b) (fun p => emit (unlink p)) ;;
      (* Save new icon *)
      emit (g_object_ref i) ;;
      let b := with_current_icon b (Some i) in
      let name := "pchat-" ++ decimal (g_get_real_time os) in
      let b := with_icon_name b (Some name) in
      path <- save_pixbuf_to_temp i name ;;
      let b := with_temp_icon_path b path in
      b <- match temp_icon_path b with
           | Some p => register_icon b p (Some "PChat")
           | None => ret b
           end ;;
      ret (Some b)
  | _, _ => ret backend
  end.

Definition tray_linux_set_tooltip (backend : option TrayBackend)
           (tooltip : option string) : io (option TrayBackend) :=
  match backend, tooltip with
  | Some b, Some t =>
      b <- indicator_call b (app_indicator_set_title t)
             (fun i => indicator_set_title i t) ;;
      ret (Some b)
  | _, _ => ret backend
  end.

Definition tray_linux_set_visible (backend : option TrayBackend)
           (visible : bool) : io (option TrayBackend) :=
  match backend with
  | None => ret None
  | Some b =>
      let s := if visible then APP_INDICATOR_STATUS_ACTIVE
               else APP_INDICATOR_STATUS_PASSIVE in
      b <- indicator_call b (app_indicator_set_status s)
             (fun i => indicator_set_status i s) ;;
      ret (Some b)
  end.

(** [app_indicator_get_status] answers passive for a NULL indicator. *)
Definition tray_linux_is_embedded (backend : option TrayBackend) : bool :=
  match backend with
  | None => false
  | Some b =>
      let status := match indicator b with
                    | Some i => ai_status i
                    | None => APP_INDICATOR_STATUS_PASSIVE
                    end in
      status_eqb status APP_INDICATOR_STATUS_ACTIVE
  end.

Definition tray_linux_set_activate_callback (backend : option TrayBackend)
           (callback : option fnptr) (userdata : gpointer)
  : io (option TrayBackend) :=
  match backend with
  | None => ret None
  | Some b => ret (Some (with_activate_callback b callback userdata))
  end.

Definition tray_linux_set_menu_callback (backend : option TrayBackend)
           (callback : option fnptr) (userdata : gpointer)
  : io (option TrayBackend) :=
  match backend with
  | None => ret None
  | Some b =>
      let b := with_menu_callback b callback userdata in
      (* Build initial menu *)
      match callback, menu b with
      | Some cb, Some m =>
          emit (call_menu cb (Some (menu_widget m)) 3 0 userdata) ;;
          let m := {| menu_widget := menu_widget m;
                      menu_children := host cb m 3 0 userdata |} in
          ret (Some (with_menu b (Some m)))
      | _, _ => ret (Some b)
      end
  end.

Definition tray_linux_set_embedded_callback (backend : option TrayBackend)
           (callback : option fnptr) (userdata : gpointer)
  : io (option TrayBackend) :=
  match backend with
  | None => ret None
  | Some b => ret (Some (with_embedded_callback b callback userdata))
  end.

(** [gtk_widget_destroy] on a child takes it out of its container. *)
Definition menu_remove (w : GtkWidget) (m : GtkMenu) : GtkMenu :=
  {| menu_widget := menu_widget m;
     menu_children := List.filter (fun c => negb (Z.eqb c w)) (menu_children m) |}.

(** [for (iter = children; iter != NULL; iter = iter->next)
       gtk_widget_destroy (iter->data);]
    over the list [gtk_container_get_children] returned. *)
Fixpoint destroy_children (iter : list GtkWidget) (m : GtkMenu) : io GtkMenu :=
  match iter with
  | [] => ret m
  | w :: next =>
      emit (gtk_widget_destroy w) ;;
      destroy_children next (menu_remove w m)
  end.

Definition tray_linux_rebuild_menu (backend : option TrayBackend)
  : io (option TrayBackend) :=
  match backend with
  | None => ret None
  | Some b =>
      match menu b, menu_callback b with
      | Some m, Some cb =>
          (* Clear existing menu items *)
          let children := menu_children m in
          m <- destroy_children children m ;;
          (* Rebuild menu *)
          emit (call_menu cb (Some (menu_widget m)) 3 0 (menu_userdata b)) ;;
          let m := {| menu_widget := menu_widget m;
                      menu_children := host cb m 3 0 (menu_userdata b) |} in
          ret (Some (with_menu b (Some m)))
      | _, _ => ret (Some b)
      end
  end.

(** The handle is freed: nothing of it is left. *)
Definition tray_linux_destroy (backend : option TrayBackend)
  : io (option TrayBackend) :=
  match backend with
  | None => ret None
  | Some b =>
      (* Clean up temporary icon file *)
      when_some (temp_icon_path b) (fun p => emit (unlink p)) ;;
      when_some (current_icon b) (fun p => emit (g_object_unref p)) ;;
      when_some (menu b) (fun m => emit (gtk_widget_destroy (menu_widget m))) ;;
      when_some (indicator b) (fun _ => emit g_object_unref_indicator) ;;
      emit g_free_backend ;;
      ret None
  end.

End Operations.

(** *** The host's use of a handle

    Between creation and destruction the host calls the operations in any
    order, any number of times; each call sees its own surroundings. *)
Inductive Call :=
| set_icon (os : Posix) (icon : option GdkPixbuf)
| set_tooltip (tooltip : option string)
| set_visible (visible : bool)
| set_activate_callback (callback : option fnptr) (userdata : gpointer)
| set_menu_callback (host : HostMenu) (callback : option fnptr)
                    (userdata : gpointer)
| set_embedded_callback (callback : option fnptr) (userdata : gpointer)
| rebuild_menu (host : HostMenu).

Definition call (c : Call) (backend : option TrayBackend)
  : @eff Event (option TrayBackend) :=
  match c with
  | set_icon os icon => tray_linux_set_icon os backend icon
  | set_tooltip t => tray_linux_set_tooltip backend t
  | set_visible v => tray_linux_set_visible backend v
  | set_activate_callback cb ud => tray_linux_set_activate_callback backend cb ud
  | set_menu_callback host cb ud => tray_linux_set_menu_callback host backend cb ud
  | set_embedded_callback cb ud => tray_linux_set_embedded_callback backend cb ud
  | rebuild_menu host => tray_linux_rebuild_menu host backend
  end.

Fixpoint calls (cs : list Call) (backend : option TrayBackend)
  : @eff Event (option TrayBackend) :=
  match cs with
  | [] => ret backend
  | c :: cs' => bind (call c backend) (calls cs')
  end.

(** The handle is live and its menu container is the widget [w]. *)
Definition has_menu (w : GtkWidget) (b : option TrayBackend) : Prop :=
  exists s m, b = Some s /\ menu s = Some m /\ menu_widget m = w.

(** *** Bookkeeping over a handle's life *)

(** The file name [save_pixbuf_to_temp] builds for [name]. *)
Definition temp_file (os : Posix) (name : string) : string :=
  "/tmp/pchat-tray-" ++ name ++ "-" ++ decimal (getpid os) ++ ".png".

(** The warning [save_pixbuf_to_temp] logs when [file] cannot be written. *)
Definition save_warning (os : Posix) (pixbuf : GdkPixbuf) (file : string)
  : string :=
  "Failed to save tray icon: "
  ++ match gdk_pixbuf_save_error os pixbuf file with
     | Some message => message
     | None => "unknown error"
     end.

(** The icon name [tray_linux_set_icon] makes up from the clock. *)
Definition timed_name (os : Posix) : string :=
  "pchat-" ++ decimal (g_get_real_time os).

(** Whether a string is free of path separators. *)
Fixpoint no_slash (s : string) : bool :=
  match s with
  | EmptyString => true
  | String c rest => negb (Ascii.eqb c "/") && no_slash rest
  end.

(** The files a trace unlinks, in order. *)
Fixpoint unlinked (t : list Event) : list string :=
  match t with
  | [] => []
  | unlink p :: t' => p :: unlinked t'
  | _ :: t' => unlinked t'
  end.

(** The file creation writes, if it writes one. *)
Definition written_at_creation (os : Posix) (icon : option GdkPixbuf)
  : list string :=
  match icon with
  | Some i =>
      if gdk_pixbuf_save_ok os i (temp_file os "pchat-normal")
      then [temp_file os "pchat-normal"] else []
  | None => []
  end.

(** The file a call writes, if it writes one: only [set_icon] with an image
    does. *)
Definition written_by (c : Call) : list string :=
  match c with
  | set_icon os (Some i) =>
      if gdk_pixbuf_save_ok os i (temp_file os (timed_name os))
      then [temp_file os (timed_name os)] else []
  | _ => []
  end.

Definition is_ref (e : Event) : bool :=
  match e with g_object_ref _ => true | _ => false end.

Definition is_unref (e : Event) : bool :=
  match e with g_object_unref _ => true | _ => false end.

Definition is_unref_indicator (e : Event) : bool :=
  match e with g_object_unref_indicator => true | _ => false end.

(** What the backend may do to the host's callbacks: call the menu callback,
    and then with the menu container [w], button 3 and time 0; never call a
    click (activate or embedded) callback. *)
Definition callback_use_ok (w : GtkWidget) (e : Event) : Prop :=
  match e with
  | call_menu _ widget button time _ =>
      widget = Some w /\ button = 3 /\ time = 0
  | call_click _ _ => False
  | _ => True
  end.

(** The visibility the host asked for last, [d] if it never asked. *)
Fixpoint last_visible (cs : list Call) (d : bool) : bool :=
  match cs with
  | [] => d
  | set_visible v :: cs' => last_visible cs' v
  | _ :: cs' => last_visible cs' d
  end.

(** A whole life: creation, the host's calls, destruction. *)
Definition lifetime (os : Posix) (icon : option GdkPixbuf)
           (tooltip : option string) (cs : list Call)
  : @eff Event (option TrayBackend) :=
  bind (tray_linux_new os icon tooltip) (fun b =>
  bind (calls cs b) tray_linux_destroy).

(** The state of a live handle that the books rest on: it has its
    indicator, and its menu container is the widget [w]. *)
Definition live (w : GtkWidget) (b : TrayBackend) : Prop :=
  (exists ind, indicator b = Some ind) /\
  (exists m, menu b = Some m /\ menu_widget m = w).

(** The images a trace takes a reference on, and those it drops a
    reference on, in order. *)
Definition refs (t : list Event) : list GdkPixbuf :=
  flat_map (fun e => match e with g_object_ref p => [p] | _ => [] end) t.

Definition unrefs (t : list Event) : list GdkPixbuf :=
  flat_map (fun e => match e with g_object_unref p => [p] | _ => [] end) t.

(** The image a call hands to the backend to keep. *)
Definition image_given (c : Call) : list GdkPixbuf :=
  match c with
  | set_icon _ (Some i) => [i]
  | _ => []
  end.

End TrayLinux.

(* ------------------------------------------------------------------------- *)
(** ** tray-macos.m: the NSStatusBar backend *)

Module TrayMacos.

Local Open Scope string_scope.

(** *** Cocoa objects *)

(** An [NSImage] holding one [NSBitmapImageRep]: RGBA, eight bits per
    sample, [width * 4] bytes per row. *)
Record NSImage := {
  img_pixelsWide : Z;
  img_pixelsHigh : Z;
  img_bitmapData : list guchar;
  img_size : Z * Z;
  img_template : bool
}.

Definition image_setTemplate (i : NSImage) (t : bool) :=
  {| img_pixelsWide := img_pixelsWide i; img_pixelsHigh := img_pixelsHigh i;
     img_bitmapData := img_bitmapData i; img_size := img_size i;
     img_template := t |}.

(** The delegate object: the click target, with its own copy of the
    callbacks. *)
Record PChatTrayDelegate := {
  d_activateCallback : option fnptr;
  d_activateUserdata : gpointer;
  d_menuCallback : option fnptr;
  d_menuUserdata : gpointer
}.

(** [-init] *)
Definition delegate_init : PChatTrayDelegate :=
  {| d_activateCallback := None; d_activateUserdata := 0;
     d_menuCallback := None; d_menuUserdata := 0 |}.

(** The button of a status item.  [btn_target] tells whether its target
    is the handle's delegate. *)
Record NSStatusBarButton := {
  btn_target : bool;
  btn_action : option string;
  btn_title : string;
  btn_image : option NSImage;
  btn_toolTip : option string
}.

Record NSStatusItem := {
  si_autosaveName : option string;
  si_button : option NSStatusBarButton;
  si_visible : bool
}.

Definition button_with_target (b : NSStatusBarButton) (action : string) :=
  {| btn_target := true; btn_action := Some action; btn_title := btn_title b;
     btn_image := btn_image b; btn_toolTip := btn_toolTip b |}.

Definition button_setTitle (b : NSStatusBarButton) (t : string) :=
  {| btn_target := btn_target b; btn_action := btn_action b; btn_title := t;
     btn_image := btn_image b; btn_toolTip := btn_toolTip b |}.

Definition button_setImage (b : NSStatusBarButton) (i : option NSImage) :=
  {| btn_target := btn_target b; btn_action := btn_action b;
     btn_title := btn_title b; btn_image := i; btn_toolTip := btn_toolTip b |}.

Definition button_setToolTip (b : NSStatusBarButton) (t : string) :=
  {| btn_target := btn_target b; btn_action := btn_action b;
     btn_title := btn_title b; btn_image := btn_image b;
     btn_toolTip := Some t |}.

Definition item_setAutosaveName (i : NSStatusItem) (n : string) :=
  {| si_autosaveName := Some n; si_button := si_button i;
     si_visible := si_visible i |}.

Definition item_setVisible (i : NSStatusItem) (v : bool) :=
  {| si_autosaveName := si_autosaveName i; si_button := si_button i;
     si_visible := v |}.

Definition item_with_button (i : NSStatusItem) (b : option NSStatusBarButton) :=
  {| si_autosaveName := si_autosaveName i; si_button := b;
     si_visible := si_visible i |}.

(** *** The handle *)

(** [struct _TrayBackend] *)
Record TrayBackend := {
  statusItem : option NSStatusItem;
  currentImage : option NSImage;
  delegate : option PChatTrayDelegate;
  currentIcon : option GdkPixbuf;
  tooltip : option string;
  visible : bool;
  activateCallback : option fnptr;
  activateUserdata : gpointer;
  menuCallback : option fnptr;
  menuUserdata : gpointer;
  embeddedCallback : option fnptr;
  embeddedUserdata : gpointer
}.

(** [g_new0 (TrayBackend, 1)] *)
Definition backend_zero : TrayBackend :=
  {| statusItem := None; currentImage := None; delegate := None;
     currentIcon := None; tooltip := None; visible := false;
     activateCallback := None; activateUserdata := 0;
     menuCallback := None; menuUserdata := 0;
     embeddedCallback := None; embeddedUserdata := 0 |}.

Definition with_statusItem (b : TrayBackend) (i : option NSStatusItem) :=
  {| statusItem := i; currentImage := currentImage b; delegate := delegate b;
     currentIcon := currentIcon b; tooltip := tooltip b; visible := visible b;
     activateCallback := activateCallback b;
     activateUserdata := activateUserdata b;
     menuCallback := menuCallback b; menuUserdata := menuUserdata b;
     embeddedCallback := embeddedCallback b;
     embeddedUserdata := embeddedUserdata b |}.

Definition with_currentImage (b : TrayBackend) (i : option NSImage) :=
  {| statusItem := statusItem b; currentImage := i; delegate := delegate b;
     currentIcon := currentIcon b; tooltip := tooltip b; visible := visible b;
     activateCallback := activateCallback b;
     activateUserdata := activateUserdata b;
     menuCallback := menuCallback b; menuUserdata := menuUserdata b;
     embeddedCallback := embeddedCallback b;
     embeddedUserdata := embeddedUserdata b |}.

Definition with_delegate (b : TrayBackend) (d : option PChatTrayDelegate) :=
  {| statusItem := statusItem b; currentImage := currentImage b; delegate := d;
     currentIcon := currentIcon b; tooltip := tooltip b; visible := visible b;
     activateCallback := activateCallback b;
     activateUserdata := activateUserdata b;
     menuCallback := menuCallback b; menuUserdata := menuUserdata b;
     embeddedCallback := embeddedCallback b;
     embeddedUserdata := embeddedUserdata b |}.

Definition with_currentIcon (b : TrayBackend) (p : option GdkPixbuf) :=
  {| statusItem := statusItem b; currentImage := currentImage b;
     delegate := delegate b;
     currentIcon := p; tooltip := tooltip b; visible := visible b;
     activateCallback := activateCallback b;
     activateUserdata := activateUserdata b;
     menuCallback := menuCallback b; menuUserdata := menuUserdata b;
     embeddedCallback := embeddedCallback b;
     embeddedUserdata := embeddedUserdata b |}.

Definition with_tooltip (b : TrayBackend) (t : option string) :=
  {| statusItem := statusItem b; currentImage := currentImage b;
     delegate := delegate b;
     currentIcon := currentIcon b; tooltip := t; visible := visible b;
     activateCallback := activateCallback b;
     activateUserdata := activateUserdata b;
     menuCallback := menuCallback b; menuUserdata := menuUserdata b;
     embeddedCallback := embeddedCallback b;
     embeddedUserdata := embeddedUserdata b |}.

Definition with_visible (b : TrayBackend) (v : bool) :=
  {| statusItem := statusItem b; currentImage := currentImage b;
     delegate := delegate b;
     currentIcon := currentIcon b; tooltip := tooltip b; visible := v;
     activateCallback := activateCallback b;
     activateUserdata := activateUserdata b;
     menuCallback := menuCallback b; menuUserdata := menuUserdata b;
     embeddedCallback := embeddedCallback b;
     embeddedUserdata := embeddedUserdata b |}.

Definition with_activateCallback (b : TrayBackend) (cb : option fnptr)
           (ud : gpointer) :=
  {| statusItem := statusItem b; currentImage := currentImage b;
     delegate := delegate b;
     currentIcon := currentIcon b; tooltip := tooltip b; visible := visible b;
     activateCallback := cb; activateUserdata := ud;
     menuCallback := menuCallback b; menuUserdata := menuUserdata b;
     embeddedCallback := embeddedCallback b;
     embeddedUserdata := embeddedUserdata b |}.

Definition with_menuCallback (b : TrayBackend) (cb : option fnptr)
           (ud : gpointer) :=
  {| statusItem := statusItem b; currentImage := currentImage b;
     delegate := delegate b;
     currentIcon := currentIcon b; tooltip := tooltip b; visible := visible b;
     activateCallback := activateCallback b;
     activateUserdata := activateUserdata b;
     menuCallback := cb; menuUserdata := ud;
     embeddedCallback := embeddedCallback b;
     embeddedUserdata := embeddedUserdata b |}.

Definition with_embeddedCallback (b : TrayBackend) (cb : option fnptr)
           (ud : gpointer) :=
  {| statusItem := statusItem b; currentImage := currentImage b;
     delegate := delegate b;
     currentIcon := currentIcon b; tooltip := tooltip b; visible := visible b;
     activateCallback := activateCallback b;
     activateUserdata := activateUserdata b;
     menuCallback := menuCallback b; menuUserdata := menuUserdata b;
     embeddedCallback := cb; embeddedUserdata := ud |}.

(** Structure for deferred status item creation.  Its [backend] pointer
    is the handle [tray_macos_new] returned: the [Process] below keeps the
    two together. *)
Record DeferredTrayData := {
  d_icon : option GdkPixbuf;
  d_tooltip : option string;
  d_attempts : Z
}.

Definition with_attempts (d : DeferredTrayData) (n : Z) :=
  {| d_icon := d_icon d; d_tooltip := d_tooltip d; d_attempts := n |}.

(** The handle's struct together with the GLib timeout source that still
    polls for it ([None] once the source was removed). *)
Record Process := {
  heap_backend : TrayBackend;
  timeout_source : option DeferredTrayData
}.

(** *** Calls the backend makes *)

(** Messages are listed only when they reach an object: in Objective-C a
    message sent to [nil] does nothing and answers [nil] / [NO]. *)
Inductive Event :=
| NSStatusBar_statusItemWithLength (len : Z)
| NSStatusBar_removeStatusItem
| NSStatusItem_setAutosaveName (n : string)
| NSStatusItem_setVisible (v : bool)
| NSStatusItem_release
| NSButton_setTarget_action (action : string)
| NSButton_sendActionOn
| NSButton_setTitle (t : string)
| NSButton_setImage
| NSButton_setToolTip (t : string)
| NSImage_setTemplate (t : bool)
| NSImage_release
| Delegate_alloc_init
| Delegate_setActivateCallback (cb : option fnptr) (ud : gpointer)
| Delegate_setMenuCallback (cb : option fnptr) (ud : gpointer)
| Delegate_release
| g_timeout_add (ms : Z)
| g_object_ref (p : GdkPixbuf)
| g_object_unref (p : GdkPixbuf)
| g_free_data
| g_free_backend
| call_click (cb : fnptr) (userdata : gpointer)
| call_menu (cb : fnptr) (button time : Z) (userdata : gpointer).

(** The calls that allocate a native status item, and those made on one
    (the item itself or its button). *)
Definition allocates_status_item (e : Event) : bool :=
  match e with
  | NSStatusBar_statusItemWithLength _ => true
  | _ => false
  end.

Definition touches_status_item (e : Event) : bool :=
  match e with
  | NSStatusBar_removeStatusItem
  | NSStatusItem_setAutosaveName _
  | NSStatusItem_setVisible _
  | NSStatusItem_release
  | NSButton_setTarget_action _
  | NSButton_sendActionOn
  | NSButton_setTitle _
  | NSButton_setImage
  | NSButton_setToolTip _ => true
  | _ => false
  end.

(** What Cocoa answers during one call. *)
Record Cocoa := {
  (** [[NSApp isRunning]] *)
  isRunning : bool;
  (** [[statusBar statusItemWithLength:22.0]] *)
  statusItemWithLength_result : option NSStatusItem;
  (** whether [NSBitmapImageRep alloc ... init...] returns an object *)
  NSBitmapImageRep_ok : bool
}.

Definition G_SOURCE_CONTINUE := true.
Definition G_SOURCE_REMOVE := false.
Definition GDK_CURRENT_TIME : Z := 0.

(** Kinds of [NSEvent] the click action tells apart. *)
Inductive NSEventType :=
| NSEventTypeRightMouseUp
| NSEventTypeLeftMouseUp (control : bool)
| NSEventTypeOther.

Section Operations.
Variable os : Cocoa.

Local Open Scope eff_scope.
Local Abbreviation io := (@eff Event).

(** **** The delegate *)

Definition onRightClick (self : PChatTrayDelegate) : io unit :=
  when_some (d_menuCallback self)
            (fun cb => emit (call_menu cb 3 GDK_CURRENT_TIME (d_menuUserdata self))).

Definition onStatusItemClicked (self : PChatTrayDelegate) (event : NSEventType)
  : io unit :=
  match event with
  | NSEventTypeRightMouseUp
  | NSEventTypeLeftMouseUp true => onRightClick self
  | _ =>
      when_some (d_activateCallback self)
                (fun cb => emit (call_click cb (d_activateUserdata self)))
  end.

(** **** pixbuf_to_nsimage *)

Definition copy_pixel (pixels : list byte) (channels src : Z) : list guchar :=
  let r := read pixels src in
  let g := read pixels (src + 1) in
  let b := read pixels (src + 2) in
  let a := if Z.eqb channels 4 then read pixels (src + 3) else 255 in
  (* RGBA format for NSImage *)
  [r; g; b; a].

Fixpoint copy_row (pixels : list byte) (channels : Z) (n : nat) (src : Z)
  : list guchar :=
  match n with
  | O => []
  | S n' => (copy_pixel pixels channels src
             ++ copy_row pixels channels n' (src + channels))%list
  end.

Fixpoint copy_rows (pixels : list byte) (rowstride channels width : Z)
         (n : nat) (y : Z) : list guchar :=
  match n with
  | O => []
  | S n' => (copy_row pixels channels (Z.to_nat width) (y * rowstride)
             ++ copy_rows pixels rowstride channels width n' (y + 1))%list
  end.

Definition pixbuf_to_nsimage (pixbuf : option GdkPixbuf) : option NSImage :=
  match pixbuf with
  | None => None
  | Some pb =>
      if negb (NSBitmapImageRep_ok os) then None
      else
        Some {| img_pixelsWide := pb_width pb;
                img_pixelsHigh := pb_height pb;
                img_bitmapData :=
                  copy_rows (pb_pixels pb) (pb_rowstride pb)
                            (pb_n_channels pb) (pb_width pb)
                            (Z.to_nat (pb_height pb)) 0;
                (* Scale to appropriate size for menu bar *)
                img_size := (20, 20);
                img_template := false |}
  end.

(** **** Messages to the status item and its button *)

(** [[backend->statusItem msg]]: delivered only to a non-nil item. *)
Definition item_msg (b : TrayBackend) (e : Event)
           (f : NSStatusItem -> NSStatusItem) : io TrayBackend :=
  match statusItem b with
  | Some i => emit e ;; ret (with_statusItem b (Some (f i)))
  | None => ret b
  end.

(** [[backend->statusItem button]]: [nil] for a nil item. *)
Definition item_button (b : TrayBackend) : option NSStatusBarButton :=
  match statusItem b with
  | Some i => si_button i
  | None => None
  end.

(** A message to the button just fetched (non-nil): the button lives in
    the status item. *)
Definition button_msg (b : TrayBackend) (e : Event)
           (f : NSStatusBarButton -> NSStatusBarButton) : io TrayBackend :=
  emit e ;;
  ret (with_statusItem b
         (option_map (fun i => item_with_button i (option_map f (si_button i)))
                     (statusItem b))).

(** [[button setImage:currentImage]; [currentImage setTemplate:YES];]
    The button shares the image object, so the flag shows on both. *)
Definition show_image (b : TrayBackend) (img : NSImage) : io TrayBackend :=
  b <- button_msg b NSButton_setImage (fun btn => button_setImage btn (Some img)) ;;
  emit (NSImage_setTemplate true) ;;
  let img := image_setTemplate img true in
  let b := with_currentImage b (Some img) in
  ret (with_statusItem b
         (option_map
            (fun i => item_with_button i
                        (option_map (fun btn => button_setImage btn (Some img))
                                    (si_button i)))
            (statusItem b))).

(** **** Deferred creation *)

(** One run of the timeout callback on [data], whose [backend] pointer
    designates [backend].  The result is what the callback returns, the
    data ([None] once freed) and the handle's struct. *)
Definition create_status_item_deferred (data : DeferredTrayData)
           (backend : TrayBackend)
  : io (bool * option DeferredTrayData * TrayBackend) :=
  (* Wait until NSApp is actually running *)
  if negb (isRunning os) && Z.ltb (d_attempts data) 10 then
    let data := with_attempts data (d_attempts data + 1) in
    ret (G_SOURCE_CONTINUE, Some data, backend) (* Try again *)
  else
    emit (NSStatusBar_statusItemWithLength 22) ;;
    let backend := with_statusItem backend (statusItemWithLength_result os) in
    (* Set autosave name *)
    backend <- item_msg backend
                 (NSStatusItem_setAutosaveName "org.pchat.statusitem")
                 (fun i => item_setAutosaveName i "org.pchat.statusitem") ;;
    match statusItem backend with
    | None =>
        emit g_free_data ;;
        ret (G_SOURCE_REMOVE, None, backend)
    | Some _ =>
        (* Create and set up delegate *)
        emit Delegate_alloc_init ;;
        let backend := with_delegate backend (Some delegate_init) in
        (* Set up button *)
        backend <-
          match item_button backend with
          | Some _ =>
              backend <- button_msg backend
                           (NSButton_setTarget_action "onStatusItemClicked:")
                           (fun b => button_with_target b "onStatusItemClicked:") ;;
              emit NSButton_sendActionOn ;;
              (* Set a title as fallback in case image doesn't work *)
              backend <- button_msg backend (NSButton_setTitle "P")
                           (fun b => button_setTitle b "P") ;;
              (* Set icon *)
              backend <-
                match d_icon data with
                | Some icon =>
                    emit (g_object_ref icon) ;;
                    let backend := with_currentIcon backend (Some icon) in
                    let backend :=
                      with_currentImage backend (pixbuf_to_nsimage (Some icon)) in
                    match currentImage backend with
                    | Some img =>
                        backend <- show_image backend img ;;
                        (* Clear title if image worked *)
                        button_msg backend (NSButton_setTitle "")
                                   (fun b => button_setTitle b "")
                    | None => ret backend
                    end
                | None => ret backend
                end ;;
              (* Set tooltip *)
              match d_tooltip data with
              | Some t =>
                  let backend := with_tooltip backend (Some t) in
                  button_msg backend (NSButton_setToolTip t)
                             (fun b => button_setToolTip b t)
              | None => ret backend
              end
          | None => ret backend
          end ;;
        let backend := with_visible backend true in
        backend <- item_msg backend (NSStatusItem_setVisible true)
                     (fun i => item_setVisible i true) ;;
        (* Clean up *)
        when_some (d_icon data) (fun p => emit (g_object_unref p)) ;;
        emit g_free_data ;;
        ret (G_SOURCE_REMOVE, None, backend)
    end.

(** The GLib main loop dispatching the timeout once: the source stays
    while the callback answers [G_SOURCE_CONTINUE]. *)
Definition timeout_dispatch (p : Process) : io Process :=
  match timeout_source p with
  | None => ret p
  | Some data =>
      r <- create_status_item_deferred data (heap_backend p) ;;
      let '(continue, data, backend) := r in
      ret {| heap_backend := backend;
             timeout_source := if continue then data else None |}
  end.

(** The handle returned, with the poll it scheduled. *)
Definition tray_macos_new (icon : option GdkPixbuf) (tooltip' : option string)
  : io Process :=
  let backend := with_visible backend_zero false in
  (* Defer the actual status item creation until NSApp is running *)
  when_some icon (fun i => emit (g_object_ref i)) ;;
  let data := {| d_icon := icon; d_tooltip := tooltip'; d_attempts := 0 |} in
  (* Check every 100ms until NSApp is running *)
  emit (g_timeout_add 100) ;;
  ret {| heap_backend := backend; timeout_source := Some data |}.

(** **** Operations on the handle *)

Definition tray_macos_set_icon (backend : option TrayBackend)
           (icon : option GdkPixbuf) : io (option TrayBackend) :=
  match backend, icon with
  | Some b, Some i =>
      (* Clean up old icon *)
      when_some (currentIcon b) (fun p => emit (g_object_unref p)) ;;
      when_some (currentImage b) (fun _ => emit NSImage_release) ;;
      (* Set new icon *)
      emit (g_object_ref i) ;;
      let b := with_currentIcon b (Some i) in
      let b := with_currentImage b (pixbuf_to_nsimage (Some i)) in
      b <- match currentImage b with
           | Some img =>
               match item_button b with
               | Some _ => show_image b img
               | None => ret b
               end
           | None => ret b
           end ;;
      ret (Some b)
  | _, _ => ret backend
  end.

Definition tray_macos_set_tooltip (backend : option TrayBackend)
           (tooltip' : option string) : io (option TrayBackend) :=
  match backend, tooltip' with
  | Some b, Some t =>
      let b := with_tooltip b (Some t) in
      b <- match item_button b with
           | Some _ => button_msg b (NSButton_setToolTip t)
                                  (fun btn => button_setToolTip btn t)
           | None => ret b
           end ;;
      ret (Some b)
  | _, _ => ret backend
  end.

Definition tray_macos_set_visible (backend : option TrayBackend)
           (visible' : bool) : io (option TrayBackend) :=
  match backend with
  | None => ret None
  | Some b =>
      let b := with_visible b visible' in
      b <- item_msg b (NSStatusItem_setVisible visible')
             (fun i => item_setVisible i visible') ;;
      ret (Some b)
  end.

Definition tray_macos_is_embedded (backend : option TrayBackend) : bool :=
  match backend with
  | None => false
  | Some b => visible b
  end.

Definition tray_macos_set_activate_callback (backend : option TrayBackend)
           (callback : option fnptr) (userdata : gpointer)
  : io (option TrayBackend) :=
  match backend with
  | None => ret None
  | Some b =>
      let b := with_activateCallback b callback userdata in
      match delegate b with
      | Some d =>
          emit (Delegate_setActivateCallback callback userdata) ;;
          ret (Some (with_delegate b
                       (Some {| d_activateCallback := callback;
                                d_activateUserdata := userdata;
                                d_menuCallback := d_menuCallback d;
                                d_menuUserdata := d_menuUserdata d |})))
      | None => ret (Some b)
      end
  end.

Definition tray_macos_set_menu_callback (backend : option TrayBackend)
           (callback : option fnptr) (userdata : gpointer)
  : io (option TrayBackend) :=
  match backend with
  | None => ret None
  | Some b =>
      let b := with_menuCallback b callback userdata in
      match delegate b with
      | Some d =>
          emit (Delegate_setMenuCallback callback userdata) ;;
          ret (Some (with_delegate b
                       (Some {| d_activateCallback := d_activateCallback d;
                                d_activateUserdata := d_activateUserdata d;
                                d_menuCallback := callback;
                                d_menuUserdata := userdata |})))
      | None => ret (Some b)
      end
  end.

Definition tray_macos_set_embedded_callback (backend : option TrayBackend)
           (callback : option fnptr) (userdata : gpointer)
  : io (option TrayBackend) :=
  match backend with
  | None => ret None
  | Some b =>
      let b := with_embeddedCallback b callback userdata in
      (* called immediately: status items are always embedded when created *)
      when_some callback (fun cb => emit (call_click cb userdata)) ;;
      ret (Some b)
  end.

(** The handle is freed: nothing of it is left. *)
Definition tray_macos_destroy (backend : option TrayBackend)
  : io (option TrayBackend) :=
  match backend with
  | None => ret None
  | Some b =>
      (* Remove status item *)
      when_some (statusItem b)
                (fun _ => emit NSStatusBar_removeStatusItem ;;
                          emit NSStatusItem_release) ;;
      (* Clean up delegate, image, pixbuf *)
      when_some (delegate b) (fun _ => emit Delegate_release) ;;
      when_some (currentImage b) (fun _ => emit NSImage_release) ;;
      when_some (currentIcon b) (fun p => emit (g_object_unref p)) ;;
      emit g_free_backend ;;
      ret None
  end.

End Operations.


(** *** Clicks *)

(** The status item's button is clicked: its action message goes to its
    target, the handle's delegate, if it has been given one. *)
Definition button_clicked (b : TrayBackend) (event : NSEventType)
  : @eff Event unit :=
  match item_button b, delegate b with
  | Some btn, Some d =>
      if btn_target btn then onStatusItemClicked d event else ret tt
  | _, _ => ret tt
  end.

(** *** The host and the main loop

    After creation the host's calls and the main loop's dispatches of the
    timeout interleave in any order. *)
Inductive Step :=
| poll (os : Cocoa)
| set_icon (os : Cocoa) (icon : option GdkPixbuf)
| set_tooltip (tooltip : option string)
| set_visible (visible : bool)
| set_activate_callback (callback : option fnptr) (userdata : gpointer)
| set_menu_callback (callback : option fnptr) (userdata : gpointer)
| set_embedded_callback (callback : option fnptr) (userdata : gpointer).

(** An operation applied to the process's handle. *)
Definition on_handle (f : option TrayBackend -> @eff Event (option TrayBackend))
           (p : Process) : @eff Event Process :=
  bind (f (Some (heap_backend p))) (fun r =>
  ret {| heap_backend := match r with
                         | Some b => b
                         | None => heap_backend p
                         end;
         timeout_source := timeout_source p |}).

Definition step (s : Step) (p : Process) : @eff Event Process :=
  match s with
  | poll os => timeout_dispatch os p
  | set_icon os icon => on_handle (fun h => tray_macos_set_icon os h icon) p
  | set_tooltip t => on_handle (fun h => tray_macos_set_tooltip h t) p
  | set_visible v => on_handle (fun h => tray_macos_set_visible h v) p
  | set_activate_callback cb ud =>
      on_handle (fun h => tray_macos_set_activate_callback h cb ud) p
  | set_menu_callback cb ud =>
      on_handle (fun h => tray_macos_set_menu_callback h cb ud) p
  | set_embedded_callback cb ud =>
      on_handle (fun h => tray_macos_set_embedded_callback h cb ud) p
  end.

Fixpoint steps (ss : list Step) (p : Process) : @eff Event Process :=
  match ss with
  | [] => ret p
  | s :: ss' => bind (step s p) (steps ss')
  end.

Definition is_poll (s : Step) : bool :=
  match s with
  | poll _ => true
  | _ => false
  end.

(** Whether a poll with these answers goes on to the allocation: the run
    loop is running, or the retries are spent. *)
Definition proceeds (os : Cocoa) (data : DeferredTrayData) : bool :=
  isRunning os || (10 <=? d_attempts data)%Z.

(** Reading a bitmap back: byte [i] of an image's data. *)
Definition image_byte (img : NSImage) (i : Z) : option guchar :=
  if (i <? 0)%Z then None
  else nth_error (img_bitmapData img) (Z.to_nat i).

(** *** Bookkeeping over a handle's life *)

Definition is_ref (e : Event) : bool :=
  match e with g_object_ref _ => true | _ => false end.

Definition is_unref (e : Event) : bool :=
  match e with g_object_unref _ => true | _ => false end.

Definition is_removeStatusItem (e : Event) : bool :=
  match e with NSStatusBar_removeStatusItem => true | _ => false end.

Definition is_item_release (e : Event) : bool :=
  match e with NSStatusItem_release => true | _ => false end.

Definition is_delegate_alloc (e : Event) : bool :=
  match e with Delegate_alloc_init => true | _ => false end.

Definition is_delegate_release (e : Event) : bool :=
  match e with Delegate_release => true | _ => false end.

(** A life in which the first poll proceeds: creation, that poll, then the
    host's calls (with whatever further dispatches), then destruction. *)
Definition realized_lifetime (os : Cocoa) (icon : option GdkPixbuf)
           (tooltip' : option string) (ss : list Step)
  : @eff Event (option TrayBackend) :=
  bind (tray_macos_new icon tooltip') (fun p0 =>
  bind (timeout_dispatch os p0) (fun p1 =>
  bind (steps ss p1) (fun p2 =>
  tray_macos_destroy (Some (heap_backend p2))))).

(** The images a trace takes a reference on, and those it drops a
    reference on, in order. *)
Definition refs (t : list Event) : list GdkPixbuf :=
  flat_map (fun e => match e with g_object_ref p => [p] | _ => [] end) t.

Definition unrefs (t : list Event) : list GdkPixbuf :=
  flat_map (fun e => match e with g_object_unref p => [p] | _ => [] end) t.

(** The image a step hands to the backend to keep. *)
Definition image_given (s : Step) : list GdkPixbuf :=
  match s with
  | set_icon _ (Some i) => [i]
  | _ => []
  end.

(** *** Destruction and the scheduled poll

    [tray_macos_new] drops the source id [g_timeout_add] returns and
    [tray_macos_destroy] does not remove the source: a poll still scheduled
    keeps its [backend] pointer after the handle was freed.  [handle] is
    [None] once [tray_macos_destroy] has freed the struct. *)
Record Life := {
  handle : option TrayBackend;
  scheduled : option DeferredTrayData
}.

Inductive Action :=
| host (s : Step)
| destroy.

(** One action on a life.  The result [None] is undefined behaviour: the
    freed struct is used.  A poll dispatched after the handle was freed still
    only counts while it waits; when it goes on it stores the status item
    through its dangling [backend] pointer. *)
Definition act (a : Action) (l : Life) : @eff Event (option Life) :=
  match handle l, a with
  | Some b, host s =>
      bind (step s {| heap_backend := b; timeout_source := scheduled l |})
           (fun p =>
      ret (Some {| handle := Some (heap_backend p);
                   scheduled := timeout_source p |}))
  | Some b, destroy =>
      bind (tray_macos_destroy (Some b)) (fun _ =>
      ret (Some {| handle := None; scheduled := scheduled l |}))
  | None, host (poll os) =>
      match scheduled l with
      | None => ret (Some l)
      | Some data =>
          if negb (isRunning os) && Z.ltb (d_attempts data) 10 then
            ret (Some {| handle := None;
                         scheduled :=
                           Some (with_attempts data (d_attempts data + 1)) |})
          else
            (* data->backend->statusItem = [[statusBar statusItemWithLength:22.0] retain]; *)
            bind (emit (NSStatusBar_statusItemWithLength 22)) (fun _ =>
            ret None)
      end
  | None, _ => ret None
  end.



End TrayMacos.

(* ------------------------------------------------------------------------- *)
(** ** tray-backend.c: the dispatcher *)

Module TrayBackend.

Local Open Scope string_scope.

(** What the preprocessor block at the top of the file selects for one
    build: the backend's struct and calls, the name, and the [backend_*]
    macros, each defined ([Some]) or not ([None]).  [rebuild_menu] is the
    function the first branch of [tray_backend_rebuild_menu] declares and
    calls. *)
Record Selection := {
  handle : Type;
  event : Type;
  BACKEND_NAME : string;
  backend_new :
    option (option GdkPixbuf -> option string -> @eff event (option handle));
  backend_set_icon :
    option (option handle -> option GdkPixbuf -> @eff event (option handle));
  backend_set_tooltip :
    option (option handle -> option string -> @eff event (option handle));
  backend_set_visible :
    option (option handle -> bool -> @eff event (option handle));
  backend_is_embedded : option (option handle -> bool);
  backend_set_activate_callback :
    option (option handle -> option fnptr -> gpointer
            -> @eff event (option handle));
  backend_set_menu_callback :
    option (option handle -> option fnptr -> gpointer
            -> @eff event (option handle));
  backend_set_embedded_callback :
    option (option handle -> option fnptr -> gpointer
            -> @eff event (option handle));
  backend_destroy : option (option handle -> @eff event (option handle));
  rebuild_menu : option (option handle -> @eff event (option handle))
}.

(** [#if defined(__linux__) && !defined(_WIN32)] *)
Definition linux (os : TrayLinux.Posix) (host : TrayLinux.HostMenu) : Selection :=
  {| handle := TrayLinux.TrayBackend;
     event := TrayLinux.Event;
     BACKEND_NAME := "AppIndicator";
     backend_new := Some (TrayLinux.tray_linux_new os);
     backend_set_icon := Some (TrayLinux.tray_linux_set_icon os);
     backend_set_tooltip := Some TrayLinux.tray_linux_set_tooltip;
     backend_set_visible := Some TrayLinux.tray_linux_set_visible;
     backend_is_embedded := Some TrayLinux.tray_linux_is_embedded;
     backend_set_activate_callback :=
       Some TrayLinux.tray_linux_set_activate_callback;
     backend_set_menu_callback :=
       Some (TrayLinux.tray_linux_set_menu_callback host);
     backend_set_embedded_callback :=
       Some TrayLinux.tray_linux_set_embedded_callback;
     backend_destroy := Some TrayLinux.tray_linux_destroy;
     rebuild_menu := Some (TrayLinux.tray_linux_rebuild_menu host) |}.

(** [#elif defined(_WIN32)] *)
Definition windows (os : TrayWindows.Win32)
           (MultiByteToWideChar : TrayWindows.Utf8ToWide) : Selection :=
  {| handle := TrayWindows.TrayBackend;
     event := TrayWindows.Event;
     BACKEND_NAME := "Shell_NotifyIcon";
     backend_new := Some (TrayWindows.tray_windows_new os MultiByteToWideChar);
     backend_set_icon := Some (TrayWindows.tray_windows_set_icon os);
     backend_set_tooltip :=
       Some (TrayWindows.tray_windows_set_tooltip MultiByteToWideChar);
     backend_set_visible := Some TrayWindows.tray_windows_set_visible;
     backend_is_embedded := Some TrayWindows.tray_windows_is_embedded;
     backend_set_activate_callback :=
       Some TrayWindows.tray_windows_set_activate_callback;
     backend_set_menu_callback :=
       Some TrayWindows.tray_windows_set_menu_callback;
     backend_set_embedded_callback :=
       Some TrayWindows.tray_windows_set_embedded_callback;
     backend_destroy := Some TrayWindows.tray_windows_destroy;
     rebuild_menu := None |}.

(** A branch that defines the name only. *)
Definition placeholder (H E : Type) (name : string) : Selection :=
  {| handle := H; event := E; BACKEND_NAME := name;
     backend_new := None; backend_set_icon := None;
     backend_set_tooltip := None; backend_set_visible := None;
     backend_is_embedded := None; backend_set_activate_callback := None;
     backend_set_menu_callback := None;
     backend_set_embedded_callback := None;
     backend_destroy := None; rebuild_menu := None |}.

(** [#elif defined(__APPLE__)]: macOS implementation - to be added later *)
Definition apple : Selection :=
  placeholder TrayMacos.TrayBackend TrayMacos.Event "macOS".

(** [#else]: fallback, no struct behind the handle *)
Definition fallback : Selection :=
  placeholder Empty_set Empty_set "GtkStatusIcon".

Section Wrappers.
Variable B : Selection.

Local Abbreviation io := (@eff (event B)).
Local Abbreviation TrayBackend := (option (handle B)).

Definition tray_backend_new (icon : option GdkPixbuf) (tooltip : option string)
  : io TrayBackend :=
  match backend_new B with
  | Some new => new icon tooltip
  | None => ret None
  end.

Definition tray_backend_set_icon (backend : TrayBackend)
           (icon : option GdkPixbuf) : io TrayBackend :=
  match backend_set_icon B, backend with
  | Some set_icon, Some _ => set_icon backend icon
  | _, _ => ret backend
  end.

Definition tray_backend_set_tooltip (backend : TrayBackend)
           (tooltip : option string) : io TrayBackend :=
  match backend_set_tooltip B, backend with
  | Some set_tooltip, Some _ => set_tooltip backend tooltip
  | _, _ => ret backend
  end.

Definition tray_backend_set_visible (backend : TrayBackend) (visible : bool)
  : io TrayBackend :=
  match backend_set_visible B, backend with
  | Some set_visible, Some _ => set_visible backend visible
  | _, _ => ret backend
  end.

Definition tray_backend_is_embedded (backend : TrayBackend) : bool :=
  match backend_is_embedded B, backend with
  | Some is_embedded, Some _ => is_embedded backend
  | _, _ => false
  end.

Definition tray_backend_set_activate_callback (backend : TrayBackend)
           (callback : option fnptr) (userdata : gpointer) : io TrayBackend :=
  match backend_set_activate_callback B, backend with
  | Some set_callback, Some _ => set_callback backend callback userdata
  | _, _ => ret backend
  end.

Definition tray_backend_set_menu_callback (backend : TrayBackend)
           (callback : option fnptr) (userdata : gpointer) : io TrayBackend :=
  match backend_set_menu_callback B, backend with
  | Some set_callback, Some _ => set_callback backend callback userdata
  | _, _ => ret backend
  end.

Definition tray_backend_set_embedded_callback (backend : TrayBackend)
           (callback : option fnptr) (userdata : gpointer) : io TrayBackend :=
  match backend_set_embedded_callback B, backend with
  | Some set_callback, Some _ => set_callback backend callback userdata
  | _, _ => ret backend
  end.

Definition tray_backend_destroy (backend : TrayBackend) : io TrayBackend :=
  match backend_destroy B, backend with
  | Some destroy, Some _ => destroy backend
  | _, _ => ret backend
  end.

(** No NULL test here: the call goes straight to the backend. *)
Definition tray_backend_rebuild_menu (backend : TrayBackend) : io TrayBackend :=
  match rebuild_menu B with
  | Some rebuild => rebuild backend
  | None => ret backend
  end.

Definition tray_backend_get_type : string := BACKEND_NAME B.

End Wrappers.

End TrayBackend.

(* ------------------------------------------------------------------------- *)
(** ** Concrete inputs used to exercise the embedding *)

Module Samples.

(** A Win32 on which every call succeeds. *)
Definition win32_ok : TrayWindows.Win32 :=
  {| TrayWindows.CreateDIBSection_ok := fun _ _ => true;
     TrayWindows.CreateIconIndirect_ok := fun _ => true;
     TrayWindows.CreateWindowExW_result := Some 4096 |}.

(** A Win32 on which [CreateIconIndirect] returns NULL. *)
Definition win32_no_icon : TrayWindows.Win32 :=
  {| TrayWindows.CreateDIBSection_ok := fun _ _ => true;
     TrayWindows.CreateIconIndirect_ok := fun _ => false;
     TrayWindows.CreateWindowExW_result := Some 4096 |}.

(** Two RGBA pixels in one row: (200, 100, 50, 128) and (10, 20, 30, 255). *)
Definition rgba_2x1 : GdkPixbuf :=
  {| pb_width := 2; pb_height := 1; pb_rowstride := 8; pb_n_channels := 4;
     pb_pixels := [xc8; x64; x32; x80; x0a; x14; x1e; xff] |}.

(** One RGB pixel (1, 2, 3), the row padded to four bytes. *)
Definition rgb_1x1 : GdkPixbuf :=
  {| pb_width := 1; pb_height := 1; pb_rowstride := 4; pb_n_channels := 3;
     pb_pixels := [x01; x02; x03; x00] |}.

(** The tooltip conversion taken as the code points of the text (enough
    for the ASCII samples here). *)
Definition ascii_to_wide : TrayWindows.Utf8ToWide :=
  fun text _ => List.map (fun c => Z.of_nat (nat_of_ascii c)) (list_ascii_of_string text).

(** A Linux process whose [gdk_pixbuf_save] always succeeds / always fails. *)
Definition posix_ok : TrayLinux.Posix :=
  {| TrayLinux.getpid := 1234; TrayLinux.g_get_real_time := 1700000000;
     TrayLinux.gdk_pixbuf_save_ok := fun _ _ => true;
     TrayLinux.gdk_pixbuf_save_error := fun _ _ => None;
     TrayLinux.gtk_menu_new_result := 77 |}.

Definition posix_disk_full : TrayLinux.Posix :=
  {| TrayLinux.getpid := 1234; TrayLinux.g_get_real_time := 1700000001;
     TrayLinux.gdk_pixbuf_save_ok := fun _ _ => false;
     TrayLinux.gdk_pixbuf_save_error :=
       fun _ _ => Some "No space left on device"%string;
     TrayLinux.gtk_menu_new_result := 77 |}.

(** A host menu builder that always fills the container with the same
    three items, after whatever it already holds. *)
Definition host_three_items : TrayLinux.HostMenu :=
  fun _ m _ _ _ => (TrayLinux.menu_children m ++ [101; 102; 103])%list.

(** A fresh status item as the status bar hands it out. *)
Definition fresh_item : TrayMacos.NSStatusItem :=
  {| TrayMacos.si_autosaveName := None;
     TrayMacos.si_button :=
       Some {| TrayMacos.btn_target := false; TrayMacos.btn_action := None;
               TrayMacos.btn_title := ""; TrayMacos.btn_image := None;
               TrayMacos.btn_toolTip := None |};
     TrayMacos.si_visible := false |}.



Definition cocoa_running : TrayMacos.Cocoa :=
  {| TrayMacos.isRunning := true;
     TrayMacos.statusItemWithLength_result := Some fresh_item;
     TrayMacos.NSBitmapImageRep_ok := true |}.

(** A shown Windows handle whose icon is [rgb_1x1], applied with success. *)
Definition shown_handle : option TrayWindows.TrayBackend :=
  value (b0 <- TrayWindows.tray_windows_new win32_ok ascii_to_wide
                 (Some rgb_1x1) (Some "Idle"%string) ;;
         TrayWindows.tray_windows_set_visible b0 true)%eff.

(** A Linux handle whose icon is [rgb_1x1], saved with success. *)
Definition linux_handle : option TrayLinux.TrayBackend :=
  value (TrayLinux.tray_linux_new posix_ok (Some rgb_1x1) (Some "Idle"%string)).

(** The structs behind the two handles. *)
Definition shown_backend : TrayWindows.TrayBackend :=
  Eval vm_compute in
    match shown_handle with
    | Some b => b
    | None => TrayWindows.backend_zero
    end.

Definition linux_backend : TrayLinux.TrayBackend :=
  Eval vm_compute in
    match linux_handle with
    | Some b => b
    | None => TrayLinux.backend_zero
    end.

End Samples.

Module L := TrayLinux.
Module M := TrayMacos.
Module D := TrayBackend.

(* ========================================================================= *)
(** * Properties *)

Unset Implicit Arguments.

Import TrayWindows.

(** ** The in-memory bitmap converter *)

Section Converter.

Lemma byte_at_range pixels off v :
  byte_at pixels off = Some v -> 0 <= v < 256.
Proof.
  unfold byte_at. destruct (off <? 0); [discriminate|].
  destruct (nth_error pixels (Z.to_nat off)) as [b|]; simpl; [|discriminate].
  intros [= <-]. pose proof (Byte.to_N_bounded b). lia.
Qed.

Lemma byte_at_defined pixels off :
  0 <= off < Z.of_nat (List.length pixels) ->
  exists v, byte_at pixels off = Some v /\ read pixels off = v.
Proof.
  intros H. unfold read, byte_at.
  destruct (Z.ltb_spec off 0); [lia|].
  destruct (nth_error pixels (Z.to_nat off)) as [b|] eqn:E.
  - simpl. eauto.
  - apply nth_error_None in E. lia.
Qed.

(** The product of two bytes divided by 255 is a byte again: the store
    into the [guchar] loses nothing. *)
Lemma premultiply_fits c a :
  0 <= c < 256 -> 0 <= a < 256 ->
  to_guchar (Z.quot (c * a) 255) = c * a / 255.
Proof.
  intros Hc Ha. unfold to_guchar.
  rewrite Z.quot_div_nonneg by nia.
  apply Z.mod_small. split.
  - apply Z.div_pos; nia.
  - apply Z.div_lt_upper_bound; nia.
Qed.

Lemma convert_pixel_length pixels channels src :
  List.length (convert_pixel pixels channels src) = 4%nat.
Proof.
  unfold convert_pixel.
  destruct (_ <? 255); reflexivity.
Qed.

Lemma row_loop_length pixels channels n src :
  List.length (row_loop pixels channels n src) = (4 * n)%nat.
Proof.
  revert src. induction n as [|n IH]; intros src; simpl; [reflexivity|].
  rewrite length_app, convert_pixel_length, IH. lia.
Qed.

Lemma image_loop_length pixels stride channels width n y :
  List.length (image_loop pixels stride channels width n y)
  = (4 * Z.to_nat width * n)%nat.
Proof.
  revert y. induction n as [|n IH]; intros y; simpl; [lia|].
  rewrite length_app, row_loop_length, IH. lia.
Qed.

(** Byte [j] of pixel [k] of a row is byte [j] of the conversion of the
    source pixel [k] steps of [channels] further. *)
Lemma row_loop_nth pixels channels n src k j :
  (k < n)%nat -> (j < 4)%nat ->
  nth_error (row_loop pixels channels n src) (4 * k + j)
  = nth_error (convert_pixel pixels channels (src + Z.of_nat k * channels)) j.
Proof.
  revert src k. induction n as [|n IH]; intros src k Hk Hj; [lia|].
  simpl row_loop. destruct k as [|k].
  - rewrite nth_error_app1 by (rewrite convert_pixel_length; lia).
    simpl. f_equal. f_equal. lia.
  - rewrite nth_error_app2 by (rewrite convert_pixel_length; lia).
    rewrite convert_pixel_length.
    replace (4 * S k + j - 4)%nat with (4 * k + j)%nat by lia.
    rewrite IH by lia. f_equal. f_equal. lia.
Qed.

Lemma image_loop_nth pixels stride channels width n y0 y x j :
  (y < n)%nat -> (x < Z.to_nat width)%nat -> (j < 4)%nat ->
  nth_error (image_loop pixels stride channels width n y0)
            (4 * (y * Z.to_nat width + x) + j)
  = nth_error
      (convert_pixel pixels channels
         ((y0 + Z.of_nat y) * stride + Z.of_nat x * channels)) j.
Proof.
  revert y0 y. induction n as [|n IH]; intros y0 y Hy Hx Hj; [lia|].
  simpl image_loop. destruct y as [|y].
  - rewrite nth_error_app1 by (rewrite row_loop_length; lia).
    replace (4 * (0 * Z.to_nat width + x) + j)%nat with (4 * x + j)%nat by lia.
    rewrite row_loop_nth by lia. f_equal. f_equal. lia.
  - rewrite nth_error_app2 by (rewrite row_loop_length; nia).
    rewrite row_loop_length.
    replace (4 * (S y * Z.to_nat width + x) + j - 4 * Z.to_nat width)%nat
      with (4 * (y * Z.to_nat width + x) + j)%nat by nia.
    rewrite IH by lia. f_equal. f_equal. lia.
Qed.

End Converter.

Lemma rgba_2x1_valid : valid_pixbuf Samples.rgba_2x1.
Proof. unfold valid_pixbuf, INT_MAX; simpl; lia. Defined.

Example pixbuf_to_hicon_rgba_2x1 :
  option_map (fun i => dib_bits (icon_color i))
             (pixbuf_to_hicon Samples.win32_ok (Some Samples.rgba_2x1))
  = Some [25; 50; 100; 128; 30; 20; 10; 255].
Proof. reflexivity. Qed.

Example pixbuf_to_hicon_rgb_1x1 :
  option_map (fun i => dib_bits (icon_color i))
             (pixbuf_to_hicon Samples.win32_ok (Some Samples.rgb_1x1))
  = Some [3; 2; 1; 255].
Proof. reflexivity. Qed.

(** C1.  For every Source Image the bitmap converter accepts, the colour
    bitmap has the image's width and height, and the pixel at column [x] of
    row [y] is stored at byte [4 * (y * width + x)] in the order blue, green,
    red, alpha: each colour is [colour * alpha / 255] when [alpha < 255] and
    the source colour otherwise, alpha is the source's alpha byte, and a
    3-channel image has alpha 255 (so its colours are copied exactly). *)
Theorem pixbuf_to_hicon_bgra_premultiplied
        (os : Win32) (pb : GdkPixbuf) (icon : HICON) :
  valid_pixbuf pb ->
  pixbuf_to_hicon os (Some pb) = Some icon ->
  dib_width (icon_color icon) = pb_width pb /\
  dib_height (icon_color icon) = pb_height pb /\
  forall x y, 0 <= x < pb_width pb -> 0 <= y < pb_height pb ->
    let src := y * pb_rowstride pb + x * pb_n_channels pb in
    let dest := 4 * (y * pb_width pb + x) in
    exists r g b a,
      byte_at (pb_pixels pb) src = Some r /\
      byte_at (pb_pixels pb) (src + 1) = Some g /\
      byte_at (pb_pixels pb) (src + 2) = Some b /\
      (pb_n_channels pb = 4 -> byte_at (pb_pixels pb) (src + 3) = Some a) /\
      (pb_n_channels pb = 3 -> a = 255) /\
      dib_byte icon dest = Some (if a <? 255 then b * a / 255 else b) /\
      dib_byte icon (dest + 1) = Some (if a <? 255 then g * a / 255 else g) /\
      dib_byte icon (dest + 2) = Some (if a <? 255 then r * a / 255 else r) /\
      dib_byte icon (dest + 3) = Some a.
Proof.
  intros (Hw & Hh & Hc & Hrow & _ & Hlen) Hconv.
  unfold pixbuf_to_hicon in Hconv.
  destruct (CreateDIBSection_ok _ _ _); [|discriminate].
  destruct (CreateIconIndirect_ok _ _); [|discriminate].
  injection Hconv as <-. simpl icon_color. simpl dib_width. simpl dib_height.
  split; [reflexivity|]. split; [reflexivity|].
  intros x y Hx Hy src dest.
  (* where byte [j] of the destination pixel comes from *)
  assert (Hnth : forall j, 0 <= j < 4 ->
            dib_byte
              {| icon_color :=
                   {| dib_width := pb_width pb; dib_height := pb_height pb;
                      dib_bits := image_loop (pb_pixels pb) (pb_rowstride pb)
                                    (pb_n_channels pb) (pb_width pb)
                                    (Z.to_nat (pb_height pb)) 0 |};
                 icon_mask_width := pb_width pb;
                 icon_mask_height := pb_height pb |} (dest + j)
            = nth_error (convert_pixel (pb_pixels pb) (pb_n_channels pb) src)
                        (Z.to_nat j)).
  { intros j Hj. unfold dib_byte. simpl icon_color. simpl dib_bits.
    destruct (Z.ltb_spec (dest + j) 0); [subst dest; nia|].
    replace (Z.to_nat (dest + j))
      with (4 * (Z.to_nat y * Z.to_nat (pb_width pb) + Z.to_nat x) + Z.to_nat j)%nat
      by (apply Nat2Z.inj; subst dest;
          rewrite Z2Nat.id by nia;
          repeat (rewrite Nat2Z.inj_add || rewrite Nat2Z.inj_mul);
          rewrite !Z2Nat.id by lia;
          change (Z.of_nat 4) with 4; ring).
    rewrite image_loop_nth by lia.
    f_equal. f_equal. subst src. rewrite !Z2Nat.id by lia. ring. }
  (* every byte read lies inside the buffer *)
  assert (Hsrc : 0 <= src /\
                 src + pb_n_channels pb <= Z.of_nat (List.length (pb_pixels pb))).
  { subst src. split; [nia|].
    assert (y * pb_rowstride pb <= (pb_height pb - 1) * pb_rowstride pb) by nia.
    assert ((x + 1) * pb_n_channels pb <= pb_width pb * pb_n_channels pb) by nia.
    lia. }
  destruct (byte_at_defined (pb_pixels pb) src) as (r & Er & Rr); [lia|].
  destruct (byte_at_defined (pb_pixels pb) (src + 1)) as (g & Eg & Rg); [lia|].
  destruct (byte_at_defined (pb_pixels pb) (src + 2)) as (b & Eb & Rb); [lia|].
  pose proof (byte_at_range _ _ _ Er) as Br.
  pose proof (byte_at_range _ _ _ Eg) as Bg.
  pose proof (byte_at_range _ _ _ Eb) as Bb.
  pose proof (Hnth 0 ltac:(lia)) as H0.
  pose proof (Hnth 1 ltac:(lia)) as H1.
  pose proof (Hnth 2 ltac:(lia)) as H2.
  pose proof (Hnth 3 ltac:(lia)) as H3.
  rewrite Z.add_0_r in H0. clear Hnth.
  set (ic := {| icon_color := _; icon_mask_width := _ |}) in *.
  change (Z.to_nat 0) with 0%nat in H0.
  change (Z.to_nat 1) with 1%nat in H1.
  change (Z.to_nat 2) with 2%nat in H2.
  change (Z.to_nat 3) with 3%nat in H3.
  unfold convert_pixel in H0, H1, H2, H3.
  rewrite Rr, Rg, Rb in H0, H1, H2, H3.
  destruct Hc as [Hc|Hc]; rewrite Hc in H0, H1, H2, H3.
  - (* RGB: opaque *)
    change (3 =? 4) with false in H0, H1, H2, H3.
    cbv iota in H0, H1, H2, H3.
    change (255 <? 255) with false in H0, H1, H2, H3.
    cbn [nth_error] in H0, H1, H2, H3.
    exists r, g, b, 255.
    change (255 <? 255) with false.
    repeat split; intros; try assumption; lia.
  - (* RGBA *)
    destruct (byte_at_defined (pb_pixels pb) (src + 3)) as (a & Ea & Ra); [lia|].
    pose proof (byte_at_range _ _ _ Ea) as Ba.
    change (4 =? 4) with true in H0, H1, H2, H3.
    cbv iota in H0, H1, H2, H3.
    rewrite Ra in H0, H1, H2, H3.
    exists r, g, b, a.
    destruct (a <? 255) eqn:Elt; cbn [nth_error] in H0, H1, H2, H3;
      rewrite ?premultiply_fits in H0, H1, H2 by lia;
      repeat split; intros; try assumption; lia.
Qed.

Lemma pixbuf_to_hicon_bgra_premultiplied_witness :
  exists icon,
    pixbuf_to_hicon Samples.win32_ok (Some Samples.rgba_2x1) = Some icon /\
    dib_width (icon_color icon) = 2 /\
    dib_height (icon_color icon) = 1 /\
    dib_byte icon 0 = Some 25 /\ dib_byte icon 3 = Some 128.
Proof.
  eexists. split; [reflexivity|].
  pose proof (pixbuf_to_hicon_bgra_premultiplied
                Samples.win32_ok Samples.rgba_2x1 _ rgba_2x1_valid eq_refl)
    as (Hw & Hh & _).
  repeat split; assumption || reflexivity.
Defined.

(** ** The Shell_NotifyIcon backend *)

(** Unfolds one operation down to its result and trace. *)
Ltac eff_simpl :=
  cbv [bind ret emit when when_some value trace fst snd]; cbn.

Arguments pixbuf_to_hicon : simpl never.

(** Opens a Windows handle into its fields. *)
Ltac open_handle b :=
  destruct b as [fnid fhwnd fhicon fcur fvis facb faud fmcb fmud fecb feud];
  cbn [TrayWindows.nid TrayWindows.hwnd TrayWindows.hicon
       TrayWindows.current_icon TrayWindows.visible
       TrayWindows.activate_callback TrayWindows.activate_userdata
       TrayWindows.menu_callback TrayWindows.menu_userdata
       TrayWindows.embedded_callback TrayWindows.embedded_userdata] in *.

Lemma requests_app t1 t2 : requests (t1 ++ t2) = requests t1 ++ requests t2.
Proof.
  induction t1 as [|e t1 IH]; [reflexivity|].
  destruct e; simpl; rewrite IH; reflexivity.
Qed.

Lemma set_icon_requests os b icon :
  requests (trace (tray_windows_set_icon os (Some b) (Some icon)))
  = if visible b
    then [(NIM_MODIFY, nid_with_hIcon (nid b) (pixbuf_to_hicon os (Some icon)))]
    else [].
Proof.
  unfold tray_windows_set_icon. open_handle b.
  destruct fhicon, fcur, fvis; reflexivity.
Qed.

Lemma set_icon_value os b icon :
  exists b',
    value (tray_windows_set_icon os (Some b) (Some icon)) = Some b' /\
    nid b' = nid_with_hIcon (nid b) (pixbuf_to_hicon os (Some icon)) /\
    hicon b' = pixbuf_to_hicon os (Some icon) /\
    current_icon b' = Some icon /\
    visible b' = visible b.
Proof.
  unfold tray_windows_set_icon. open_handle b.
  destruct fhicon, fcur, fvis; eexists; repeat split; reflexivity.
Qed.

Lemma set_tooltip_requests mb b tip :
  requests (trace (tray_windows_set_tooltip mb (Some b) (Some tip)))
  = if visible b
    then [(NIM_MODIFY, nid_with_szTip (nid b) (mb tip (nid_szTip (nid b))))]
    else [].
Proof.
  unfold tray_windows_set_tooltip. open_handle b.
  destruct fvis; reflexivity.
Qed.

Lemma set_visible_requests b v :
  requests (trace (tray_windows_set_visible (Some b) v))
  = match v, visible b with
    | true, false => [(NIM_ADD, nid b)]
    | false, true => [(NIM_DELETE, nid b)]
    | _, _ => []
    end.
Proof.
  unfold tray_windows_set_visible. open_handle b.
  destruct v, fvis, fecb; reflexivity.
Qed.

(** On a shown handle [set_icon] with a NULL image and [set_tooltip] with
    a NULL text submit no request: the claim that they submit a "modify"
    request whenever the icon is shown fails there. *)
Lemma shown_null_argument_no_modify :
  visible Samples.shown_backend = true /\
  requests (trace (tray_windows_set_icon Samples.win32_ok
                     (Some Samples.shown_backend) None)) = [] /\
  requests (trace (tray_windows_set_tooltip Samples.ascii_to_wide
                     (Some Samples.shown_backend) None)) = [].
Proof. repeat split. Qed.

(** C5 (amended).  [set_icon] with an image and [set_tooltip] with a text
    submit one "modify" request when the icon is shown and no request at all
    when it is hidden.  Either way the change is stored in the icon
    descriptor: after [set_icon] its [hIcon] is the converted icon, after
    [set_tooltip] its [szTip] is the converted text, the other fields are as
    they were, and the "modify" request carries that descriptor.  With a
    NULL image or a NULL text nothing is submitted and nothing changes,
    shown or hidden.  After icon and tooltip were set while hidden, the next
    [set_visible (handle, true)] submits exactly one request, an "add" whose
    descriptor has the staged icon in [hIcon] and the staged text in
    [szTip], and no "modify". *)
Theorem shell_modify_iff_shown
        (os : Win32) (mb : Utf8ToWide) (b : TrayBackend)
        (icon : GdkPixbuf) (tip : string) :
  let h := pixbuf_to_hicon os (Some icon) in
  let sz := mb tip (nid_szTip (nid b)) in
  (* set_icon with an image *)
  requests (trace (tray_windows_set_icon os (Some b) (Some icon)))
    = (if visible b then [(NIM_MODIFY, nid_with_hIcon (nid b) h)] else []) /\
  (exists b', value (tray_windows_set_icon os (Some b) (Some icon)) = Some b' /\
              nid b' = nid_with_hIcon (nid b) h /\ visible b' = visible b /\
              nid_hIcon (nid b') = h /\ hicon b' = h /\
              nid_szTip (nid b') = nid_szTip (nid b) /\
              same_target (nid b') (nid b) /\
              requests (trace (tray_windows_set_icon os (Some b) (Some icon)))
                = (if visible b then [(NIM_MODIFY, nid b')] else [])) /\
  (* set_tooltip with a text *)
  requests (trace (tray_windows_set_tooltip mb (Some b) (Some tip)))
    = (if visible b then [(NIM_MODIFY, nid_with_szTip (nid b) sz)] else []) /\
  (exists b', value (tray_windows_set_tooltip mb (Some b) (Some tip)) = Some b' /\
              nid b' = nid_with_szTip (nid b) sz /\ visible b' = visible b /\
              nid_szTip (nid b') = sz /\
              nid_hIcon (nid b') = nid_hIcon (nid b) /\ hicon b' = hicon b /\
              same_target (nid b') (nid b) /\
              requests (trace (tray_windows_set_tooltip mb (Some b) (Some tip)))
                = (if visible b then [(NIM_MODIFY, nid b')] else [])) /\
  (* a NULL image, a NULL text *)
  tray_windows_set_icon os (Some b) None = (Some b, []) /\
  tray_windows_set_tooltip mb (Some b) None = (Some b, []) /\
  (* hidden: icon and tooltip staged, then shown *)
  (let hidden := with_visible b false in
   let staged :=
     (b1 <- tray_windows_set_icon os (Some hidden) (Some icon) ;;
      tray_windows_set_tooltip mb b1 (Some tip))%eff in
   requests (trace staged) = [] /\
   requests (trace (tray_windows_set_visible (value staged) true))
     = [(NIM_ADD, nid_with_szTip (nid_with_hIcon (nid b) h) sz)] /\
   exists n,
     requests (trace (tray_windows_set_visible (value staged) true))
       = [(NIM_ADD, n)] /\
     nid_hIcon n = h /\ nid_szTip n = sz /\ same_target n (nid b)).
Proof.
  intros h sz. split; [apply set_icon_requests|].
  split.
  { subst h. unfold tray_windows_set_icon, same_target. open_handle b.
    destruct fhicon, fcur, fvis; eexists; repeat split; reflexivity. }
  split; [apply set_tooltip_requests|].
  split.
  { subst sz. unfold tray_windows_set_tooltip, same_target. open_handle b.
    destruct fvis; eexists; repeat split; reflexivity. }
  split; [reflexivity|]. split; [reflexivity|].
  subst h sz.
  unfold tray_windows_set_icon, tray_windows_set_tooltip,
    tray_windows_set_visible, same_target.
  open_handle b.
  destruct fhicon, fcur, fecb;
    (split; [reflexivity|]; split; [reflexivity|];
     eexists; repeat split; reflexivity).
Qed.

Example shell_hidden_then_shown :
  let run :=
    (b0 <- tray_windows_new Samples.win32_ok Samples.ascii_to_wide
             (Some Samples.rgba_2x1) (Some "Idle"%string) ;;
     b1 <- tray_windows_set_icon Samples.win32_ok b0 (Some Samples.rgb_1x1) ;;
     tray_windows_set_visible b1 true)%eff in
  List.map fst (requests (trace run)) = [NIM_ADD] /\
  List.map (fun r => nid_szTip (snd r)) (requests (trace run))
    = [[73; 100; 108; 101]].
Proof. split; reflexivity. Qed.

(** C6.  [set_visible] with the state the icon is already in does nothing
    and leaves the handle as it is.  Two [set_visible (handle, true)] in a
    row on a hidden handle submit one "add" request in all, the embedded
    callback (when one is registered) is called once, by the first call, and
    the second call changes nothing. *)
Theorem shell_set_visible_idempotent (b : TrayBackend) (cb : fnptr) (ud : gpointer) :
  (* already in the requested state *)
  tray_windows_set_visible (Some b) (visible b) = (Some b, []) /\
  (* twice true, from hidden, with a callback registered *)
  (let hidden := with_embedded (with_visible b false) (Some cb) ud in
   let first := tray_windows_set_visible (Some hidden) true in
   let second := tray_windows_set_visible (value first) true in
   trace first = [Shell_NotifyIconW NIM_ADD (nid b); call_click cb ud] /\
   trace second = [] /\
   value second = value first /\
   count (is_request NIM_ADD) (trace first ++ trace second) = 1%nat /\
   callbacks (trace first ++ trace second) = [(cb, ud)]) /\
  (* twice true, from hidden, without a callback *)
  (let hidden := with_embedded (with_visible b false) None ud in
   let first := tray_windows_set_visible (Some hidden) true in
   let second := tray_windows_set_visible (value first) true in
   trace first ++ trace second = [Shell_NotifyIconW NIM_ADD (nid b)] /\
   value second = value first).
Proof.
  unfold tray_windows_set_visible. open_handle b.
  split; [destruct fvis; reflexivity|].
  split; repeat split; reflexivity.
Qed.

(** ** Icon updates whose conversion fails *)


(** Cases on whether the PNG file could be written. *)
Ltac case_save :=
  match goal with
  | |- context [L.gdk_pixbuf_save_ok ?o ?i ?f] =>
      destruct (L.gdk_pixbuf_save_ok o i f) eqn:?
  end.

(** Opens a Linux handle into its fields. *)
Ltac open_linux b :=
  destruct b as [find fmenu fcur fname fpath facb faud fmcb fmud fecb feud];
  cbn [L.indicator L.menu L.current_icon L.icon_name L.temp_icon_path
       L.activate_callback L.activate_userdata L.menu_callback
       L.menu_userdata L.embedded_callback L.embedded_userdata] in *.

Example linux_new_registers_icon :
  option_map (fun b => (L.temp_icon_path b, L.indicator b))
             Samples.linux_handle
  = Some (Some "/tmp/pchat-tray-pchat-normal-1234.png"%string,
          Some {| L.ai_id := "pchat-tray";
                  L.ai_status := L.APP_INDICATOR_STATUS_ACTIVE;
                  L.ai_icon_theme_path := Some "/tmp"%string;
                  L.ai_icon_name := "pchat-tray-pchat-normal-1234";
                  L.ai_icon_desc := Some "Idle"%string; L.ai_title := None;
                  L.ai_menu := Some 77 |}).
Proof. reflexivity. Qed.

(** C3, as stated, fails.  On the shell-notification-icon backend a shown
    handle displays [rgb_1x1]; [set_icon] with [rgba_2x1] when
    [CreateIconIndirect] returns NULL leaves [rgba_2x1] as the cached current
    icon, a null native icon in the descriptor, and submits a "modify"
    request carrying that null icon.  On the desktop-indicator backend a
    failed save leaves the new image cached and unlinks the file of the icon
    on display. *)
Lemma set_icon_failure_replaces_icon :
  let before := Samples.shown_handle in
  let after :=
    tray_windows_set_icon Samples.win32_no_icon before (Some Samples.rgba_2x1) in
  let lbefore := Samples.linux_handle in
  let lafter :=
    L.tray_linux_set_icon Samples.posix_disk_full lbefore (Some Samples.rgba_2x1) in
  (* shell-notification-icon backend *)
  (option_map current_icon before = Some (Some Samples.rgb_1x1) /\
   option_map (fun b => nid_hIcon (nid b)) before <> Some None /\
   pixbuf_to_hicon Samples.win32_no_icon (Some Samples.rgba_2x1) = None /\
   option_map current_icon (value after) = Some (Some Samples.rgba_2x1) /\
   option_map current_icon (value after) <> option_map current_icon before /\
   option_map (fun b => nid_hIcon (nid b)) (value after) = Some None /\
   List.map (fun r => (fst r, nid_hIcon (snd r))) (requests (trace after))
     = [(NIM_MODIFY, None)]) /\
  (* desktop-indicator backend *)
  (option_map L.current_icon lbefore = Some (Some Samples.rgb_1x1) /\
   value (L.save_pixbuf_to_temp Samples.posix_disk_full Samples.rgba_2x1
            ("pchat-" ++ L.decimal (L.g_get_real_time Samples.posix_disk_full)))
     = None /\
   option_map L.current_icon (value lafter) = Some (Some Samples.rgba_2x1) /\
   option_map L.current_icon (value lafter) <> option_map L.current_icon lbefore /\
   In (L.unlink "/tmp/pchat-tray-pchat-normal-1234.png") (trace lafter)).
Proof.
  cbv zeta; repeat split; try (vm_compute; reflexivity);
    try (vm_compute; discriminate).
  vm_compute; auto.
Qed.

(** C3, amended.  When the conversion step fails, [set_icon] still returns
    (nothing is propagated to the caller), but the handle does not keep the
    previous image: the image just passed becomes the cached current icon and
    the native icon resource becomes null.  On the shell-notification-icon
    backend the descriptor's icon becomes null and a "modify" request
    carrying it is submitted exactly when the icon is shown; on the
    desktop-indicator backend no icon is registered with the indicator, whose
    properties stay as they were. *)
Theorem set_icon_conversion_failure
        (wos : Win32) (wb : TrayBackend)
        (los : L.Posix) (lb : L.TrayBackend) (icon : GdkPixbuf) :
  pixbuf_to_hicon wos (Some icon) = None ->
  value (L.save_pixbuf_to_temp los icon
           ("pchat-" ++ L.decimal (L.g_get_real_time los))) = None ->
  (exists wb',
     value (tray_windows_set_icon wos (Some wb) (Some icon)) = Some wb' /\
     current_icon wb' = Some icon /\
     hicon wb' = None /\
     nid_hIcon (nid wb') = None /\
     visible wb' = visible wb /\
     requests (trace (tray_windows_set_icon wos (Some wb) (Some icon)))
       = if visible wb then [(NIM_MODIFY, nid_with_hIcon (nid wb) None)] else []) /\
  (exists lb',
     value (L.tray_linux_set_icon los (Some lb) (Some icon)) = Some lb' /\
     L.current_icon lb' = Some icon /\
     L.temp_icon_path lb' = None /\
     L.indicator lb' = L.indicator lb /\
     List.filter L.is_icon_registration
                 (trace (L.tray_linux_set_icon los (Some lb) (Some icon))) = []).
Proof.
  intros Hw Hl. split.
  - destruct (set_icon_value wos wb icon) as (wb' & E & N & H & C & V).
    exists wb'. rewrite set_icon_requests, Hw in *.
    repeat split; try assumption. rewrite N. reflexivity.
  - unfold L.tray_linux_set_icon.
    unfold L.save_pixbuf_to_temp in *.
    cbv [bind ret emit when_some value trace fst snd] in *. cbn in Hl.
    open_linux lb.
    destruct fcur, fpath; cbn; case_save; cbn in *;
      try discriminate; eexists; repeat split; reflexivity.
Qed.

Lemma set_icon_conversion_failure_witness :
  pixbuf_to_hicon Samples.win32_no_icon (Some Samples.rgba_2x1) = None /\
  value (L.save_pixbuf_to_temp Samples.posix_disk_full Samples.rgba_2x1
           ("pchat-" ++ L.decimal (L.g_get_real_time Samples.posix_disk_full)))
    = None /\
  (exists wb',
     value (tray_windows_set_icon Samples.win32_no_icon
              (Some Samples.shown_backend) (Some Samples.rgba_2x1)) = Some wb' /\
     current_icon wb' = Some Samples.rgba_2x1 /\ hicon wb' = None) /\
  (exists lb',
     value (L.tray_linux_set_icon Samples.posix_disk_full
              (Some Samples.linux_backend) (Some Samples.rgba_2x1)) = Some lb' /\
     L.current_icon lb' = Some Samples.rgba_2x1 /\
     L.temp_icon_path lb' = None).
Proof.
  assert (Hw : pixbuf_to_hicon Samples.win32_no_icon (Some Samples.rgba_2x1) = None)
    by (vm_compute; reflexivity).
  assert (Hl : value (L.save_pixbuf_to_temp Samples.posix_disk_full Samples.rgba_2x1
                        ("pchat-" ++ L.decimal
                                       (L.g_get_real_time Samples.posix_disk_full)))
               = None)
    by (vm_compute; reflexivity).
  split; [exact Hw|]. split; [exact Hl|].
  destruct (set_icon_conversion_failure
              Samples.win32_no_icon Samples.shown_backend
              Samples.posix_disk_full Samples.linux_backend
              Samples.rgba_2x1 Hw Hl) as [Hwin Hlin].
  split.
  - destruct Hwin as (wb' & E & C & H & _). exists wb'. repeat split; assumption.
  - destruct Hlin as (lb' & E & C & P & _). exists lb'. repeat split; assumption.
Defined.

(** ** Creation without image or tooltip *)

(** C4, as stated, fails on the desktop-indicator backend: the handle
    [create (NULL, NULL)] returns is embedded at once, because creation sets
    the indicator's status to active. *)
Lemma linux_create_is_embedded :
  L.tray_linux_is_embedded
    (value (L.tray_linux_new Samples.posix_ok None None)) = true.
Proof. reflexivity. Qed.

(** C4, amended.  [create (NULL, NULL)] returns a handle with no icon
    applied on every backend (on the shell-notification-icon backend when the
    hidden window could be created, else NULL).  [is_embedded] is at first
    false on the shell-notification-icon and status-bar-item backends, and
    true on the desktop-indicator backend, whose indicator is active from
    creation on. *)
Theorem create_without_image
        (los : L.Posix) (wos : Win32) (mb : Utf8ToWide) :
  (* desktop-indicator backend *)
  (exists b,
     value (L.tray_linux_new los None None) = Some b /\
     L.current_icon b = None /\ L.icon_name b = None /\
     L.temp_icon_path b = None /\
     List.filter L.is_icon_registration
                 (trace (L.tray_linux_new los None None)) = [] /\
     option_map L.ai_status (L.indicator b)
       = Some L.APP_INDICATOR_STATUS_ACTIVE /\
     L.tray_linux_is_embedded (Some b) = true) /\
  (* shell-notification-icon backend *)
  match CreateWindowExW_result wos with
  | Some w =>
      exists b,
        value (tray_windows_new wos mb None None) = Some b /\
        hwnd b = Some w /\
        current_icon b = None /\ hicon b = None /\ nid_hIcon (nid b) = None /\
        requests (trace (tray_windows_new wos mb None None)) = [] /\
        visible b = false /\
        tray_windows_is_embedded (Some b) = false
  | None => value (tray_windows_new wos mb None None) = None
  end /\
  (* status-bar-item backend *)
  (let b := M.heap_backend (value (M.tray_macos_new None None)) in
   M.statusItem b = None /\ M.currentIcon b = None /\ M.currentImage b = None /\
   M.visible b = false /\
   M.tray_macos_is_embedded (Some b) = false).
Proof.
  split; [|split].
  - eexists. repeat split; reflexivity.
  - unfold tray_windows_new.
    destruct (CreateWindowExW_result wos) as [w|]; [|reflexivity].
    eexists. repeat split; reflexivity.
  - repeat split; reflexivity.
Qed.

(** ** NULL handles *)

(** C7.  Every operation of every backend, and every wrapper of the
    dispatcher under each of its selections, given a NULL handle returns at
    once: the result is NULL again, no call is made (the handle is matched
    before any field is read), and [is_embedded] answers false. *)
Theorem null_handle_is_noop :
  (* desktop-indicator backend *)
  (forall os host icon tip v cb ud,
     L.tray_linux_set_icon os None icon = (None, []) /\
     L.tray_linux_set_tooltip None tip = (None, []) /\
     L.tray_linux_set_visible None v = (None, []) /\
     L.tray_linux_is_embedded None = false /\
     L.tray_linux_set_activate_callback None cb ud = (None, []) /\
     L.tray_linux_set_menu_callback host None cb ud = (None, []) /\
     L.tray_linux_set_embedded_callback None cb ud = (None, []) /\
     L.tray_linux_rebuild_menu host None = (None, []) /\
     L.tray_linux_destroy None = (None, [])) /\
  (* shell-notification-icon backend *)
  (forall os mb icon tip v cb ud,
     tray_windows_set_icon os None icon = (None, []) /\
     tray_windows_set_tooltip mb None tip = (None, []) /\
     tray_windows_set_visible None v = (None, []) /\
     tray_windows_is_embedded None = false /\
     tray_windows_set_activate_callback None cb ud = (None, []) /\
     tray_windows_set_menu_callback None cb ud = (None, []) /\
     tray_windows_set_embedded_callback None cb ud = (None, []) /\
     tray_windows_destroy None = (None, [])) /\
  (* status-bar-item backend *)
  (forall os icon tip v cb ud,
     M.tray_macos_set_icon os None icon = (None, []) /\
     M.tray_macos_set_tooltip None tip = (None, []) /\
     M.tray_macos_set_visible None v = (None, []) /\
     M.tray_macos_is_embedded None = false /\
     M.tray_macos_set_activate_callback None cb ud = (None, []) /\
     M.tray_macos_set_menu_callback None cb ud = (None, []) /\
     M.tray_macos_set_embedded_callback None cb ud = (None, []) /\
     M.tray_macos_destroy None = (None, [])) /\
  (* dispatcher: the wrappers that test the handle, under any selection *)
  (forall B icon tip v cb ud,
     D.tray_backend_set_icon B None icon = (None, []) /\
     D.tray_backend_set_tooltip B None tip = (None, []) /\
     D.tray_backend_set_visible B None v = (None, []) /\
     D.tray_backend_is_embedded B None = false /\
     D.tray_backend_set_activate_callback B None cb ud = (None, []) /\
     D.tray_backend_set_menu_callback B None cb ud = (None, []) /\
     D.tray_backend_set_embedded_callback B None cb ud = (None, []) /\
     D.tray_backend_destroy B None = (None, [])) /\
  (* dispatcher: rebuild_menu, which forwards without a test *)
  (forall los host wos mb,
     D.tray_backend_rebuild_menu (D.linux los host) None = (None, []) /\
     D.tray_backend_rebuild_menu (D.windows wos mb) None = (None, []) /\
     D.tray_backend_rebuild_menu D.apple None = (None, []) /\
     D.tray_backend_rebuild_menu D.fallback None = (None, [])).
Proof.
  split; [|split; [|split; [|split]]].
  - intros. destruct icon, tip; repeat split; reflexivity.
  - intros. destruct icon, tip; repeat split; reflexivity.
  - intros. destruct icon, tip; repeat split; reflexivity.
  - intros B icon tip v cb ud.
    unfold D.tray_backend_set_icon, D.tray_backend_set_tooltip,
      D.tray_backend_set_visible, D.tray_backend_is_embedded,
      D.tray_backend_set_activate_callback, D.tray_backend_set_menu_callback,
      D.tray_backend_set_embedded_callback, D.tray_backend_destroy.
    destruct (D.backend_set_icon B), (D.backend_set_tooltip B),
      (D.backend_set_visible B), (D.backend_is_embedded B),
      (D.backend_set_activate_callback B), (D.backend_set_menu_callback B),
      (D.backend_set_embedded_callback B), (D.backend_destroy B);
      repeat split; reflexivity.
  - intros. repeat split; reflexivity.
Qed.

(** ** The desktop-indicator backend's menu *)

Lemma value_bind {E A B} (m : @eff E A) (k : A -> @eff E B) :
  value (bind m k) = value (k (value m)).
Proof.
  unfold bind, value. destruct m as [a t1]. simpl.
  destruct (k a). reflexivity.
Qed.

Lemma trace_bind {E A B} (m : @eff E A) (k : A -> @eff E B) :
  trace (bind m k) = trace m ++ trace (k (value m)).
Proof.
  unfold bind, value, trace. destruct m as [a t1]. simpl.
  destruct (k a). reflexivity.
Qed.

Lemma eff_eta {E A} (m : @eff E A) : m = (value m, trace m).
Proof. destruct m; reflexivity. Qed.

(** Destroying the widgets of [iter] one by one removes exactly them from
    the container, and makes one [gtk_widget_destroy] call for each. *)
Lemma destroy_children_spec iter m :
  L.destroy_children iter m
  = ({| L.menu_widget := L.menu_widget m;
        L.menu_children :=
          List.filter (fun c => negb (existsb (Z.eqb c) iter)) (L.menu_children m) |},
     List.map L.gtk_widget_destroy iter).
Proof.
  revert m. induction iter as [|w next IH]; intros m.
  - simpl. unfold ret. f_equal. destruct m as [mw ch]. simpl. f_equal.
    induction ch as [|c ch IHc]; [reflexivity|]. simpl. f_equal. exact IHc.
  - simpl L.destroy_children. rewrite IH.
    unfold bind, emit. simpl. f_equal. f_equal.
    induction (L.menu_children m) as [|c ch IHc]; [reflexivity|].
    simpl. destruct (Z.eqb c w); simpl.
    + exact IHc.
    + destruct (existsb (Z.eqb c) next); simpl; [exact IHc|].
      f_equal. exact IHc.
Qed.

Lemma filter_out_all (l l' : list Z) :
  incl l l' ->
  List.filter (fun c => negb (existsb (Z.eqb c) l')) l = [].
Proof.
  induction l as [|c l IH]; intros Hin; [reflexivity|].
  simpl.
  assert (E : existsb (Z.eqb c) l' = true).
  { apply existsb_exists. exists c. split; [apply Hin; left; reflexivity|].
    apply Z.eqb_refl. }
  rewrite E. simpl. apply IH. intros x Hx. apply Hin. right. exact Hx.
Qed.

(** The clearing loop of [rebuild_menu] leaves the container empty. *)
Lemma destroy_children_clears m :
  L.destroy_children (L.menu_children m) m
  = ({| L.menu_widget := L.menu_widget m; L.menu_children := [] |},
     List.map L.gtk_widget_destroy (L.menu_children m)).
Proof.
  rewrite destroy_children_spec. f_equal. f_equal.
  apply filter_out_all. apply incl_refl.
Qed.

Lemma count_app {E} (p : E -> bool) (t1 t2 : list E) :
  count p (t1 ++ t2) = (count p t1 + count p t2)%nat.
Proof. unfold count. rewrite filter_app, length_app. reflexivity. Qed.

Lemma count_destroys (l : list L.GtkWidget) :
  count L.is_call_menu (List.map L.gtk_widget_destroy l) = 0%nat.
Proof. induction l as [|w l IH]; [reflexivity|]. exact IH. Qed.

(** C8.  With a menu callback registered, [rebuild_menu] destroys every
    child the menu container holds, then calls the menu-building delegate
    exactly once, on the emptied container (button 3, time 0); the container
    then holds exactly what that call of the delegate put into it, whatever
    it held before, and nothing else of the handle changes.  With no menu
    callback registered it does nothing. *)
Theorem rebuild_menu_replaces_items (host : L.HostMenu) (b : L.TrayBackend) :
  match L.menu b, L.menu_callback b with
  | Some m, Some cb =>
      let emptied := {| L.menu_widget := L.menu_widget m; L.menu_children := [] |} in
      let rebuilt :=
        {| L.menu_widget := L.menu_widget m;
           L.menu_children := host cb emptied 3 0 (L.menu_userdata b) |} in
      value (L.tray_linux_rebuild_menu host (Some b))
        = Some (L.with_menu b (Some rebuilt)) /\
      trace (L.tray_linux_rebuild_menu host (Some b))
        = List.map L.gtk_widget_destroy (L.menu_children m)
          ++ [L.call_menu cb (Some (L.menu_widget m)) 3 0 (L.menu_userdata b)] /\
      count L.is_call_menu (trace (L.tray_linux_rebuild_menu host (Some b))) = 1%nat
  | _, _ => L.tray_linux_rebuild_menu host (Some b) = (Some b, [])
  end.
Proof.
  unfold L.tray_linux_rebuild_menu.
  destruct (L.menu b) as [m|]; [|reflexivity].
  destruct (L.menu_callback b) as [cb|]; [|reflexivity].
  cbv zeta. rewrite destroy_children_clears.
  cbv [bind ret emit value trace fst snd].
  cbn [L.menu_widget L.menu_children]. rewrite app_nil_r.
  split; [reflexivity|]. split; [reflexivity|].
  rewrite count_app, count_destroys. reflexivity.
Qed.

Example rebuild_menu_does_not_duplicate :
  let run :=
    (b0 <- L.tray_linux_new Samples.posix_ok None None ;;
     b1 <- L.tray_linux_set_menu_callback Samples.host_three_items b0 (Some 9) 0 ;;
     b2 <- L.tray_linux_rebuild_menu Samples.host_three_items b1 ;;
     L.tray_linux_rebuild_menu Samples.host_three_items b2)%eff in
  option_map L.menu (value run)
  = Some (Some {| L.menu_widget := 77; L.menu_children := [101; 102; 103] |}).
Proof. reflexivity. Qed.

(** The menu container created with the handle stays attached to it: no
    operation replaces or drops it. *)
Lemma new_has_menu os icon tip :
  L.has_menu (L.gtk_menu_new_result os) (value (L.tray_linux_new os icon tip)).
Proof.
  unfold L.tray_linux_new, L.has_menu.
  destruct icon as [i|].
  - unfold L.save_pixbuf_to_temp.
    cbv [bind ret emit when_some value trace fst snd]; cbn.
    case_save; cbn; eexists; eexists; repeat split; reflexivity.
  - eexists. eexists. repeat split; reflexivity.
Qed.

Lemma call_keeps_menu w c b :
  L.has_menu w b -> L.has_menu w (value (L.call c b)).
Proof.
  intros (s & m & -> & Hm & Hw). unfold L.has_menu.
  open_linux s. subst fmenu.
  destruct c as [os icon|t|v|cb ud|host cb ud|cb ud|host]; cbn [L.call].
  - destruct icon as [i|]; [|eexists; eexists; repeat split; eauto].
    unfold L.tray_linux_set_icon, L.save_pixbuf_to_temp.
    destruct fcur, fpath;
      cbv [bind ret emit when_some value trace fst snd]; cbn;
      case_save; cbn; eexists; eexists; repeat split; eauto.
  - destruct t; eexists; eexists; repeat split; eauto.
  - eexists; eexists; repeat split; eauto.
  - eexists; eexists; repeat split; eauto.
  - destruct cb; eexists; eexists; repeat split; eauto.
  - eexists; eexists; repeat split; eauto.
  - unfold L.tray_linux_rebuild_menu. cbn [L.menu L.menu_callback].
    destruct fmcb; [|eexists; eexists; repeat split; eauto].
    rewrite destroy_children_clears.
    eexists; eexists; repeat split; eauto.
Qed.

Lemma calls_keep_menu w cs b :
  L.has_menu w b -> L.has_menu w (value (L.calls cs b)).
Proof.
  revert b. induction cs as [|c cs IH]; intros b H; [exact H|].
  simpl L.calls. rewrite value_bind. apply IH, call_keeps_menu, H.
Qed.

(** C9.  On a handle of the desktop-indicator backend (created by
    [tray_linux_new] and used through any calls since), [set_menu_callback]
    with a non-null callback calls that callback at once, exactly once, with
    the handle's persistent menu container, button 3 and time 0, and the
    container then holds what the callback built: the menu is populated at
    registration, without any [rebuild_menu]. *)
Theorem set_menu_callback_builds_menu
        (os : L.Posix) (icon : option GdkPixbuf) (tip : option string)
        (cs : list L.Call) (host : L.HostMenu) (cb : fnptr) (ud : gpointer) :
  exists b m,
    value (L.calls cs (value (L.tray_linux_new os icon tip))) = Some b /\
    L.menu b = Some m /\
    L.menu_widget m = L.gtk_menu_new_result os /\
    trace (L.tray_linux_set_menu_callback host (Some b) (Some cb) ud)
      = [L.call_menu cb (Some (L.gtk_menu_new_result os)) 3 0 ud] /\
    value (L.tray_linux_set_menu_callback host (Some b) (Some cb) ud)
      = Some (L.with_menu
                (L.with_menu_callback b (Some cb) ud)
                (Some {| L.menu_widget := L.gtk_menu_new_result os;
                         L.menu_children := host cb m 3 0 ud |})).
Proof.
  destruct (calls_keep_menu (L.gtk_menu_new_result os) cs _
              (new_has_menu os icon tip)) as (b & m & E & Hm & Hw).
  exists b, m. repeat split; try assumption.
  - unfold L.tray_linux_set_menu_callback. open_linux b. subst fmenu.
    rewrite <- Hw. reflexivity.
  - unfold L.tray_linux_set_menu_callback. open_linux b. subst fmenu.
    rewrite <- Hw. reflexivity.
Qed.

Example set_menu_callback_first_menu :
  let run :=
    (b0 <- L.tray_linux_new Samples.posix_ok None None ;;
     L.tray_linux_set_menu_callback Samples.host_three_items b0 (Some 9) 5)%eff in
  trace run
  = [L.app_indicator_new "pchat-tray" "pchat"; L.gtk_menu_new 77;
     L.app_indicator_set_menu 77;
     L.app_indicator_set_status L.APP_INDICATOR_STATUS_ACTIVE;
     L.call_menu 9 (Some 77) 3 0 5] /\
  option_map L.menu (value run)
  = Some (Some {| L.menu_widget := 77; L.menu_children := [101; 102; 103] |}).
Proof. split; reflexivity. Qed.

(** ** The status-bar-item backend *)

(** Opens a macOS handle into its fields. *)
Ltac open_macos b :=
  destruct b as [fitem fimg fdel fcur ftip fvis facb faud fmcb fmud fecb feud];
  cbn [M.statusItem M.currentImage M.delegate M.currentIcon M.tooltip M.visible
       M.activateCallback M.activateUserdata M.menuCallback M.menuUserdata
       M.embeddedCallback M.embeddedUserdata] in *.

(** C10.  [is_embedded] answers the handle's [visible] flag.  Creation sets
    the flag to false; [set_visible] stores its argument whether or not the
    native status item exists.  Hence [set_visible (handle, true)] on a
    handle whose creation is still pending makes [is_embedded] answer true
    although there is no status item, and no message reaches one. *)
Theorem macos_is_embedded_is_visible_flag
        (b : M.TrayBackend) (v : bool)
        (icon : option GdkPixbuf) (tip : option string) :
  M.tray_macos_is_embedded (Some b) = M.visible b /\
  M.visible (M.heap_backend (value (M.tray_macos_new icon tip))) = false /\
  (exists b',
     value (M.tray_macos_set_visible (Some b) v) = Some b' /\
     M.visible b' = v /\
     M.tray_macos_is_embedded (Some b') = v) /\
  (let pending := value (M.tray_macos_new icon tip) in
   let shown := M.tray_macos_set_visible (Some (M.heap_backend pending)) true in
   M.statusItem (M.heap_backend pending) = None /\
   M.timeout_source pending
     = Some {| M.d_icon := icon; M.d_tooltip := tip; M.d_attempts := 0 |} /\
   trace shown = [] /\
   option_map M.statusItem (value shown) = Some None /\
   M.tray_macos_is_embedded (value shown) = true).
Proof.
  split; [reflexivity|].
  split; [destruct icon; reflexivity|].
  split.
  { unfold M.tray_macos_set_visible, M.item_msg. open_macos b.
    destruct fitem; eexists; repeat split; reflexivity. }
  destruct icon; repeat split; reflexivity.
Qed.



(** *** After a failed creation

    The poll is gone and the handle has no status item: nothing the host
    does afterwards reaches a status item, and nothing is left to run once
    the handle is destroyed. *)








(* ========================================================================= *)
(** * Further properties of the backends *)

(** ** Bitmaps *)

Lemma read_range pixels off : 0 <= read pixels off <= 255.
Proof.
  unfold read. destruct (byte_at pixels off) as [v|] eqn:E; [|lia].
  pose proof (byte_at_range _ _ _ E). lia.
Qed.

(** Where byte [j] of the destination pixel at column [x], row [y] comes
    from. *)
Lemma icon_byte_at os pb icon x y j :
  pixbuf_to_hicon os (Some pb) = Some icon ->
  0 <= x < pb_width pb -> 0 <= y < pb_height pb -> 0 <= j < 4 ->
  dib_byte icon (4 * (y * pb_width pb + x) + j)
  = nth_error (convert_pixel (pb_pixels pb) (pb_n_channels pb)
                 (y * pb_rowstride pb + x * pb_n_channels pb))
              (Z.to_nat j).
Proof.
  intros Hconv Hx Hy Hj. unfold pixbuf_to_hicon in Hconv.
  destruct (CreateDIBSection_ok _ _ _); [|discriminate].
  destruct (CreateIconIndirect_ok _ _); [|discriminate].
  injection Hconv as <-. unfold dib_byte. cbn [icon_color dib_bits].
  destruct (Z.ltb_spec (4 * (y * pb_width pb + x) + j) 0); [nia|].
  replace (Z.to_nat (4 * (y * pb_width pb + x) + j))
    with (4 * (Z.to_nat y * Z.to_nat (pb_width pb) + Z.to_nat x) + Z.to_nat j)%nat.
  - rewrite image_loop_nth by lia.
    f_equal. f_equal. rewrite !Z2Nat.id by lia. ring.
  - apply Nat2Z.inj. rewrite Z2Nat.id by nia.
    repeat (rewrite Nat2Z.inj_add || rewrite Nat2Z.inj_mul).
    rewrite !Z2Nat.id by lia. change (Z.of_nat 4) with 4. ring.
Qed.

(** One converted pixel: four bytes, the colours never above alpha. *)
Lemma convert_pixel_premultiplied pixels channels src :
  exists b g r a,
    convert_pixel pixels channels src = [b; g; r; a] /\
    0 <= a <= 255 /\ 0 <= b <= a /\ 0 <= g <= a /\ 0 <= r <= a.
Proof.
  unfold convert_pixel.
  pose proof (read_range pixels src) as Hr.
  pose proof (read_range pixels (src + 1)) as Hg.
  pose proof (read_range pixels (src + 2)) as Hb.
  pose proof (read_range pixels (src + 3)) as Ha.
  set (r := read pixels src) in *.
  set (g := read pixels (src + 1)) in *.
  set (b := read pixels (src + 2)) in *.
  assert (Hle : forall c a, 0 <= c <= 255 -> 0 <= a <= 255 ->
                  0 <= to_guchar (Z.quot (c * a) 255) <= a).
  { intros c a Hc Haa. rewrite premultiply_fits by lia. split.
    - apply Z.div_pos; nia.
    - apply Z.div_le_upper_bound; nia. }
  destruct (channels =? 4).
  - set (a := read pixels (src + 3)) in *.
    destruct (Z.ltb_spec a 255).
    + eexists _, _, _, _. split; [reflexivity|].
      repeat split; try lia; apply Hle; lia.
    + eexists _, _, _, _. split; [reflexivity|]. lia.
  - change (255 <? 255) with false. cbv iota.
    eexists _, _, _, _. split; [reflexivity|]. lia.
Qed.

(** X1.  Whatever the image, every pixel of a bitmap the converter built is
    premultiplied: its four bytes are in 0..255 and no colour exceeds the
    pixel's alpha (so a pixel of alpha 0 is all zero); the bitmap holds four
    bytes per pixel of the image. *)
Theorem pixbuf_to_hicon_colour_below_alpha
        (os : Win32) (pb : GdkPixbuf) (icon : HICON) :
  pixbuf_to_hicon os (Some pb) = Some icon ->
  List.length (dib_bits (icon_color icon))
    = (4 * Z.to_nat (pb_width pb) * Z.to_nat (pb_height pb))%nat /\
  forall x y, 0 <= x < pb_width pb -> 0 <= y < pb_height pb ->
    let dest := 4 * (y * pb_width pb + x) in
    exists b g r a,
      dib_byte icon dest = Some b /\
      dib_byte icon (dest + 1) = Some g /\
      dib_byte icon (dest + 2) = Some r /\
      dib_byte icon (dest + 3) = Some a /\
      0 <= a <= 255 /\ 0 <= b <= a /\ 0 <= g <= a /\ 0 <= r <= a.
Proof.
  intros Hconv. split.
  - unfold pixbuf_to_hicon in Hconv.
    destruct (CreateDIBSection_ok _ _ _); [|discriminate].
    destruct (CreateIconIndirect_ok _ _); [|discriminate].
    injection Hconv as <-. cbn [icon_color dib_bits].
    apply image_loop_length.
  - intros x y Hx Hy dest.
    pose proof (icon_byte_at os pb icon x y 0 Hconv Hx Hy ltac:(lia)) as H0.
    pose proof (icon_byte_at os pb icon x y 1 Hconv Hx Hy ltac:(lia)) as H1.
    pose proof (icon_byte_at os pb icon x y 2 Hconv Hx Hy ltac:(lia)) as H2.
    pose proof (icon_byte_at os pb icon x y 3 Hconv Hx Hy ltac:(lia)) as H3.
    rewrite Z.add_0_r in H0. fold dest in H0, H1, H2, H3.
    destruct (convert_pixel_premultiplied (pb_pixels pb) (pb_n_channels pb)
                (y * pb_rowstride pb + x * pb_n_channels pb))
      as (b & g & r & a & E & Hbounds).
    rewrite E in H0, H1, H2, H3.
    exists b, g, r, a. repeat split; try assumption; lia.
Qed.

Lemma pixbuf_to_hicon_colour_below_alpha_witness :
  exists icon,
    pixbuf_to_hicon Samples.win32_ok (Some Samples.rgba_2x1) = Some icon /\
    List.length (dib_bits (icon_color icon)) = 8%nat.
Proof.
  eexists. split; [reflexivity|].
  exact (proj1 (pixbuf_to_hicon_colour_below_alpha
                  Samples.win32_ok Samples.rgba_2x1 _ eq_refl)).
Defined.

(** ** The window procedure *)



(** ** The shell-notification-icon backend over a handle's life *)

(** What one call of the host does to the books: the order of requests,
    the pixbuf references and the native icons. *)
Lemma call_accounting (c : TrayWindows.Call) (b : TrayBackend) :
  exists b',
    value (TrayWindows.call c (Some b)) = Some b' /\
    (forall rs,
       requests_in_order (visible b)
                     (requests (trace (TrayWindows.call c (Some b))) ++ rs)
       = requests_in_order (visible b') rs) /\
    visible b' = TrayWindows.last_visible [c] (visible b) /\
    (count is_ref (trace (TrayWindows.call c (Some b))) + held (current_icon b)
     = count is_unref (trace (TrayWindows.call c (Some b)))
       + held (current_icon b'))%nat /\
    (count is_DestroyIcon (trace (TrayWindows.call c (Some b))) + held (hicon b')
     = held (hicon b) + (if builds_icon c then 1 else 0))%nat /\
    count is_DestroyWindow (trace (TrayWindows.call c (Some b))) = 0%nat /\
    hwnd b' = hwnd b.
Proof.
  destruct c as [os icon|mb tip|v|cb ud|cb ud|cb ud]; cbn [TrayWindows.call].
  - destruct icon as [i|].
    + unfold tray_windows_set_icon, builds_icon. open_handle b.
      destruct (pixbuf_to_hicon os (Some i)) eqn:Econv;
        destruct fhicon, fcur, fvis;
        eexists; (split; [reflexivity|]); cbn; rewrite ?Econv;
        repeat split; reflexivity.
    + open_handle b. eexists. split; [reflexivity|].
      destruct fvis; repeat split; cbn; try reflexivity; lia.
  - destruct tip as [t|]; open_handle b.
    + unfold tray_windows_set_tooltip.
      destruct fvis; eexists; (split; [reflexivity|]);
        repeat split; cbn; try reflexivity; lia.
    + eexists. split; [reflexivity|].
      destruct fvis; repeat split; cbn; try reflexivity; lia.
  - unfold tray_windows_set_visible. open_handle b.
    destruct v, fvis, fecb; eexists; (split; [reflexivity|]);
      repeat split; cbn; try reflexivity; lia.
  - open_handle b. eexists. split; [reflexivity|].
    destruct fvis; repeat split; cbn; try reflexivity; lia.
  - open_handle b. eexists. split; [reflexivity|].
    destruct fvis; repeat split; cbn; try reflexivity; lia.
  - open_handle b. eexists. split; [reflexivity|].
    destruct fvis; repeat split; cbn; try reflexivity; lia.
Qed.

Lemma count_cons {E} (p : E -> bool) (e : E) (t : list E) :
  count p (e :: t) = ((if p e then 1 else 0) + count p t)%nat.
Proof. unfold count. cbn [List.filter]. destruct (p e); reflexivity. Qed.

Lemma last_visible_cons c cs d :
  TrayWindows.last_visible (c :: cs) d
  = TrayWindows.last_visible cs (TrayWindows.last_visible [c] d).
Proof. destruct c; reflexivity. Qed.

(** The same books over any sequence of calls. *)
Lemma calls_accounting (cs : list TrayWindows.Call) (b : TrayBackend) :
  exists b',
    value (TrayWindows.calls cs (Some b)) = Some b' /\
    (forall rs,
       requests_in_order (visible b)
                     (requests (trace (TrayWindows.calls cs (Some b))) ++ rs)
       = requests_in_order (visible b') rs) /\
    visible b' = TrayWindows.last_visible cs (visible b) /\
    (count is_ref (trace (TrayWindows.calls cs (Some b))) + held (current_icon b)
     = count is_unref (trace (TrayWindows.calls cs (Some b)))
       + held (current_icon b'))%nat /\
    (count is_DestroyIcon (trace (TrayWindows.calls cs (Some b))) + held (hicon b')
     = held (hicon b) + count builds_icon cs)%nat /\
    count is_DestroyWindow (trace (TrayWindows.calls cs (Some b))) = 0%nat /\
    hwnd b' = hwnd b.
Proof.
  revert b. induction cs as [|c cs IH]; intros b.
  - exists b. cbn. repeat split; reflexivity || lia.
  - destruct (call_accounting c b) as (b1 & E1 & S1 & V1 & R1 & I1 & W1 & H1).
    destruct (IH b1) as (b2 & E2 & S2 & V2 & R2 & I2 & W2 & H2).
    exists b2. cbn [TrayWindows.calls].
    rewrite value_bind, trace_bind, E1.
    split; [exact E2|].
    split.
    { intros rs. rewrite requests_app, <- app_assoc, S1. apply S2. }
    split; [rewrite last_visible_cons, <- V1; exact V2|].
    rewrite !count_app.
    split; [lia|].
    split.
    { rewrite (count_cons builds_icon). destruct (builds_icon c); lia. }
    split; [lia|congruence].
Qed.

Lemma calls_on_null cs : TrayWindows.calls cs None = (None, []).
Proof.
  induction cs as [|c cs IH]; [reflexivity|].
  cbn [TrayWindows.calls].
  assert (E : TrayWindows.call c None = (None, []))
    by (destruct c as [? [?|]|? [?|]| | | |]; reflexivity).
  rewrite E. unfold bind. rewrite IH. reflexivity.
Qed.

(** The handle [tray_windows_new] returns: hidden, owning the converted
    icon and one reference to the image, with its window. *)
Lemma new_accounting os mb icon tip :
  match CreateWindowExW_result os with
  | Some w =>
      exists b,
        value (tray_windows_new os mb icon tip) = Some b /\
        visible b = false /\ hwnd b = Some w /\
        requests (trace (tray_windows_new os mb icon tip)) = [] /\
        count is_ref (trace (tray_windows_new os mb icon tip))
          = held (current_icon b) /\
        count is_unref (trace (tray_windows_new os mb icon tip)) = 0%nat /\
        count is_DestroyIcon (trace (tray_windows_new os mb icon tip)) = 0%nat /\
        count is_DestroyWindow (trace (tray_windows_new os mb icon tip)) = 0%nat /\
        held (hicon b) = held (pixbuf_to_hicon os icon)
  | None => tray_windows_new os mb icon tip
            = (None, [RegisterClassExW; CreateWindowExW; g_free_backend])
  end.
Proof.
  unfold tray_windows_new.
  destruct (CreateWindowExW_result os) as [w|]; [|reflexivity].
  destruct icon as [i|], tip as [t|]; eexists; repeat split; reflexivity.
Qed.

(** The shell against the order of the requests: a shell that grants
    every request is in the state the flag says; one that grants at least
    every "delete" has the icon registered only if the flag says so; one that
    refuses every request never has it registered. *)
Lemma state_granting rs :
  forall v v',
    requests_in_order v rs = Some v' -> shell_state granting v rs = v'.
Proof.
  induction rs as [|[[| |] n] rs IH]; intros v v' H; cbn in *.
  - congruence.
  - destruct v; [discriminate|]. apply IH, H.
  - destruct v; [|discriminate]. apply IH, H.
  - destruct v; [|discriminate]. apply IH, H.
Qed.

Lemma state_below_flag (s : Shell) rs :
  forall reg v v',
    requests_in_order v rs = Some v' ->
    Bool.le reg v ->
    Bool.le (shell_state (granting_delete s) reg rs) v'.
Proof.
  induction rs as [|[[| |] n] rs IH]; intros reg v v' H Hle; cbn in *.
  - injection H as <-. exact Hle.
  - destruct v; [discriminate|]. destruct reg; [discriminate Hle|].
    apply (IH _ true _ H). destruct (s NIM_ADD n); reflexivity || exact I.
  - destruct v; [|discriminate]. apply (IH _ true _ H). exact Hle.
  - destruct v; [|discriminate]. apply (IH _ false _ H).
    destruct reg; exact I.
Qed.

Lemma state_refusing rs : shell_state refusing false rs = false.
Proof.
  induction rs as [|[[| |] n] rs IH]; cbn; auto.
Qed.

Lemma refs_app t1 t2 : refs (t1 ++ t2) = (refs t1 ++ refs t2)%list.
Proof. apply flat_map_app. Qed.

Lemma unrefs_app t1 t2 : unrefs (t1 ++ t2) = (unrefs t1 ++ unrefs t2)%list.
Proof. apply flat_map_app. Qed.

Lemma icons_destroyed_app t1 t2 :
  icons_destroyed (t1 ++ t2) = (icons_destroyed t1 ++ icons_destroyed t2)%list.
Proof. apply flat_map_app. Qed.

Lemma windows_destroyed_app t1 t2 :
  windows_destroyed (t1 ++ t2)
  = (windows_destroyed t1 ++ windows_destroyed t2)%list.
Proof. apply flat_map_app. Qed.

(** What one call of the host takes and gives back: it drops the handle's
    reference on the image it replaces and takes one on the image given, and
    it destroys the native icon it replaces. *)
Lemma call_objects (c : TrayWindows.Call) (b : TrayBackend) :
  exists b',
    value (TrayWindows.call c (Some b)) = Some b' /\
    refs (trace (TrayWindows.call c (Some b))) = image_given c /\
    (unrefs (trace (TrayWindows.call c (Some b))) ++ pointee (current_icon b')
     = pointee (current_icon b) ++ image_given c)%list /\
    (icons_destroyed (trace (TrayWindows.call c (Some b))) ++ pointee (hicon b')
     = pointee (hicon b) ++ icon_built c)%list /\
    windows_destroyed (trace (TrayWindows.call c (Some b))) = [] /\
    hwnd b' = hwnd b.
Proof.
  destruct c as [os icon|mb tip|v|cb ud|cb ud|cb ud]; cbn [TrayWindows.call].
  - destruct icon as [i|].
    + unfold tray_windows_set_icon, icon_built, image_given. open_handle b.
      destruct (pixbuf_to_hicon os (Some i)) eqn:Econv;
        destruct fhicon, fcur, fvis;
        eexists; (split; [reflexivity|]); cbn; rewrite ?Econv;
        repeat split; reflexivity.
    + open_handle b. eexists. split; [reflexivity|].
      cbn. rewrite !app_nil_r. repeat split; reflexivity.
  - destruct tip as [t|]; open_handle b.
    + unfold tray_windows_set_tooltip.
      destruct fvis; eexists; (split; [reflexivity|]);
        cbn; rewrite !app_nil_r; repeat split; reflexivity.
    + eexists. split; [reflexivity|].
      cbn. rewrite !app_nil_r. repeat split; reflexivity.
  - unfold tray_windows_set_visible. open_handle b.
    destruct v, fvis, fecb; eexists; (split; [reflexivity|]);
      cbn; rewrite !app_nil_r; repeat split; reflexivity.
  - open_handle b. eexists. split; [reflexivity|].
    cbn. rewrite !app_nil_r. repeat split; reflexivity.
  - open_handle b. eexists. split; [reflexivity|].
    cbn. rewrite !app_nil_r. repeat split; reflexivity.
  - open_handle b. eexists. split; [reflexivity|].
    cbn. rewrite !app_nil_r. repeat split; reflexivity.
Qed.

(** The same over any sequence of calls. *)
Lemma calls_objects (cs : list TrayWindows.Call) (b : TrayBackend) :
  exists b',
    value (TrayWindows.calls cs (Some b)) = Some b' /\
    refs (trace (TrayWindows.calls cs (Some b))) = flat_map image_given cs /\
    (unrefs (trace (TrayWindows.calls cs (Some b))) ++ pointee (current_icon b')
     = pointee (current_icon b) ++ flat_map image_given cs)%list /\
    (icons_destroyed (trace (TrayWindows.calls cs (Some b))) ++ pointee (hicon b')
     = pointee (hicon b) ++ flat_map icon_built cs)%list /\
    windows_destroyed (trace (TrayWindows.calls cs (Some b))) = [] /\
    hwnd b' = hwnd b.
Proof.
  revert b. induction cs as [|c cs IH]; intros b.
  - exists b. cbn. rewrite !app_nil_r. repeat split; reflexivity.
  - destruct (call_objects c b) as (b1 & E1 & R1 & U1 & I1 & W1 & H1).
    destruct (IH b1) as (b2 & E2 & R2 & U2 & I2 & W2 & H2).
    exists b2. cbn [TrayWindows.calls flat_map].
    rewrite value_bind, trace_bind, E1.
    rewrite refs_app, unrefs_app, icons_destroyed_app, windows_destroyed_app.
    split; [exact E2|].
    split; [rewrite R1, R2; reflexivity|].
    split; [rewrite <- app_assoc, U2, !app_assoc, U1; reflexivity|].
    split; [rewrite <- app_assoc, I2, !app_assoc, I1; reflexivity|].
    split; [rewrite W1, W2; reflexivity|congruence].
Qed.

(** The handle [tray_windows_new] returns holds the image given and the
    icon converted from it; nothing has been given back yet. *)
Lemma new_objects os mb icon tip w :
  CreateWindowExW_result os = Some w ->
  exists b,
    value (tray_windows_new os mb icon tip) = Some b /\
    hwnd b = Some w /\
    current_icon b = icon /\ hicon b = pixbuf_to_hicon os icon /\
    refs (trace (tray_windows_new os mb icon tip)) = pointee icon /\
    unrefs (trace (tray_windows_new os mb icon tip)) = [] /\
    icons_destroyed (trace (tray_windows_new os mb icon tip)) = [] /\
    windows_destroyed (trace (tray_windows_new os mb icon tip)) = [].
Proof.
  intros Hw. unfold tray_windows_new. rewrite Hw.
  destruct icon as [i|], tip as [t|]; eexists; repeat split; reflexivity.
Qed.

(** [tray_windows_destroy] gives back what the handle holds. *)
Lemma destroy_objects (b : TrayBackend) :
  value (tray_windows_destroy (Some b)) = None /\
  requests (trace (tray_windows_destroy (Some b)))
    = (if visible b then [(NIM_DELETE, nid b)] else []) /\
  refs (trace (tray_windows_destroy (Some b))) = [] /\
  unrefs (trace (tray_windows_destroy (Some b))) = pointee (current_icon b) /\
  icons_destroyed (trace (tray_windows_destroy (Some b))) = pointee (hicon b) /\
  windows_destroyed (trace (tray_windows_destroy (Some b))) = pointee (hwnd b).
Proof.
  unfold tray_windows_destroy. open_handle b.
  destruct fvis, fhicon, fcur, fhwnd; repeat split; reflexivity.
Qed.

(** X3.  Whatever the host calls on a handle after creating it, the
    requests the handle submits are in the order its own [visible] flag
    dictates (an "add" only while the flag is false, "modify" and "delete"
    only while it is true), [is_embedded] answers that flag, and the flag is
    the visibility the host asked for last (hidden if it never asked, or if
    creation failed).  The backend never reads the shell's answer, so the
    flag tells what was requested, not what the shell did: with a shell that
    grants every request the icon is registered exactly when [is_embedded]
    answers true; with one that grants at least every "delete" it is
    registered only if [is_embedded] answers true; with one that refuses every
    request it is never registered, whatever [is_embedded] answers. *)
Theorem shell_requests_follow_protocol
        (os : Win32) (mb : Utf8ToWide) (icon : option GdkPixbuf)
        (tip : option string) (cs : list TrayWindows.Call) (s : Shell) :
  let run := bind (tray_windows_new os mb icon tip) (TrayWindows.calls cs) in
  requests_in_order false (requests (trace run))
    = Some (tray_windows_is_embedded (value run)) /\
  tray_windows_is_embedded (value run)
    = match CreateWindowExW_result os with
      | Some _ => TrayWindows.last_visible cs false
      | None => false
      end /\
  shell_state granting false (requests (trace run))
    = tray_windows_is_embedded (value run) /\
  Bool.le (shell_state (granting_delete s) false (requests (trace run)))
          (tray_windows_is_embedded (value run)) /\
  shell_state refusing false (requests (trace run)) = false.
Proof.
  cbv zeta.
  assert (H : requests_in_order false
                (requests (trace (bind (tray_windows_new os mb icon tip)
                                       (TrayWindows.calls cs))))
              = Some (tray_windows_is_embedded
                        (value (bind (tray_windows_new os mb icon tip)
                                     (TrayWindows.calls cs)))) /\
              tray_windows_is_embedded
                (value (bind (tray_windows_new os mb icon tip)
                             (TrayWindows.calls cs)))
              = match CreateWindowExW_result os with
                | Some _ => TrayWindows.last_visible cs false
                | None => false
                end).
  { rewrite value_bind, trace_bind, requests_app.
    pose proof (new_accounting os mb icon tip) as Hnew.
    destruct (CreateWindowExW_result os) as [w|].
    - destruct Hnew as (b & E & V & _ & Rq & _).
      rewrite E, Rq. cbn [app].
      destruct (calls_accounting cs b) as (b' & E' & S & V' & _).
      rewrite E'. cbn [tray_windows_is_embedded].
      pose proof (S []) as S0. rewrite app_nil_r, V in S0.
      rewrite S0, V', V. split; reflexivity.
    - rewrite Hnew. cbn [value trace fst snd]. rewrite calls_on_null.
      split; reflexivity. }
  destruct H as [Hord Hflag].
  split; [exact Hord|]. split; [exact Hflag|].
  split; [apply state_granting, Hord|].
  split; [apply (state_below_flag s _ false false _ Hord); exact I|].
  apply state_refusing.
Qed.

(** X4.  Over a whole life (creation, any calls, [destroy]) the handle gives
    back what it took, object by object.  The references it drops are, in
    order, the references it took, and those are on the image given at
    creation and the images given to [set_icon]; the native icons it destroys
    are, in order, the icons its conversions built; the hidden window is
    destroyed once (nothing of this happens when the window could not be
    created).  Its requests end in order with the flag false: the last "add",
    if any, is followed by a "delete", so a shell that grants it every
    "delete" (whatever it answers otherwise) is not left with the icon
    registered. *)
Theorem shell_lifetime_releases_everything
        (os : Win32) (mb : Utf8ToWide) (icon : option GdkPixbuf)
        (tip : option string) (cs : list TrayWindows.Call) (s : Shell) :
  let t := trace (TrayWindows.lifetime os mb icon tip cs) in
  value (TrayWindows.lifetime os mb icon tip cs) = None /\
  (* requests *)
  requests_in_order false (requests t) = Some false /\
  shell_state (granting_delete s) false (requests t) = false /\
  (* references, native icons, the window *)
  unrefs t = refs t /\
  match CreateWindowExW_result os with
  | Some w =>
      refs t = (pointee icon ++ flat_map image_given cs)%list /\
      icons_destroyed t
        = (pointee (pixbuf_to_hicon os icon) ++ flat_map icon_built cs)%list /\
      windows_destroyed t = [w]
  | None =>
      refs t = [] /\ icons_destroyed t = [] /\ windows_destroyed t = []
  end.
Proof.
  cbv zeta.
  assert (Hord : requests_in_order false
                   (requests (trace (TrayWindows.lifetime os mb icon tip cs)))
                 = Some false).
  { unfold TrayWindows.lifetime.
    rewrite !trace_bind, ?value_bind, !requests_app.
    pose proof (new_accounting os mb icon tip) as Hnew.
    destruct (CreateWindowExW_result os) as [w|].
    - destruct Hnew as (b & E & V & _ & Rq & _).
      rewrite E, Rq. cbn [app].
      destruct (calls_accounting cs b) as (b' & E' & S & _).
      rewrite E'. rewrite V in S. rewrite S.
      destruct (destroy_objects b') as (_ & Dr & _). rewrite Dr.
      destruct (visible b'); reflexivity.
    - rewrite Hnew. cbn [value trace fst snd]. rewrite calls_on_null.
      reflexivity. }
  split.
  { unfold TrayWindows.lifetime. rewrite !value_bind.
    destruct (value (TrayWindows.calls cs (value (tray_windows_new os mb icon tip))))
      as [b'|]; [apply destroy_objects|reflexivity]. }
  split; [exact Hord|].
  split.
  { pose proof (state_below_flag s _ false false _ Hord I) as Hle.
    destruct (shell_state (granting_delete s) false _);
      [cbn in Hle; discriminate Hle|reflexivity]. }
  unfold TrayWindows.lifetime.
  rewrite !trace_bind, ?value_bind, !refs_app, !unrefs_app,
    !icons_destroyed_app, !windows_destroyed_app.
  destruct (CreateWindowExW_result os) as [w|] eqn:Hw.
  - destruct (new_objects os mb icon tip w Hw)
      as (b & E & Hh & Hc & Hi & Rf & Un & Di & Dw).
    rewrite E, Rf, Un, Di, Dw. cbn [app].
    destruct (calls_objects cs b) as (b' & E' & R & U & Ic & W & Hw').
    rewrite E'.
    destruct (destroy_objects b') as (_ & _ & Df & Du & Dd & Dx).
    rewrite Df, Du, Dd, Dx, R, U, Ic, W, Hw', Hh, Hc, Hi, app_nil_r.
    repeat split.
  - assert (Hnew : tray_windows_new os mb icon tip
                   = (None, [RegisterClassExW; CreateWindowExW; g_free_backend])).
    { unfold tray_windows_new. rewrite Hw. reflexivity. }
    rewrite Hnew. cbn [value trace fst snd]. rewrite calls_on_null.
    repeat split; reflexivity.
Qed.

(** ** The desktop-indicator backend: file names *)

Lemma no_slash_app a b : L.no_slash (a ++ b) = L.no_slash a && L.no_slash b.
Proof.
  induction a as [|c a IH]; [reflexivity|].
  cbn [append L.no_slash]. rewrite IH. apply andb_assoc.
Qed.

Lemma no_slash_uint d : L.no_slash (NilEmpty.string_of_uint d) = true.
Proof. induction d; cbn; auto. Qed.

Lemma no_slash_decimal n : L.no_slash (L.decimal n) = true.
Proof.
  unfold L.decimal, NilZero.string_of_int, NilZero.string_of_uint.
  destruct (Z.to_int n) as [d|d]; destruct d; cbn; auto using no_slash_uint.
Qed.

Lemma split_without_slash s : L.no_slash s = true -> L.split_last_slash s = None.
Proof.
  induction s as [|c s IH]; [reflexivity|].
  cbn [L.no_slash L.split_last_slash]. intros H.
  apply andb_true_iff in H as [Hc Hs]. rewrite (IH Hs).
  destruct (Ascii.eqb c "/"); [discriminate|reflexivity].
Qed.

(** The last separator of [dir ++ "/" ++ base], with [base] free of
    separators, is the one written out. *)
Lemma split_last_slash_app dir base :
  L.no_slash base = true ->
  L.split_last_slash (dir ++ String "/" base) = Some (dir, base).
Proof.
  intros Hb. induction dir as [|c dir IH].
  - cbn [append L.split_last_slash]. rewrite (split_without_slash _ Hb).
    reflexivity.
  - cbn [append L.split_last_slash]. rewrite IH. reflexivity.
Qed.

Lemma substring_prefix x y : substring 0 (String.length x) (x ++ y) = x.
Proof.
  induction x as [|c x IH]; cbn [String.length append substring].
  - destruct y; reflexivity.
  - rewrite IH. reflexivity.
Qed.

Lemma length_append x y :
  String.length (x ++ y) = (String.length x + String.length y)%nat.
Proof. induction x as [|c x IH]; cbn; [reflexivity|]. rewrite IH. reflexivity. Qed.

Lemma string_app_assoc (a b c : string) :
  ((a ++ b) ++ c = a ++ (b ++ c))%string.
Proof. induction a as [|x a IH]; cbn; [reflexivity|]. rewrite IH. reflexivity. Qed.

Lemma strip_extension_png x : L.strip_extension (x ++ ".png") = x.
Proof.
  unfold L.strip_extension. rewrite length_append. cbn [String.length].
  destruct (Nat.ltb_spec (String.length x + 4) 4); [lia|].
  replace (String.length x + 4 - 4)%nat with (String.length x) by lia.
  apply substring_prefix.
Qed.

Lemma save_pixbuf_to_temp_result os pb name :
  L.save_pixbuf_to_temp os pb name
  = if L.gdk_pixbuf_save_ok os pb (L.temp_file os name)
    then (Some (L.temp_file os name),
          [L.gdk_pixbuf_save pb (L.temp_file os name)])
    else (None, [L.gdk_pixbuf_save pb (L.temp_file os name);
                 L.g_warning (L.save_warning os pb (L.temp_file os name))]).
Proof.
  unfold L.save_pixbuf_to_temp. fold (L.temp_file os name).
  destruct (L.gdk_pixbuf_save_ok os pb (L.temp_file os name)); reflexivity.
Qed.

(** The directory and the stripped base name of a temp file. *)
Lemma temp_file_parts os name :
  L.no_slash name = true ->
  L.g_path_get_dirname (L.temp_file os name) = "/tmp"%string /\
  L.strip_extension (L.g_path_get_basename (L.temp_file os name))
  = ("pchat-tray-" ++ name ++ "-" ++ L.decimal (L.getpid os))%string.
Proof.
  intros Hname.
  assert (E : L.temp_file os name
              = ("/tmp" ++ String "/"
                   (("pchat-tray-" ++ name ++ "-" ++ L.decimal (L.getpid os))
                    ++ ".png"))%string).
  { unfold L.temp_file. rewrite !string_app_assoc. reflexivity. }
  assert (Hbase : L.no_slash
                    (("pchat-tray-" ++ name ++ "-" ++ L.decimal (L.getpid os))
                     ++ ".png") = true).
  { rewrite !no_slash_app, Hname, no_slash_decimal. reflexivity. }
  unfold L.g_path_get_dirname, L.g_path_get_basename.
  rewrite E, (split_last_slash_app _ _ Hbase).
  split; [reflexivity|apply strip_extension_png].
Qed.

Arguments L.temp_file : simpl never.
Arguments L.timed_name : simpl never.
Arguments L.g_path_get_dirname : simpl never.
Arguments L.g_path_get_basename : simpl never.
Arguments L.strip_extension : simpl never.
Arguments L.decimal : simpl never.

Lemma no_slash_timed_name os : L.no_slash (L.timed_name os) = true.
Proof. unfold L.timed_name. rewrite no_slash_app, no_slash_decimal. reflexivity. Qed.

(** X5.  When the PNG file can be written, [set_icon] tells the indicator
    to look in "/tmp" for an icon named after the file, "pchat-tray-",
    the icon name, "-" and the process id, with description "PChat"; the
    path the handle keeps is that directory, "/", that name and ".png", so
    the name registered resolves to the very file written.  The indicator's
    status, title and menu are not touched. *)
Theorem linux_set_icon_registers_written_file
        (os : L.Posix) (b : L.TrayBackend) (ind : L.AppIndicator)
        (icon : GdkPixbuf) :
  L.indicator b = Some ind ->
  L.gdk_pixbuf_save_ok os icon (L.temp_file os (L.timed_name os)) = true ->
  exists b' ind',
    value (L.tray_linux_set_icon os (Some b) (Some icon)) = Some b' /\
    L.indicator b' = Some ind' /\
    L.ai_icon_theme_path ind' = Some "/tmp"%string /\
    L.ai_icon_name ind'
      = ("pchat-tray-" ++ L.timed_name os ++ "-" ++ L.decimal (L.getpid os))%string /\
    L.ai_icon_desc ind' = Some "PChat"%string /\
    L.temp_icon_path b'
      = Some ("/tmp" ++ "/" ++ L.ai_icon_name ind' ++ ".png")%string /\
    L.current_icon b' = Some icon /\
    L.ai_status ind' = L.ai_status ind /\
    L.ai_title ind' = L.ai_title ind /\
    L.ai_menu ind' = L.ai_menu ind.
Proof.
  intros Hind Hok.
  destruct (temp_file_parts os (L.timed_name os) (no_slash_timed_name os))
    as [Hdir Hname].
  unfold L.tray_linux_set_icon. fold (L.timed_name os).
  rewrite save_pixbuf_to_temp_result, Hok.
  unfold L.register_icon, L.indicator_call.
  open_linux b. subst find.
  destruct fcur, fpath;
    cbv [bind ret emit when_some value trace fst snd]; cbn;
    rewrite Hdir, Hname;
    eexists; eexists; (split; [reflexivity|]); (split; [reflexivity|]);
    cbn; repeat split; try reflexivity;
    unfold L.temp_file; rewrite !string_app_assoc; reflexivity.
Qed.

Lemma linux_set_icon_registers_written_file_witness :
  exists b',
    value (L.tray_linux_set_icon Samples.posix_ok (Some Samples.linux_backend)
                                 (Some Samples.rgba_2x1)) = Some b' /\
    option_map L.ai_icon_name (L.indicator b')
      = Some "pchat-tray-pchat-1700000000-1234"%string /\
    L.temp_icon_path b'
      = Some "/tmp/pchat-tray-pchat-1700000000-1234.png"%string.
Proof.
  destruct (linux_set_icon_registers_written_file
              Samples.posix_ok Samples.linux_backend _ Samples.rgba_2x1
              eq_refl eq_refl)
    as (b' & ind' & E & Hi & _ & Hn & _ & Hp & _).
  exists b'. split; [exact E|]. split.
  - rewrite Hi. cbn [option_map]. rewrite Hn. vm_compute. reflexivity.
  - rewrite Hp, Hn. vm_compute. reflexivity.
Defined.

(** ** The desktop-indicator backend over a handle's life *)

Lemma unlinked_app t1 t2 : L.unlinked (t1 ++ t2) = L.unlinked t1 ++ L.unlinked t2.
Proof.
  induction t1 as [|e t1 IH]; [reflexivity|].
  destruct e; cbn; rewrite ?IH; reflexivity.
Qed.

Lemma unlinked_destroys l : L.unlinked (List.map L.gtk_widget_destroy l) = [].
Proof. induction l as [|w l IH]; [reflexivity|]. exact IH. Qed.

Lemma count_is_ref_destroys l :
  count L.is_ref (List.map L.gtk_widget_destroy l) = 0%nat.
Proof. induction l as [|w l IH]; [reflexivity|]. exact IH. Qed.

Lemma count_is_unref_destroys l :
  count L.is_unref (List.map L.gtk_widget_destroy l) = 0%nat.
Proof. induction l as [|w l IH]; [reflexivity|]. exact IH. Qed.

Lemma count_unref_indicator_destroys l :
  count L.is_unref_indicator (List.map L.gtk_widget_destroy l) = 0%nat.
Proof. induction l as [|w l IH]; [reflexivity|]. exact IH. Qed.

Lemma callback_use_destroys w l :
  Forall (L.callback_use_ok w) (List.map L.gtk_widget_destroy l).
Proof. induction l as [|x l IH]; constructor; [exact I|exact IH]. Qed.

Lemma linux_last_visible_cons c cs d :
  L.last_visible (c :: cs) d = L.last_visible cs (L.last_visible [c] d).
Proof. destruct c; reflexivity. Qed.

(** What one call of the host does to the books: temp files, pixbuf
    references, the indicator's status, the callbacks. *)
Lemma linux_call_accounting (w : L.GtkWidget) (c : L.Call) (b : L.TrayBackend) :
  L.live w b ->
  exists b',
    value (L.call c (Some b)) = Some b' /\
    L.live w b' /\
    L.unlinked (trace (L.call c (Some b))) ++ pointee (L.temp_icon_path b')
      = pointee (L.temp_icon_path b) ++ L.written_by c /\
    (count L.is_ref (trace (L.call c (Some b))) + held (L.current_icon b)
     = count L.is_unref (trace (L.call c (Some b))) + held (L.current_icon b'))%nat /\
    count L.is_unref_indicator (trace (L.call c (Some b))) = 0%nat /\
    L.tray_linux_is_embedded (Some b')
      = L.last_visible [c] (L.tray_linux_is_embedded (Some b)) /\
    Forall (L.callback_use_ok w) (trace (L.call c (Some b))).
Proof.
  intros [(ind & Hind) (m & Hm & Hw)].
  open_linux b. subst find fmenu w.
  destruct c as [os icon|t|v|cb ud|host cb ud|cb ud|host]; cbn [L.call].
  - destruct icon as [i|].
    + unfold L.tray_linux_set_icon, L.written_by. fold (L.timed_name os).
      rewrite save_pixbuf_to_temp_result.
      unfold L.register_icon, L.indicator_call, L.live.
      destruct (L.gdk_pixbuf_save_ok os i (L.temp_file os (L.timed_name os)));
        destruct fcur, fpath;
        cbv [bind ret emit when_some value trace fst snd]; cbn;
        eexists; (split; [reflexivity|]); cbn;
        repeat split; eauto; repeat constructor.
    + exists {| L.indicator := Some ind; L.menu := Some m; L.current_icon := fcur;
                L.icon_name := fname; L.temp_icon_path := fpath;
                L.activate_callback := facb; L.activate_userdata := faud;
                L.menu_callback := fmcb; L.menu_userdata := fmud;
                L.embedded_callback := fecb; L.embedded_userdata := feud |}.
      unfold L.live. cbn. rewrite app_nil_r.
      repeat split; eauto; constructor.
  - destruct t as [t|]; unfold L.live;
      eexists; (split; [reflexivity|]); cbn; rewrite ?app_nil_r;
      repeat split; eauto; repeat constructor.
  - unfold L.live. eexists. split; [reflexivity|]. cbn. rewrite ?app_nil_r.
    destruct v; repeat split; eauto; repeat constructor.
  - unfold L.live. eexists. split; [reflexivity|]. cbn. rewrite ?app_nil_r.
    repeat split; eauto; constructor.
  - unfold L.live. destruct cb as [cb|];
      eexists; (split; [reflexivity|]); cbn; rewrite ?app_nil_r;
      repeat split; eauto; repeat constructor; auto.
  - unfold L.live. eexists. split; [reflexivity|]. cbn. rewrite ?app_nil_r.
    repeat split; eauto; constructor.
  - unfold L.tray_linux_rebuild_menu, L.live. cbn [L.menu L.menu_callback].
    destruct fmcb as [cb|].
    + rewrite destroy_children_clears.
      cbv [bind ret emit value trace fst snd]. cbn [L.menu_widget L.menu_children].
      eexists. split; [reflexivity|].
      rewrite !unlinked_app, !count_app, unlinked_destroys,
        count_is_ref_destroys, count_is_unref_destroys,
        count_unref_indicator_destroys.
      cbn. rewrite ?app_nil_r.
      repeat split; eauto.
      apply Forall_app. split; [apply callback_use_destroys|].
      repeat constructor; auto.
    + eexists. split; [reflexivity|]. cbn. rewrite ?app_nil_r.
      repeat split; eauto; constructor.
Qed.

Lemma linux_calls_accounting (w : L.GtkWidget) (cs : list L.Call) (b : L.TrayBackend) :
  L.live w b ->
  exists b',
    value (L.calls cs (Some b)) = Some b' /\
    L.live w b' /\
    L.unlinked (trace (L.calls cs (Some b))) ++ pointee (L.temp_icon_path b')
      = pointee (L.temp_icon_path b) ++ List.concat (List.map L.written_by cs) /\
    (count L.is_ref (trace (L.calls cs (Some b))) + held (L.current_icon b)
     = count L.is_unref (trace (L.calls cs (Some b))) + held (L.current_icon b'))%nat /\
    count L.is_unref_indicator (trace (L.calls cs (Some b))) = 0%nat /\
    L.tray_linux_is_embedded (Some b')
      = L.last_visible cs (L.tray_linux_is_embedded (Some b)) /\
    Forall (L.callback_use_ok w) (trace (L.calls cs (Some b))).
Proof.
  revert b. induction cs as [|c cs IH]; intros b Hlive.
  - exists b. split; [reflexivity|]. split; [exact Hlive|].
    cbn. rewrite app_nil_r. repeat split; auto.
  - destruct (linux_call_accounting w c b Hlive)
      as (b1 & E1 & L1 & U1 & R1 & I1 & V1 & C1).
    destruct (IH b1 L1) as (b2 & E2 & L2 & U2 & R2 & I2 & V2 & C2).
    exists b2. cbn [L.calls List.map List.concat].
    rewrite value_bind, trace_bind, E1.
    split; [exact E2|]. split; [exact L2|].
    split.
    { rewrite unlinked_app, <- app_assoc, U2, !app_assoc, U1. reflexivity. }
    rewrite !count_app.
    split; [lia|]. split; [lia|].
    split; [rewrite linux_last_visible_cons, <- V1; exact V2|].
    apply Forall_app. split; assumption.
Qed.

Lemma linux_new_accounting os icon tip :
  exists b,
    value (L.tray_linux_new os icon tip) = Some b /\
    L.live (L.gtk_menu_new_result os) b /\
    L.unlinked (trace (L.tray_linux_new os icon tip)) = [] /\
    pointee (L.temp_icon_path b) = L.written_at_creation os icon /\
    count L.is_ref (trace (L.tray_linux_new os icon tip)) = held (L.current_icon b) /\
    count L.is_unref (trace (L.tray_linux_new os icon tip)) = 0%nat /\
    count L.is_unref_indicator (trace (L.tray_linux_new os icon tip)) = 0%nat /\
    L.tray_linux_is_embedded (Some b) = true /\
    Forall (L.callback_use_ok (L.gtk_menu_new_result os))
           (trace (L.tray_linux_new os icon tip)).
Proof.
  unfold L.tray_linux_new, L.written_at_creation, L.live.
  destruct icon as [i|].
  - rewrite save_pixbuf_to_temp_result.
    unfold L.register_icon, L.indicator_call.
    destruct (L.gdk_pixbuf_save_ok os i (L.temp_file os "pchat-normal"));
      cbv [bind ret emit when_some value trace fst snd]; cbn;
      eexists; (split; [reflexivity|]); cbn;
      repeat split; eauto; repeat constructor.
  - eexists. split; [reflexivity|]. cbn.
    repeat split; eauto; repeat constructor.
Qed.

Lemma linux_destroy_accounting w b :
  L.live w b ->
  value (L.tray_linux_destroy (Some b)) = None /\
  L.unlinked (trace (L.tray_linux_destroy (Some b))) = pointee (L.temp_icon_path b) /\
  count L.is_ref (trace (L.tray_linux_destroy (Some b))) = 0%nat /\
  count L.is_unref (trace (L.tray_linux_destroy (Some b))) = held (L.current_icon b) /\
  count L.is_unref_indicator (trace (L.tray_linux_destroy (Some b))) = 1%nat /\
  Forall (L.callback_use_ok w) (trace (L.tray_linux_destroy (Some b))).
Proof.
  intros [(ind & Hind) (m & Hm & Hw)].
  unfold L.tray_linux_destroy. open_linux b. subst find fmenu.
  destruct fpath, fcur; cbn; repeat split; repeat constructor.
Qed.

Lemma linux_refs_app t1 t2 : L.refs (t1 ++ t2) = (L.refs t1 ++ L.refs t2)%list.
Proof. apply flat_map_app. Qed.

Lemma linux_unrefs_app t1 t2 :
  L.unrefs (t1 ++ t2) = (L.unrefs t1 ++ L.unrefs t2)%list.
Proof. apply flat_map_app. Qed.

Lemma refs_destroys l : L.refs (List.map L.gtk_widget_destroy l) = [].
Proof. induction l as [|w l IH]; [reflexivity|]. exact IH. Qed.

Lemma unrefs_destroys l : L.unrefs (List.map L.gtk_widget_destroy l) = [].
Proof. induction l as [|w l IH]; [reflexivity|]. exact IH. Qed.

(** The references one call of the host takes and drops: it drops the
    handle's reference on the image it replaces and takes one on the image
    given. *)
Lemma linux_call_objects (c : L.Call) (b : L.TrayBackend) :
  exists b',
    value (L.call c (Some b)) = Some b' /\
    L.refs (trace (L.call c (Some b))) = L.image_given c /\
    (L.unrefs (trace (L.call c (Some b))) ++ pointee (L.current_icon b')
     = pointee (L.current_icon b) ++ L.image_given c)%list.
Proof.
  open_linux b.
  destruct c as [os icon|t|v|cb ud|host cb ud|cb ud|host]; cbn [L.call].
  - destruct icon as [i|].
    + unfold L.tray_linux_set_icon, L.image_given. fold (L.timed_name os).
      rewrite save_pixbuf_to_temp_result.
      unfold L.register_icon, L.indicator_call.
      destruct (L.gdk_pixbuf_save_ok os i (L.temp_file os (L.timed_name os)));
        destruct fcur, fpath;
        cbv [bind ret emit when_some value trace fst snd]; cbn;
        eexists; repeat split; reflexivity.
    + eexists. split; [reflexivity|]. cbn. rewrite app_nil_r. split; reflexivity.
  - destruct t as [t|]; eexists; (split; [reflexivity|]); cbn;
      rewrite ?app_nil_r; split; reflexivity.
  - destruct v; eexists; (split; [reflexivity|]); cbn;
      rewrite ?app_nil_r; split; reflexivity.
  - eexists. split; [reflexivity|]. cbn. rewrite ?app_nil_r. split; reflexivity.
  - unfold L.tray_linux_set_menu_callback.
    destruct cb as [cb|], fmenu as [m|];
      eexists; (split; [reflexivity|]); cbn; rewrite ?app_nil_r;
      split; reflexivity.
  - eexists. split; [reflexivity|]. cbn. rewrite ?app_nil_r. split; reflexivity.
  - unfold L.tray_linux_rebuild_menu. cbn [L.menu L.menu_callback].
    destruct fmenu as [m|], fmcb as [cb|];
      try (eexists; (split; [reflexivity|]); cbn; rewrite ?app_nil_r;
           split; reflexivity).
    rewrite destroy_children_clears.
    cbv [bind ret emit value trace fst snd]. cbn [L.menu_widget L.menu_children].
    eexists. split; [reflexivity|].
    rewrite !linux_refs_app, !linux_unrefs_app, refs_destroys, unrefs_destroys.
    cbn. rewrite ?app_nil_r. split; reflexivity.
Qed.

Lemma linux_calls_objects (cs : list L.Call) (b : L.TrayBackend) :
  exists b',
    value (L.calls cs (Some b)) = Some b' /\
    L.refs (trace (L.calls cs (Some b))) = flat_map L.image_given cs /\
    (L.unrefs (trace (L.calls cs (Some b))) ++ pointee (L.current_icon b')
     = pointee (L.current_icon b) ++ flat_map L.image_given cs)%list.
Proof.
  revert b. induction cs as [|c cs IH]; intros b.
  - exists b. cbn. rewrite app_nil_r. repeat split; reflexivity.
  - destruct (linux_call_objects c b) as (b1 & E1 & R1 & U1).
    destruct (IH b1) as (b2 & E2 & R2 & U2).
    exists b2. cbn [L.calls flat_map].
    rewrite value_bind, trace_bind, E1, linux_refs_app, linux_unrefs_app.
    split; [exact E2|].
    split; [rewrite R1, R2; reflexivity|].
    rewrite <- app_assoc, U2, !app_assoc, U1. reflexivity.
Qed.

Lemma linux_new_objects os icon tip :
  exists b,
    value (L.tray_linux_new os icon tip) = Some b /\
    L.current_icon b = icon /\
    L.refs (trace (L.tray_linux_new os icon tip)) = pointee icon /\
    L.unrefs (trace (L.tray_linux_new os icon tip)) = [].
Proof.
  unfold L.tray_linux_new.
  destruct icon as [i|].
  - rewrite save_pixbuf_to_temp_result.
    unfold L.register_icon, L.indicator_call.
    destruct (L.gdk_pixbuf_save_ok os i (L.temp_file os "pchat-normal"));
      cbv [bind ret emit when_some value trace fst snd]; cbn;
      eexists; repeat split; reflexivity.
  - eexists. repeat split; reflexivity.
Qed.

Lemma linux_destroy_objects b :
  L.refs (trace (L.tray_linux_destroy (Some b))) = [] /\
  L.unrefs (trace (L.tray_linux_destroy (Some b))) = pointee (L.current_icon b).
Proof.
  unfold L.tray_linux_destroy. open_linux b.
  destruct fpath, fcur, fmenu, find; split; reflexivity.
Qed.

(** X6.  Over a whole life (creation, any calls, [destroy]) the files the
    backend unlinks are exactly the files it wrote with success, in the order
    it wrote them: each temp file is deleted once and none is left behind.
    The references it drops are, in order, the references it took, and those
    are on the image given at creation and the images given to [set_icon]:
    each reference is dropped once, on the image it was taken on.  The
    indicator is released once. *)
Theorem linux_lifetime_releases_everything
        (os : L.Posix) (icon : option GdkPixbuf) (tip : option string)
        (cs : list L.Call) :
  let t := trace (L.lifetime os icon tip cs) in
  value (L.lifetime os icon tip cs) = None /\
  L.unlinked t
    = L.written_at_creation os icon ++ List.concat (List.map L.written_by cs) /\
  L.unrefs t = L.refs t /\
  L.refs t = (pointee icon ++ flat_map L.image_given cs)%list /\
  count L.is_ref t = count L.is_unref t /\
  count L.is_unref_indicator t = 1%nat.
Proof.
  cbv zeta. unfold L.lifetime.
  rewrite !value_bind, !trace_bind, !unlinked_app, !count_app,
    !linux_refs_app, !linux_unrefs_app.
  destruct (linux_new_accounting os icon tip)
    as (b & E & Hl & U & P & R & Un & I & _ & _).
  destruct (linux_new_objects os icon tip) as (b0 & E0 & C0 & R0 & U0).
  rewrite E in E0. injection E0 as <-.
  rewrite E, U, R, Un, I, R0, U0.
  destruct (linux_calls_accounting _ cs b Hl)
    as (b' & E' & Hl' & U' & R' & I' & _ & _).
  destruct (linux_calls_objects cs b) as (b1 & E1 & R1 & U1).
  rewrite E' in E1. injection E1 as <-.
  rewrite E', I', R1.
  destruct (linux_destroy_accounting _ b' Hl') as (Dv & Du & Dr & Dn & Di & _).
  destruct (linux_destroy_objects b') as (Dr' & Du').
  rewrite Du, Dr, Dn, Di, Dr', Du'. cbn [app].
  split; [exact Dv|]. split; [rewrite U', P; reflexivity|].
  split; [rewrite U1, C0, app_nil_r; reflexivity|].
  split; [rewrite app_nil_r; reflexivity|].
  split; lia.
Qed.

(** X7.  On the desktop-indicator backend a handle is embedded from
    creation on, and after any calls [is_embedded] answers the visibility the
    host asked for last: [set_visible] alone moves the indicator between
    active and passive. *)
Theorem linux_is_embedded_follows_set_visible
        (os : L.Posix) (icon : option GdkPixbuf) (tip : option string)
        (cs : list L.Call) :
  L.tray_linux_is_embedded
    (value (bind (L.tray_linux_new os icon tip) (L.calls cs)))
  = L.last_visible cs true.
Proof.
  rewrite value_bind.
  destruct (linux_new_accounting os icon tip)
    as (b & E & Hl & _ & _ & _ & _ & _ & V & _).
  rewrite E.
  destruct (linux_calls_accounting _ cs b Hl) as (b' & E' & _ & _ & _ & _ & V' & _).
  rewrite E', V', V. reflexivity.
Qed.

(** X8.  Over a whole life the desktop-indicator backend never calls the
    activate or the embedded callback itself, and every call it makes of the
    menu callback passes the handle's own menu container, button 3 and
    time 0. *)
Theorem linux_callbacks_only_menu
        (os : L.Posix) (icon : option GdkPixbuf) (tip : option string)
        (cs : list L.Call) :
  Forall (L.callback_use_ok (L.gtk_menu_new_result os))
         (trace (L.lifetime os icon tip cs)).
Proof.
  unfold L.lifetime. rewrite !trace_bind, ?value_bind.
  destruct (linux_new_accounting os icon tip)
    as (b & E & Hl & _ & _ & _ & _ & _ & _ & C).
  rewrite E.
  destruct (linux_calls_accounting _ cs b Hl) as (b' & E' & Hl' & _ & _ & _ & _ & C').
  rewrite E'.
  destruct (linux_destroy_accounting _ b' Hl') as (_ & _ & _ & _ & _ & Cd).
  repeat (apply Forall_app; split); assumption.
Qed.

(** ** The status-bar-item backend: the deferred-creation poll *)

Lemma waits_iff_not_proceeds os d :
  negb (M.isRunning os) && Z.ltb (M.d_attempts d) 10 = negb (M.proceeds os d).
Proof.
  unfold M.proceeds. destruct (M.isRunning os); cbn; [reflexivity|].
  destruct (Z.ltb_spec (M.d_attempts d) 10), (Z.leb_spec 10 (M.d_attempts d));
    reflexivity || lia.
Qed.

(** A poll that does not proceed only counts. *)
Lemma dispatch_waits os b d :
  M.proceeds os d = false ->
  M.timeout_dispatch os {| M.heap_backend := b; M.timeout_source := Some d |}
  = ({| M.heap_backend := b;
        M.timeout_source := Some (M.with_attempts d (M.d_attempts d + 1)) |}, []).
Proof.
  intros H. unfold M.timeout_dispatch, M.create_status_item_deferred.
  cbn [M.timeout_source M.heap_backend].
  rewrite waits_iff_not_proceeds, H. reflexivity.
Qed.

(** A poll that proceeds asks the status bar for an item, once, and is not
    scheduled again. *)
Lemma dispatch_proceeds os b d :
  M.proceeds os d = true ->
  M.timeout_source
    (value (M.timeout_dispatch os
              {| M.heap_backend := b; M.timeout_source := Some d |})) = None /\
  count M.allocates_status_item
        (trace (M.timeout_dispatch os
                  {| M.heap_backend := b; M.timeout_source := Some d |})) = 1%nat.
Proof.
  intros H. unfold M.timeout_dispatch, M.create_status_item_deferred, M.item_msg.
  cbn [M.timeout_source M.heap_backend].
  rewrite waits_iff_not_proceeds, H. cbn [negb].
  destruct d as [icon tip n]. cbn [M.d_icon M.d_tooltip].
  destruct (M.statusItemWithLength_result os) as [[name [btn|] vis]|];
    destruct icon as [i|], tip as [t|];
    cbv [bind ret emit when_some value trace fst snd
         M.item_button M.button_msg M.show_image M.pixbuf_to_nsimage];
    cbn; try destruct (M.NSBitmapImageRep_ok os); split; reflexivity.
Qed.

(** A call of the host leaves the timeout source alone, allocates nothing,
    and cannot make a status item appear. *)
Lemma host_step_keeps_source s p :
  M.is_poll s = false ->
  M.timeout_source (value (M.step s p)) = M.timeout_source p /\
  count M.allocates_status_item (trace (M.step s p)) = 0%nat /\
  (M.statusItem (M.heap_backend p) = None ->
   M.statusItem (M.heap_backend (value (M.step s p))) = None).
Proof.
  destruct p as [b src]. open_macos b.
  destruct s as [os|os icon|t|v|cb ud|cb ud|cb ud]; intros Hs;
    try discriminate; cbn [M.step]; unfold M.on_handle;
    cbn [M.heap_backend M.timeout_source].
  - unfold M.tray_macos_set_icon, M.pixbuf_to_nsimage, M.item_button, M.show_image,
      M.button_msg.
    destruct icon as [i|]; [|repeat split; auto].
    destruct fcur, fimg, (M.NSBitmapImageRep_ok os), fitem as [[sn [sbtn|] svis]|];
      repeat split; try reflexivity; intros; discriminate.
  - unfold M.tray_macos_set_tooltip, M.item_button, M.button_msg.
    destruct t as [t|]; [|repeat split; auto].
    destruct fitem as [[sn [sbtn|] svis]|];
      repeat split; try reflexivity; intros; discriminate.
  - unfold M.tray_macos_set_visible, M.item_msg.
    destruct fitem; repeat split; try reflexivity; intros; discriminate.
  - unfold M.tray_macos_set_activate_callback.
    destruct fdel; repeat split; auto.
  - unfold M.tray_macos_set_menu_callback.
    destruct fdel; repeat split; auto.
  - unfold M.tray_macos_set_embedded_callback.
    destruct cb; repeat split; auto.
Qed.

(** The books of the poll over any interleaving, from a process whose
    source is still scheduled. *)
Lemma steps_polling ss :
  forall b d,
    0 <= M.d_attempts d <= 10 ->
    M.statusItem b = None ->
    let r := M.steps ss {| M.heap_backend := b; M.timeout_source := Some d |} in
    match M.timeout_source (value r) with
    | Some d' =>
        count M.allocates_status_item (trace r) = 0%nat /\
        M.statusItem (M.heap_backend (value r)) = None /\
        M.d_attempts d' = M.d_attempts d + Z.of_nat (count M.is_poll ss) /\
        M.d_attempts d' <= 10
    | None =>
        count M.allocates_status_item (trace r) = 1%nat /\
        (1 <= count M.is_poll ss)%nat
    end.
Proof.
  induction ss as [|s ss IH]; intros b d Hd Hnone; cbv zeta.
  - cbn. repeat split; auto; lia.
  - cbn [M.steps]. rewrite value_bind, trace_bind, count_app, (count_cons M.is_poll).
    destruct (M.is_poll s) eqn:Hs.
    + destruct s as [os| | | | | |]; try discriminate. cbn [M.step].
      destruct (M.proceeds os d) eqn:Hp.
      * (* the allocation: the source is gone for good *)
        destruct (dispatch_proceeds os b d Hp) as [Hsrc Hcount].
        rewrite Hcount.
        assert (Hrest : forall p,
                  M.timeout_source p = None ->
                  M.timeout_source (value (M.steps ss p)) = None /\
                  count M.allocates_status_item (trace (M.steps ss p)) = 0%nat).
        { clear. induction ss as [|s ss IH]; intros p Hp; [split; auto|].
          cbn [M.steps]. rewrite value_bind, trace_bind, count_app.
          assert (Hstep : M.timeout_source (value (M.step s p)) = None /\
                          count M.allocates_status_item (trace (M.step s p)) = 0%nat).
          { destruct (M.is_poll s) eqn:Hs.
            - destruct s; try discriminate. cbn [M.step].
              unfold M.timeout_dispatch. rewrite Hp. split; [exact Hp|reflexivity].
            - destruct (host_step_keeps_source s p Hs) as (H1 & H2 & _).
              rewrite H1. split; assumption. }
          destruct Hstep as [H1 H2]. destruct (IH _ H1) as [H3 H4].
          split; [exact H3|lia]. }
        destruct (Hrest _ Hsrc) as [H1 H2]. rewrite H1, H2. split; lia.
      * rewrite (dispatch_waits os b d Hp). cbn [value trace fst snd count].
        assert (Hle : M.d_attempts d < 10).
        { unfold M.proceeds in Hp. apply orb_false_iff in Hp as [_ Hp].
          apply Z.leb_gt in Hp. exact Hp. }
        specialize (IH b (M.with_attempts d (M.d_attempts d + 1))).
        cbn [M.d_attempts M.with_attempts] in IH.
        specialize (IH ltac:(lia) Hnone). cbv zeta in IH.
        destruct (M.timeout_source
                    (value (M.steps ss
                              {| M.heap_backend := b;
                                 M.timeout_source :=
                                   Some (M.with_attempts d (M.d_attempts d + 1)) |})));
          change (count M.allocates_status_item []) with 0%nat.
        -- destruct IH as (A & B & C & D). repeat split; auto; lia.
        -- destruct IH as (A & B). split; lia.
    + destruct (host_step_keeps_source
                  s {| M.heap_backend := b; M.timeout_source := Some d |} Hs)
        as (Hsrc & Hcount & Hitem).
      cbn [M.heap_backend M.timeout_source] in Hsrc, Hitem.
      rewrite Hcount.
      destruct (value (M.step s {| M.heap_backend := b; M.timeout_source := Some d |}))
        as [b1 src1] eqn:E1.
      cbn [M.heap_backend M.timeout_source] in Hsrc, Hitem. subst src1.
      specialize (IH b1 d Hd (Hitem Hnone)). cbv zeta in IH.
      destruct (M.timeout_source
                  (value (M.steps ss
                            {| M.heap_backend := b1; M.timeout_source := Some d |}))).
      * destruct IH as (A & B & C & D). repeat split; auto; lia.
      * destruct IH as (A & B). split; lia.
Qed.

(** X9.  However the host's calls and the main loop's dispatches of the
    timeout interleave after creation: the status bar is asked for an item at
    most once; while the poll is still scheduled nothing has been allocated,
    the handle has no status item, and the attempts counted are the polls
    made, at most ten; once the poll is gone the status bar has been asked
    exactly once.  So the eleventh dispatch at the latest makes the
    allocation, and the poll never runs a twelfth time. *)
Theorem macos_polling_is_bounded
        (icon : option GdkPixbuf) (tip : option string) (ss : list M.Step) :
  let r := M.steps ss (value (M.tray_macos_new icon tip)) in
  match M.timeout_source (value r) with
  | Some d =>
      count M.allocates_status_item (trace r) = 0%nat /\
      M.statusItem (M.heap_backend (value r)) = None /\
      M.d_attempts d = Z.of_nat (count M.is_poll ss) /\
      (count M.is_poll ss <= 10)%nat
  | None =>
      count M.allocates_status_item (trace r) = 1%nat /\
      (1 <= count M.is_poll ss)%nat
  end.
Proof.
  cbv zeta.
  assert (Ec : value (M.tray_macos_new icon tip)
               = {| M.heap_backend := M.with_visible M.backend_zero false;
                    M.timeout_source :=
                      Some {| M.d_icon := icon; M.d_tooltip := tip;
                              M.d_attempts := 0 |} |})
    by (destruct icon; reflexivity).
  rewrite Ec.
  pose proof (steps_polling ss (M.with_visible M.backend_zero false)
                {| M.d_icon := icon; M.d_tooltip := tip; M.d_attempts := 0 |}
                ltac:(cbn; lia) eq_refl) as H.
  cbv zeta in H. cbn [M.d_attempts] in H.
  destruct (M.timeout_source _) as [d|]; [|exact H].
  destruct H as (A & B & C & D). repeat split; auto; lia.
Qed.

(** ** The status-bar-item backend: realization and clicks *)



(** X11.  Realization installs a fresh delegate and gives it none of the
    callbacks the handle holds: the callbacks the host registered while
    creation was pending stay stored in the handle, but after the poll that
    proceeds a click on the status item calls none of them. *)
Theorem macos_realization_forgets_callbacks
        (os : M.Cocoa) (p : M.Process) (d : M.DeferredTrayData)
        (event : M.NSEventType) :
  M.timeout_source p = Some d ->
  M.proceeds os d = true ->
  let p' := value (M.timeout_dispatch os p) in
  M.activateCallback (M.heap_backend p') = M.activateCallback (M.heap_backend p) /\
  M.activateUserdata (M.heap_backend p') = M.activateUserdata (M.heap_backend p) /\
  M.menuCallback (M.heap_backend p') = M.menuCallback (M.heap_backend p) /\
  M.menuUserdata (M.heap_backend p') = M.menuUserdata (M.heap_backend p) /\
  trace (M.button_clicked (M.heap_backend p') event) = [].
Proof.
  intros Hsrc Hp. destruct p as [b src]. cbn [M.timeout_source] in Hsrc. subst src.
  cbv zeta. unfold M.timeout_dispatch, M.create_status_item_deferred, M.item_msg.
  cbn [M.timeout_source M.heap_backend].
  rewrite waits_iff_not_proceeds, Hp. cbn [negb].
  destruct d as [icon tip n]. cbn [M.d_icon M.d_tooltip].
  open_macos b.
  destruct (M.statusItemWithLength_result os) as [[name [btn|] vis]|];
    destruct icon as [i|], tip as [t|];
    cbv [bind ret emit when_some value trace fst snd
         M.item_button M.button_msg M.show_image M.pixbuf_to_nsimage];
    cbn; try destruct (M.NSBitmapImageRep_ok os); cbn;
    destruct event as [|[|]|]; repeat split; reflexivity.
Qed.

Lemma macos_realization_forgets_callbacks_witness :
  let p := value (M.steps [M.set_activate_callback (Some 9) 5]
                          (value (M.tray_macos_new None None))) in
  let p' := value (M.timeout_dispatch Samples.cocoa_running p) in
  M.activateCallback (M.heap_backend p') = Some 9 /\
  M.statusItem (M.heap_backend p') <> None /\
  trace (M.button_clicked (M.heap_backend p') (M.NSEventTypeLeftMouseUp false)) = [].
Proof.
  cbv zeta.
  destruct (macos_realization_forgets_callbacks
              Samples.cocoa_running
              (value (M.steps [M.set_activate_callback (Some 9) 5]
                              (value (M.tray_macos_new None None))))
              {| M.d_icon := None; M.d_tooltip := None; M.d_attempts := 0 |}
              (M.NSEventTypeLeftMouseUp false) eq_refl eq_refl)
    as (Ha & _ & _ & _ & Ht).
  split; [rewrite Ha; reflexivity|]. split; [vm_compute; discriminate|exact Ht].
Defined.

(** X12.  On a realized handle (delegate installed, button targeting it)
    the callbacks registered afterwards are the ones clicks reach: a
    right-button release, or a left-button release with Control held, calls
    the menu callback with button 3 and the current-time stamp (and nothing
    if none is registered), never the activate callback; any other click
    calls the activate callback. *)
Theorem macos_click_dispatch
        (b : M.TrayBackend) (d : M.PChatTrayDelegate)
        (item : M.NSStatusItem) (btn : M.NSStatusBarButton)
        (acb mcb : option fnptr) (aud mud : gpointer) :
  M.delegate b = Some d ->
  M.statusItem b = Some item ->
  M.si_button item = Some btn ->
  M.btn_target btn = true ->
  exists b',
    value (bind (M.tray_macos_set_activate_callback (Some b) acb aud)
                (fun h => M.tray_macos_set_menu_callback h mcb mud)) = Some b' /\
    let menu_call := match mcb with
                     | Some cb => [M.call_menu cb 3 0 mud]
                     | None => []
                     end in
    let activate_call := match acb with
                         | Some cb => [M.call_click cb aud]
                         | None => []
                         end in
    trace (M.button_clicked b' M.NSEventTypeRightMouseUp) = menu_call /\
    trace (M.button_clicked b' (M.NSEventTypeLeftMouseUp true)) = menu_call /\
    trace (M.button_clicked b' (M.NSEventTypeLeftMouseUp false)) = activate_call /\
    trace (M.button_clicked b' M.NSEventTypeOther) = activate_call.
Proof.
  intros Hd Hi Hb Ht. open_macos b. subst fdel fitem.
  destruct item as [name obtn vis]. cbn [M.si_button] in Hb. subst obtn.
  destruct btn as [tg act title img tt]. cbn [M.btn_target] in Ht. subst tg.
  eexists. split; [reflexivity|].
  destruct acb, mcb; repeat split; reflexivity.
Qed.

Lemma macos_click_dispatch_witness :
  exists b',
    value (bind (M.tray_macos_set_activate_callback
                   (Some (M.with_delegate
                            (M.with_statusItem M.backend_zero
                               (Some (M.item_with_button Samples.fresh_item
                                        (Some (M.button_with_target
                                                 {| M.btn_target := false;
                                                    M.btn_action := None;
                                                    M.btn_title := "";
                                                    M.btn_image := None;
                                                    M.btn_toolTip := None |}
                                                 "onStatusItemClicked:")))))
                            (Some M.delegate_init)))
                   (Some 9) 5)
                (fun h => M.tray_macos_set_menu_callback h (Some 8) 6)) = Some b' /\
    trace (M.button_clicked b' M.NSEventTypeRightMouseUp) = [M.call_menu 8 3 0 6].
Proof.
  destruct (macos_click_dispatch
              (M.with_delegate
                 (M.with_statusItem M.backend_zero
                    (Some (M.item_with_button Samples.fresh_item
                             (Some (M.button_with_target
                                      {| M.btn_target := false;
                                         M.btn_action := None;
                                         M.btn_title := "";
                                         M.btn_image := None;
                                         M.btn_toolTip := None |}
                                      "onStatusItemClicked:")))))
                 (Some M.delegate_init))
              _ _ _ (Some 9) (Some 8) 5 6 eq_refl eq_refl eq_refl eq_refl)
    as (b' & E & Hr & _).
  exists b'. split; [exact E|exact Hr].
Defined.

(** X13.  On the status-bar-item backend, when the bitmap for a new image
    cannot be built, [set_icon] sends nothing to the status item or its
    button, which therefore keeps the image it shows; the handle caches the
    new source image and holds no native image. *)
Theorem macos_set_icon_failure_keeps_button
        (os : M.Cocoa) (b : M.TrayBackend) (icon : GdkPixbuf) :
  M.NSBitmapImageRep_ok os = false ->
  exists b',
    value (M.tray_macos_set_icon os (Some b) (Some icon)) = Some b' /\
    M.statusItem b' = M.statusItem b /\
    M.currentImage b' = None /\
    M.currentIcon b' = Some icon /\
    List.filter M.touches_status_item
                (trace (M.tray_macos_set_icon os (Some b) (Some icon))) = [].
Proof.
  intros Hfail. unfold M.tray_macos_set_icon, M.pixbuf_to_nsimage.
  rewrite Hfail. open_macos b.
  destruct fcur, fimg; eexists; repeat split; reflexivity.
Qed.

Lemma macos_set_icon_failure_keeps_button_witness :
  exists b',
    value (M.tray_macos_set_icon
             {| M.isRunning := true; M.statusItemWithLength_result := None;
                M.NSBitmapImageRep_ok := false |}
             (Some M.backend_zero) (Some Samples.rgba_2x1)) = Some b' /\
    M.currentImage b' = None.
Proof.
  destruct (macos_set_icon_failure_keeps_button
              {| M.isRunning := true; M.statusItemWithLength_result := None;
                 M.NSBitmapImageRep_ok := false |}
              M.backend_zero Samples.rgba_2x1 eq_refl)
    as (b' & E & _ & Hi & _).
  exists b'. split; [exact E|exact Hi].
Defined.

(** ** The status-bar-item backend's image *)

Lemma copy_pixel_length pixels channels src :
  List.length (M.copy_pixel pixels channels src) = 4%nat.
Proof. reflexivity. Qed.

Lemma copy_row_length pixels channels n src :
  List.length (M.copy_row pixels channels n src) = (4 * n)%nat.
Proof.
  revert src. induction n as [|n IH]; intros src; [reflexivity|].
  cbn [M.copy_row]. rewrite length_app, copy_pixel_length, IH. lia.
Qed.

Lemma copy_row_nth pixels channels n src k j :
  (k < n)%nat -> (j < 4)%nat ->
  nth_error (M.copy_row pixels channels n src) (4 * k + j)
  = nth_error (M.copy_pixel pixels channels (src + Z.of_nat k * channels)) j.
Proof.
  revert src k. induction n as [|n IH]; intros src k Hk Hj; [lia|].
  cbn [M.copy_row]. destruct k as [|k].
  - rewrite nth_error_app1 by (rewrite copy_pixel_length; lia).
    replace (4 * 0 + j)%nat with j by lia. f_equal. f_equal. lia.
  - rewrite nth_error_app2 by (rewrite copy_pixel_length; lia).
    rewrite copy_pixel_length.
    replace (4 * S k + j - 4)%nat with (4 * k + j)%nat by lia.
    rewrite IH by lia. f_equal. f_equal. lia.
Qed.

Lemma copy_rows_nth pixels stride channels width n y0 y x j :
  (y < n)%nat -> (x < Z.to_nat width)%nat -> (j < 4)%nat ->
  nth_error (M.copy_rows pixels stride channels width n y0)
            (4 * (y * Z.to_nat width + x) + j)
  = nth_error
      (M.copy_pixel pixels channels
         ((y0 + Z.of_nat y) * stride + Z.of_nat x * channels)) j.
Proof.
  revert y0 y. induction n as [|n IH]; intros y0 y Hy Hx Hj; [lia|].
  cbn [M.copy_rows]. destruct y as [|y].
  - rewrite nth_error_app1 by (rewrite copy_row_length; lia).
    replace (4 * (0 * Z.to_nat width + x) + j)%nat with (4 * x + j)%nat by lia.
    rewrite copy_row_nth by lia. f_equal. f_equal. lia.
  - rewrite nth_error_app2 by (rewrite copy_row_length; nia).
    rewrite copy_row_length.
    replace (4 * (S y * Z.to_nat width + x) + j - 4 * Z.to_nat width)%nat
      with (4 * (y * Z.to_nat width + x) + j)%nat by nia.
    rewrite IH by lia. f_equal. f_equal. lia.
Qed.

(** X14.  For every Source Image the status-bar converter accepts, the
    image object holds the pixels unchanged: same width and height in
    pixels, and the pixel at column [x] of row [y] stored at byte
    [4 * (y * width + x)] as red, green, blue, alpha, each colour exactly the
    source's (no premultiplication), alpha the source's alpha byte or 255 for
    a 3-channel image.  The image is sized to 20 by 20 points and is not yet a
    template. *)
Theorem pixbuf_to_nsimage_copies_pixels
        (os : M.Cocoa) (pb : GdkPixbuf) (img : M.NSImage) :
  valid_pixbuf pb ->
  M.pixbuf_to_nsimage os (Some pb) = Some img ->
  M.img_pixelsWide img = pb_width pb /\
  M.img_pixelsHigh img = pb_height pb /\
  M.img_size img = (20, 20) /\
  M.img_template img = false /\
  forall x y, 0 <= x < pb_width pb -> 0 <= y < pb_height pb ->
    let src := y * pb_rowstride pb + x * pb_n_channels pb in
    let dest := 4 * (y * pb_width pb + x) in
    exists r g b a,
      byte_at (pb_pixels pb) src = Some r /\
      byte_at (pb_pixels pb) (src + 1) = Some g /\
      byte_at (pb_pixels pb) (src + 2) = Some b /\
      (pb_n_channels pb = 4 -> byte_at (pb_pixels pb) (src + 3) = Some a) /\
      (pb_n_channels pb = 3 -> a = 255) /\
      M.image_byte img dest = Some r /\
      M.image_byte img (dest + 1) = Some g /\
      M.image_byte img (dest + 2) = Some b /\
      M.image_byte img (dest + 3) = Some a.
Proof.
  intros (Hw & Hh & Hc & Hrow & _ & Hlen) Hconv.
  unfold M.pixbuf_to_nsimage in Hconv.
  destruct (M.NSBitmapImageRep_ok os); [|discriminate].
  cbn [negb] in Hconv. injection Hconv as <-.
  do 4 (split; [reflexivity|]).
  intros x y Hx Hy src dest.
  assert (Hnth : forall j, 0 <= j < 4 ->
            nth_error (M.copy_rows (pb_pixels pb) (pb_rowstride pb)
                         (pb_n_channels pb) (pb_width pb)
                         (Z.to_nat (pb_height pb)) 0)
                      (Z.to_nat (dest + j))
            = nth_error (M.copy_pixel (pb_pixels pb) (pb_n_channels pb) src)
                        (Z.to_nat j)).
  { intros j Hj.
    replace (Z.to_nat (dest + j))
      with (4 * (Z.to_nat y * Z.to_nat (pb_width pb) + Z.to_nat x) + Z.to_nat j)%nat.
    - rewrite copy_rows_nth by lia.
      f_equal. f_equal. subst src. rewrite !Z2Nat.id by lia. ring.
    - apply Nat2Z.inj. subst dest. rewrite Z2Nat.id by nia.
      repeat (rewrite Nat2Z.inj_add || rewrite Nat2Z.inj_mul).
      rewrite !Z2Nat.id by lia. change (Z.of_nat 4) with 4. ring. }
  assert (Hdest : 0 <= dest) by (subst dest; nia).
  assert (Hsrc : 0 <= src /\
                 src + pb_n_channels pb <= Z.of_nat (List.length (pb_pixels pb))).
  { subst src. split; [nia|].
    assert (y * pb_rowstride pb <= (pb_height pb - 1) * pb_rowstride pb) by nia.
    assert ((x + 1) * pb_n_channels pb <= pb_width pb * pb_n_channels pb) by nia.
    lia. }
  destruct (byte_at_defined (pb_pixels pb) src) as (r & Er & Rr); [lia|].
  destruct (byte_at_defined (pb_pixels pb) (src + 1)) as (g & Eg & Rg); [lia|].
  destruct (byte_at_defined (pb_pixels pb) (src + 2)) as (b & Eb & Rb); [lia|].
  assert (Himg : forall j, 0 <= j < 4 ->
            M.image_byte
              {| M.img_pixelsWide := pb_width pb; M.img_pixelsHigh := pb_height pb;
                 M.img_bitmapData :=
                   M.copy_rows (pb_pixels pb) (pb_rowstride pb) (pb_n_channels pb)
                               (pb_width pb) (Z.to_nat (pb_height pb)) 0;
                 M.img_size := (20, 20); M.img_template := false |} (dest + j)
            = nth_error (M.copy_pixel (pb_pixels pb) (pb_n_channels pb) src)
                        (Z.to_nat j)).
  { intros j Hj. unfold M.image_byte. cbn [M.img_bitmapData].
    destruct (Z.ltb_spec (dest + j) 0); [lia|]. apply Hnth, Hj. }
  pose proof (Himg 0 ltac:(lia)) as H0.
  pose proof (Himg 1 ltac:(lia)) as H1.
  pose proof (Himg 2 ltac:(lia)) as H2.
  pose proof (Himg 3 ltac:(lia)) as H3.
  rewrite Z.add_0_r in H0. clear Himg Hnth.
  set (im := {| M.img_pixelsWide := _ |}) in *.
  unfold M.copy_pixel in H0, H1, H2, H3.
  rewrite Rr, Rg, Rb in H0, H1, H2, H3.
  destruct Hc as [Hc|Hc]; rewrite Hc in H0, H1, H2, H3.
  - exists r, g, b, 255. repeat split; intros; try assumption; lia.
  - destruct (byte_at_defined (pb_pixels pb) (src + 3)) as (a & Ea & Ra); [lia|].
    change (4 =? 4) with true in H3. cbv iota in H3. rewrite Ra in H3.
    exists r, g, b, a. repeat split; intros; try assumption; lia.
Qed.

Lemma pixbuf_to_nsimage_copies_pixels_witness :
  exists img,
    M.pixbuf_to_nsimage Samples.cocoa_running (Some Samples.rgba_2x1) = Some img /\
    M.img_pixelsWide img = 2 /\ M.img_size img = (20, 20).
Proof.
  eexists. split; [reflexivity|].
  pose proof (pixbuf_to_nsimage_copies_pixels
                Samples.cocoa_running Samples.rgba_2x1 _ rgba_2x1_valid eq_refl)
    as (Hw & _ & Hs & _).
  split; [exact Hw|exact Hs].
Defined.

(** ** The dispatcher *)

(** X15.  Under the Linux and the Windows selection every wrapper of the
    dispatcher is its backend's function, for every handle, NULL included:
    the wrapper's own NULL test never changes the outcome.  [rebuild_menu]
    reaches the backend only under the Linux selection and does nothing under
    any other.  Under the Apple and the fallback selection, which bind no
    backend function, creation answers NULL and no wrapper makes any call or
    changes the handle it is given. *)
Theorem dispatcher_is_transparent :
  (forall los host b icon tip v cb ud,
     D.tray_backend_new (D.linux los host) icon tip = L.tray_linux_new los icon tip /\
     D.tray_backend_set_icon (D.linux los host) b icon
       = L.tray_linux_set_icon los b icon /\
     D.tray_backend_set_tooltip (D.linux los host) b tip
       = L.tray_linux_set_tooltip b tip /\
     D.tray_backend_set_visible (D.linux los host) b v
       = L.tray_linux_set_visible b v /\
     D.tray_backend_is_embedded (D.linux los host) b = L.tray_linux_is_embedded b /\
     D.tray_backend_set_activate_callback (D.linux los host) b cb ud
       = L.tray_linux_set_activate_callback b cb ud /\
     D.tray_backend_set_menu_callback (D.linux los host) b cb ud
       = L.tray_linux_set_menu_callback host b cb ud /\
     D.tray_backend_set_embedded_callback (D.linux los host) b cb ud
       = L.tray_linux_set_embedded_callback b cb ud /\
     D.tray_backend_destroy (D.linux los host) b = L.tray_linux_destroy b /\
     D.tray_backend_rebuild_menu (D.linux los host) b
       = L.tray_linux_rebuild_menu host b) /\
  (forall wos mb b icon tip v cb ud,
     D.tray_backend_new (D.windows wos mb) icon tip
       = tray_windows_new wos mb icon tip /\
     D.tray_backend_set_icon (D.windows wos mb) b icon
       = tray_windows_set_icon wos b icon /\
     D.tray_backend_set_tooltip (D.windows wos mb) b tip
       = tray_windows_set_tooltip mb b tip /\
     D.tray_backend_set_visible (D.windows wos mb) b v
       = tray_windows_set_visible b v /\
     D.tray_backend_is_embedded (D.windows wos mb) b = tray_windows_is_embedded b /\
     D.tray_backend_set_activate_callback (D.windows wos mb) b cb ud
       = tray_windows_set_activate_callback b cb ud /\
     D.tray_backend_set_menu_callback (D.windows wos mb) b cb ud
       = tray_windows_set_menu_callback b cb ud /\
     D.tray_backend_set_embedded_callback (D.windows wos mb) b cb ud
       = tray_windows_set_embedded_callback b cb ud /\
     D.tray_backend_destroy (D.windows wos mb) b = tray_windows_destroy b /\
     D.tray_backend_rebuild_menu (D.windows wos mb) b = (b, [])) /\
  (forall H E name b icon tip v cb ud,
     let B := D.placeholder H E name in
     D.tray_backend_new B icon tip = (None, []) /\
     D.tray_backend_set_icon B b icon = (b, []) /\
     D.tray_backend_set_tooltip B b tip = (b, []) /\
     D.tray_backend_set_visible B b v = (b, []) /\
     D.tray_backend_is_embedded B b = false /\
     D.tray_backend_set_activate_callback B b cb ud = (b, []) /\
     D.tray_backend_set_menu_callback B b cb ud = (b, []) /\
     D.tray_backend_set_embedded_callback B b cb ud = (b, []) /\
     D.tray_backend_destroy B b = (b, []) /\
     D.tray_backend_rebuild_menu B b = (b, [])) /\
  D.apple = D.placeholder M.TrayBackend M.Event "macOS" /\
  D.fallback = D.placeholder Empty_set Empty_set "GtkStatusIcon".
Proof.
  split; [|split; [|split; [|split; reflexivity]]].
  - intros. destruct b as [b|], icon as [i|], tip as [t|];
      repeat split; reflexivity.
  - intros. destruct b as [b|], icon as [i|], tip as [t|];
      repeat split; reflexivity.
  - intros. repeat split; reflexivity.
Qed.

(** ** Creation on the desktop-indicator backend *)

(** X16.  Creation with an image always yields a handle, active, with its
    menu attached, caching the image under the name "pchat-normal".  When the
    PNG file can be written the indicator is pointed at it ("/tmp" and the
    file's base name, described by the tooltip); when it cannot, a warning is
    logged (the text "Failed to save tray icon: " followed by the error's
    message, or by "unknown error"), the handle keeps no file, and the
    indicator is left with the icon name it was created with, "pchat", and no
    theme path. *)
Theorem linux_new_registers_icon_or_falls_back
        (os : L.Posix) (icon : GdkPixbuf) (tip : option string) :
  exists b ind,
    value (L.tray_linux_new os (Some icon) tip) = Some b /\
    L.indicator b = Some ind /\
    L.current_icon b = Some icon /\
    L.icon_name b = Some "pchat-normal"%string /\
    L.ai_status ind = L.APP_INDICATOR_STATUS_ACTIVE /\
    L.ai_menu ind = Some (L.gtk_menu_new_result os) /\
    if L.gdk_pixbuf_save_ok os icon (L.temp_file os "pchat-normal")
    then
      L.temp_icon_path b = Some (L.temp_file os "pchat-normal") /\
      L.ai_icon_theme_path ind = Some "/tmp"%string /\
      L.ai_icon_name ind
        = ("pchat-tray-pchat-normal-" ++ L.decimal (L.getpid os))%string /\
      L.ai_icon_desc ind = tip
    else
      L.temp_icon_path b = None /\
      L.ai_icon_theme_path ind = None /\
      L.ai_icon_name ind = "pchat"%string /\
      L.ai_icon_desc ind = None /\
      In (L.g_warning
            ("Failed to save tray icon: "
             ++ match L.gdk_pixbuf_save_error os icon
                        (L.temp_file os "pchat-normal") with
                | Some message => message
                | None => "unknown error"
                end)%string)
         (trace (L.tray_linux_new os (Some icon) tip)).
Proof.
  destruct (temp_file_parts os "pchat-normal" eq_refl) as [Hdir Hname].
  unfold L.tray_linux_new. rewrite save_pixbuf_to_temp_result.
  unfold L.register_icon, L.indicator_call.
  destruct (L.gdk_pixbuf_save_ok os icon (L.temp_file os "pchat-normal"));
    cbv [bind ret emit when_some value trace fst snd]; cbn;
    rewrite ?Hdir, ?Hname;
    eexists; eexists; (split; [reflexivity|]); (split; [reflexivity|]);
    cbn; repeat split; try reflexivity; auto.
Qed.

(** ** Callbacks on the shell-notification-icon backend *)






(** ** The status-bar-item backend over a realized life *)

(** A realized process: the poll is gone, the handle has its status item
    and its delegate. *)
Lemma realized_step (s : M.Step) (p : M.Process) :
  M.timeout_source p = None ->
  M.statusItem (M.heap_backend p) <> None ->
  M.delegate (M.heap_backend p) <> None ->
  M.timeout_source (value (M.step s p)) = None /\
  M.statusItem (M.heap_backend (value (M.step s p))) <> None /\
  M.delegate (M.heap_backend (value (M.step s p))) <> None /\
  (count M.is_ref (trace (M.step s p)) + held (M.currentIcon (M.heap_backend p))
   = count M.is_unref (trace (M.step s p))
     + held (M.currentIcon (M.heap_backend (value (M.step s p)))))%nat /\
  count M.allocates_status_item (trace (M.step s p)) = 0%nat /\
  count M.is_removeStatusItem (trace (M.step s p)) = 0%nat /\
  count M.is_item_release (trace (M.step s p)) = 0%nat /\
  count M.is_delegate_alloc (trace (M.step s p)) = 0%nat /\
  count M.is_delegate_release (trace (M.step s p)) = 0%nat.
Proof.
  destruct p as [b src]. cbn [M.timeout_source M.heap_backend].
  intros -> Hitem Hdel. open_macos b.
  destruct fitem as [[sn sbtn svis]|]; [|contradiction].
  destruct fdel as [dg|]; [|contradiction].
  destruct s as [os|os icon|t|v|cb ud|cb ud|cb ud]; cbn [M.step]; unfold M.on_handle;
    cbn [M.heap_backend M.timeout_source].
  - repeat split; auto; discriminate.
  - unfold M.tray_macos_set_icon, M.pixbuf_to_nsimage, M.item_button, M.show_image,
      M.button_msg.
    destruct icon as [i|]; [|repeat split; auto; discriminate].
    destruct fcur, fimg, (M.NSBitmapImageRep_ok os), sbtn;
      repeat split; try reflexivity; discriminate.
  - unfold M.tray_macos_set_tooltip, M.item_button, M.button_msg.
    destruct t as [t|]; [|repeat split; auto; discriminate].
    destruct sbtn; repeat split; try reflexivity; discriminate.
  - repeat split; try reflexivity; discriminate.
  - repeat split; try reflexivity; discriminate.
  - repeat split; try reflexivity; discriminate.
  - destruct cb; repeat split; try reflexivity; discriminate.
Qed.

Lemma realized_steps (ss : list M.Step) (p : M.Process) :
  M.timeout_source p = None ->
  M.statusItem (M.heap_backend p) <> None ->
  M.delegate (M.heap_backend p) <> None ->
  M.statusItem (M.heap_backend (value (M.steps ss p))) <> None /\
  M.delegate (M.heap_backend (value (M.steps ss p))) <> None /\
  (count M.is_ref (trace (M.steps ss p)) + held (M.currentIcon (M.heap_backend p))
   = count M.is_unref (trace (M.steps ss p))
     + held (M.currentIcon (M.heap_backend (value (M.steps ss p)))))%nat /\
  count M.allocates_status_item (trace (M.steps ss p)) = 0%nat /\
  count M.is_removeStatusItem (trace (M.steps ss p)) = 0%nat /\
  count M.is_item_release (trace (M.steps ss p)) = 0%nat /\
  count M.is_delegate_alloc (trace (M.steps ss p)) = 0%nat /\
  count M.is_delegate_release (trace (M.steps ss p)) = 0%nat.
Proof.
  revert p. induction ss as [|s ss IH]; intros p Hsrc Hitem Hdel.
  - cbn. repeat split; auto.
  - destruct (realized_step s p Hsrc Hitem Hdel)
      as (S1 & I1 & D1 & R1 & A1 & M1 & N1 & G1 & L1).
    destruct (IH _ S1 I1 D1) as (I2 & D2 & R2 & A2 & M2 & N2 & G2 & L2).
    cbn [M.steps]. rewrite value_bind, trace_bind, !count_app.
    repeat split; auto; lia.
Qed.

(** Creation followed by a poll that proceeds on a status bar handing out
    an item. *)
Lemma realize_accounting os icon tip item :
  M.isRunning os = true ->
  M.statusItemWithLength_result os = Some item ->
  let p1 := M.timeout_dispatch os (value (M.tray_macos_new icon tip)) in
  let t := trace (M.tray_macos_new icon tip) ++ trace p1 in
  M.timeout_source (value p1) = None /\
  M.statusItem (M.heap_backend (value p1)) <> None /\
  M.delegate (M.heap_backend (value p1)) <> None /\
  count M.is_ref t
    = (count M.is_unref t + held (M.currentIcon (M.heap_backend (value p1))))%nat /\
  count M.allocates_status_item t = 1%nat /\
  count M.is_removeStatusItem t = 0%nat /\
  count M.is_item_release t = 0%nat /\
  count M.is_delegate_alloc t = 1%nat /\
  count M.is_delegate_release t = 0%nat.
Proof.
  intros Hrun Hitem. cbv zeta.
  unfold M.timeout_dispatch, M.create_status_item_deferred, M.item_msg.
  destruct item as [name [btn|] vis];
    destruct icon as [i|], tip as [t|];
    cbv [bind ret emit when_some value trace fst snd M.tray_macos_new
         M.item_button M.button_msg M.show_image M.pixbuf_to_nsimage];
    cbn; rewrite Hrun, Hitem; cbn; try destruct (M.NSBitmapImageRep_ok os); cbn;
    repeat split; try reflexivity; discriminate.
Qed.

Lemma macos_refs_app t1 t2 : M.refs (t1 ++ t2) = (M.refs t1 ++ M.refs t2)%list.
Proof. apply flat_map_app. Qed.

Lemma macos_unrefs_app t1 t2 :
  M.unrefs (t1 ++ t2) = (M.unrefs t1 ++ M.unrefs t2)%list.
Proof. apply flat_map_app. Qed.

(** The references one step takes and drops once the poll is gone:
    [set_icon] drops the handle's reference on the image it replaces and
    takes one on the image given; nothing else touches a reference. *)
Lemma step_objects (s : M.Step) (p : M.Process) :
  M.timeout_source p = None ->
  M.timeout_source (value (M.step s p)) = None /\
  M.refs (trace (M.step s p)) = M.image_given s /\
  (M.unrefs (trace (M.step s p))
   ++ pointee (M.currentIcon (M.heap_backend (value (M.step s p))))
   = pointee (M.currentIcon (M.heap_backend p)) ++ M.image_given s)%list.
Proof.
  destruct p as [b src]. cbn [M.timeout_source M.heap_backend].
  intros ->. open_macos b.
  destruct s as [os|os icon|t|v|cb ud|cb ud|cb ud]; cbn [M.step];
    unfold M.on_handle, M.timeout_dispatch; cbn [M.heap_backend M.timeout_source].
  - cbn. rewrite app_nil_r. repeat split.
  - unfold M.tray_macos_set_icon, M.pixbuf_to_nsimage, M.item_button, M.show_image,
      M.button_msg.
    destruct icon as [i|]; [|cbn; rewrite app_nil_r; repeat split].
    destruct fcur, fimg, (M.NSBitmapImageRep_ok os),
      fitem as [[sn [sbtn|] svis]|]; repeat split.
  - unfold M.tray_macos_set_tooltip, M.item_button, M.button_msg.
    destruct t as [t|]; [|cbn; rewrite app_nil_r; repeat split].
    destruct fitem as [[sn [sbtn|] svis]|]; cbn; rewrite app_nil_r; repeat split.
  - unfold M.tray_macos_set_visible, M.item_msg.
    destruct fitem; cbn; rewrite app_nil_r; repeat split.
  - unfold M.tray_macos_set_activate_callback.
    destruct fdel; cbn; rewrite app_nil_r; repeat split.
  - unfold M.tray_macos_set_menu_callback.
    destruct fdel; cbn; rewrite app_nil_r; repeat split.
  - unfold M.tray_macos_set_embedded_callback.
    destruct cb; cbn; rewrite app_nil_r; repeat split.
Qed.

Lemma steps_objects (ss : list M.Step) (p : M.Process) :
  M.timeout_source p = None ->
  M.refs (trace (M.steps ss p)) = flat_map M.image_given ss /\
  (M.unrefs (trace (M.steps ss p))
   ++ pointee (M.currentIcon (M.heap_backend (value (M.steps ss p))))
   = pointee (M.currentIcon (M.heap_backend p)) ++ flat_map M.image_given ss)%list.
Proof.
  revert p. induction ss as [|s ss IH]; intros p Hsrc.
  - cbn. rewrite app_nil_r. split; reflexivity.
  - destruct (step_objects s p Hsrc) as (S1 & R1 & U1).
    destruct (IH _ S1) as (R2 & U2).
    cbn [M.steps flat_map].
    rewrite value_bind, trace_bind, macos_refs_app, macos_unrefs_app.
    split; [rewrite R1, R2; reflexivity|].
    rewrite <- app_assoc, U2, !app_assoc, U1. reflexivity.
Qed.

(** Creation followed by a poll that proceeds on a status bar handing out an
    item: creation takes a reference on the initial image for the poll, the
    poll takes one for the handle when the item has a button, and drops its
    own. *)
Lemma realize_objects os icon tip item :
  M.isRunning os = true ->
  M.statusItemWithLength_result os = Some item ->
  let p1 := M.timeout_dispatch os (value (M.tray_macos_new icon tip)) in
  let t := (trace (M.tray_macos_new icon tip) ++ trace p1)%list in
  M.refs t = (pointee icon
              ++ match M.si_button item with
                 | Some _ => pointee icon
                 | None => []
                 end)%list /\
  (M.unrefs t ++ pointee (M.currentIcon (M.heap_backend (value p1))))%list
  = M.refs t.
Proof.
  intros Hrun Hitem. cbv zeta.
  unfold M.timeout_dispatch, M.create_status_item_deferred, M.item_msg.
  destruct item as [name [btn|] vis];
    destruct icon as [i|], tip as [t|];
    cbv [bind ret emit when_some value trace fst snd M.tray_macos_new
         M.item_button M.button_msg M.show_image M.pixbuf_to_nsimage];
    cbn; rewrite Hrun, Hitem; cbn; try destruct (M.NSBitmapImageRep_ok os); cbn;
    split; reflexivity.
Qed.

(** X18.  When the first poll finds the run loop running and the status bar
    hands out an item, then over the whole life (creation, that poll, any
    calls and further dispatches, [destroy]) the status bar is asked for an
    item once and the item is removed from it and released once, and one
    delegate is created and released.  The references dropped on images are,
    in order, the references taken: one on the initial image for the poll, one
    more on it for the handle when the item has a button, and one on each
    image given to [set_icon]; each is dropped once, on the image it was
    taken on. *)
Theorem macos_realized_lifetime_releases_everything
        (os : M.Cocoa) (icon : option GdkPixbuf) (tip : option string)
        (item : M.NSStatusItem) (ss : list M.Step) :
  M.isRunning os = true ->
  M.statusItemWithLength_result os = Some item ->
  let t := trace (M.realized_lifetime os icon tip ss) in
  value (M.realized_lifetime os icon tip ss) = None /\
  M.unrefs t = M.refs t /\
  M.refs t = (pointee icon
              ++ match M.si_button item with
                 | Some _ => pointee icon
                 | None => []
                 end
              ++ flat_map M.image_given ss)%list /\
  count M.is_ref t = count M.is_unref t /\
  count M.allocates_status_item t = 1%nat /\
  count M.is_removeStatusItem t = 1%nat /\
  count M.is_item_release t = 1%nat /\
  count M.is_delegate_alloc t = 1%nat /\
  count M.is_delegate_release t = 1%nat.
Proof.
  intros Hrun Hitem. cbv zeta. unfold M.realized_lifetime.
  rewrite !value_bind, !trace_bind.
  destruct (realize_accounting os icon tip item Hrun Hitem)
    as (S1 & I1 & D1 & R1 & A1 & M1 & N1 & G1 & L1).
  destruct (realize_objects os icon tip item Hrun Hitem) as (Rf1 & Uf1).
  set (p1 := M.timeout_dispatch os (value (M.tray_macos_new icon tip))) in *.
  destruct (realized_steps ss (value p1) S1 I1 D1)
    as (I2 & D2 & R2 & A2 & M2 & N2 & G2 & L2).
  destruct (steps_objects ss (value p1) S1) as (Rf2 & Uf2).
  set (p2 := M.steps ss (value p1)) in *.
  rewrite !app_assoc, !count_app, !macos_refs_app, !macos_unrefs_app in *.
  assert (Hd : value (M.tray_macos_destroy (Some (M.heap_backend (value p2)))) = None /\
               count M.is_ref (trace (M.tray_macos_destroy
                                        (Some (M.heap_backend (value p2))))) = 0%nat /\
               count M.is_unref (trace (M.tray_macos_destroy
                                          (Some (M.heap_backend (value p2)))))
                 = held (M.currentIcon (M.heap_backend (value p2))) /\
               count M.allocates_status_item
                     (trace (M.tray_macos_destroy
                               (Some (M.heap_backend (value p2))))) = 0%nat /\
               count M.is_removeStatusItem
                     (trace (M.tray_macos_destroy
                               (Some (M.heap_backend (value p2))))) = 1%nat /\
               count M.is_item_release
                     (trace (M.tray_macos_destroy
                               (Some (M.heap_backend (value p2))))) = 1%nat /\
               count M.is_delegate_alloc
                     (trace (M.tray_macos_destroy
                               (Some (M.heap_backend (value p2))))) = 0%nat /\
               count M.is_delegate_release
                     (trace (M.tray_macos_destroy
                               (Some (M.heap_backend (value p2))))) = 1%nat /\
               M.refs (trace (M.tray_macos_destroy
                                (Some (M.heap_backend (value p2))))) = [] /\
               M.unrefs (trace (M.tray_macos_destroy
                                  (Some (M.heap_backend (value p2)))))
                 = pointee (M.currentIcon (M.heap_backend (value p2)))).
  { clear -I2 D2. destruct (M.heap_backend (value p2)) as
        [fitem fimg fdel fcur ftip fvis facb faud fmcb fmud fecb feud].
    cbn [M.statusItem M.delegate M.currentIcon] in *.
    destruct fitem; [|contradiction]. destruct fdel; [|contradiction].
    unfold M.tray_macos_destroy. cbn [M.statusItem M.delegate M.currentImage M.currentIcon].
    destruct fimg, fcur; repeat split; reflexivity. }
  destruct Hd as (Dv & Dr & Du & Da & Dm & Dn & Dg & Dl & Drf & Duf).
  split; [exact Dv|].
  split.
  { rewrite Drf, Duf, app_nil_r, <- (app_assoc (M.unrefs _ ++ M.unrefs _)), Uf2,
      app_assoc, Uf1, Rf2. reflexivity. }
  split.
  { rewrite Drf, app_nil_r, Rf1, Rf2, <- app_assoc. reflexivity. }
  repeat split; lia.
Qed.

Lemma macos_realized_lifetime_releases_everything_witness :
  let t := trace (M.realized_lifetime
                    Samples.cocoa_running (Some Samples.rgba_2x1) None
                    [M.set_icon Samples.cocoa_running (Some Samples.rgb_1x1)]) in
  M.isRunning Samples.cocoa_running = true /\
  M.unrefs t = M.refs t /\
  M.refs t = [Samples.rgba_2x1; Samples.rgba_2x1; Samples.rgb_1x1] /\
  count M.is_item_release t = 1%nat.
Proof.
  cbv zeta. split; [reflexivity|].
  destruct (macos_realized_lifetime_releases_everything
              Samples.cocoa_running (Some Samples.rgba_2x1) None
              Samples.fresh_item
              [M.set_icon Samples.cocoa_running (Some Samples.rgb_1x1)]
              eq_refl eq_refl) as (_ & Hu & Hr & _ & _ & _ & Hi & _).
  split; [exact Hu|]. split; [exact Hr|exact Hi].
Defined.

(** ** Further invariants *)

(** X19.  [rebuild_menu] is idempotent for a delegate that builds the same
    menu each time: rebuilding twice leaves the handle exactly as rebuilding
    once does. *)
Theorem linux_rebuild_menu_idempotent (host : L.HostMenu) (b : L.TrayBackend) :
  value (bind (L.tray_linux_rebuild_menu host (Some b))
              (L.tray_linux_rebuild_menu host))
  = value (L.tray_linux_rebuild_menu host (Some b)).
Proof.
  rewrite value_bind. unfold L.tray_linux_rebuild_menu at 2 3.
  destruct (L.menu b) as [m|] eqn:Hm.
  - destruct (L.menu_callback b) as [cb|] eqn:Hcb.
    + rewrite destroy_children_clears.
      cbv [bind ret emit value trace fst snd]. cbn [L.menu_widget L.menu_children].
      unfold L.tray_linux_rebuild_menu. open_linux b. subst fmenu fmcb.
      cbn [L.with_menu L.menu L.menu_callback L.menu_userdata].
      rewrite destroy_children_clears. reflexivity.
    + cbn [value ret fst]. unfold L.tray_linux_rebuild_menu. rewrite Hm, Hcb.
      reflexivity.
  - cbn [value ret fst]. unfold L.tray_linux_rebuild_menu. rewrite Hm.
    reflexivity.
Qed.

Lemma requests_designate_call w (c : TrayWindows.Call) (b : TrayBackend) :
  designates w (nid b) ->
  exists b',
    value (TrayWindows.call c (Some b)) = Some b' /\
    designates w (nid b') /\
    Forall (fun r => designates w (snd r))
           (requests (trace (TrayWindows.call c (Some b)))).
Proof.
  intros Hd. unfold designates in *.
  destruct c as [os icon|mb tip|v|cb ud|cb ud|cb ud]; cbn [TrayWindows.call].
  - destruct icon as [i|]; open_handle b.
    + unfold tray_windows_set_icon.
      destruct fhicon, fcur, fvis; eexists; (split; [reflexivity|]);
        cbn; split; auto; repeat constructor; cbn; tauto.
    + eexists. split; [reflexivity|]. cbn. split; auto.
  - destruct tip as [t|]; open_handle b.
    + unfold tray_windows_set_tooltip.
      destruct fvis; eexists; (split; [reflexivity|]);
        cbn; split; auto; repeat constructor; cbn; tauto.
    + eexists. split; [reflexivity|]. cbn. split; auto.
  - unfold tray_windows_set_visible. open_handle b.
    destruct v, fvis, fecb; eexists; (split; [reflexivity|]);
      cbn; split; auto; repeat constructor; cbn; tauto.
  - open_handle b. eexists. split; [reflexivity|]. cbn. split; auto.
  - open_handle b. eexists. split; [reflexivity|]. cbn. split; auto.
  - open_handle b. eexists. split; [reflexivity|]. cbn. split; auto.
Qed.

Lemma requests_designate_calls w (cs : list TrayWindows.Call) (b : TrayBackend) :
  designates w (nid b) ->
  exists b',
    value (TrayWindows.calls cs (Some b)) = Some b' /\
    designates w (nid b') /\
    Forall (fun r => designates w (snd r))
           (requests (trace (TrayWindows.calls cs (Some b)))).
Proof.
  revert b. induction cs as [|c cs IH]; intros b Hd.
  - exists b. cbn. auto.
  - destruct (requests_designate_call w c b Hd) as (b1 & E1 & D1 & F1).
    destruct (IH b1 D1) as (b2 & E2 & D2 & F2).
    exists b2. cbn [TrayWindows.calls].
    rewrite value_bind, trace_bind, requests_app, E1.
    split; [exact E2|]. split; [exact D2|].
    apply Forall_app. split; assumption.
Qed.

(** X20.  Every request a handle submits to the shell over its whole life
    designates the same icon: id 1 on the handle's own hidden window, with
    [WM_TRAYICON] as callback message and the message, icon and tip fields
    declared valid.  When the window could not be created no request is
    submitted at all. *)
Theorem shell_requests_designate_one_icon
        (os : Win32) (mb : Utf8ToWide) (icon : option GdkPixbuf)
        (tip : option string) (cs : list TrayWindows.Call) :
  match CreateWindowExW_result os with
  | Some w =>
      Forall (fun r => designates w (snd r))
             (requests (trace (TrayWindows.lifetime os mb icon tip cs)))
  | None => requests (trace (TrayWindows.lifetime os mb icon tip cs)) = []
  end.
Proof.
  unfold TrayWindows.lifetime.
  rewrite !trace_bind, ?value_bind, !requests_app.
  pose proof (new_accounting os mb icon tip) as Hnew.
  assert (Hdes : match CreateWindowExW_result os with
                 | Some w =>
                     match value (tray_windows_new os mb icon tip) with
                     | Some b => designates w (nid b)
                     | None => False
                     end
                 | None => True
                 end).
  { unfold tray_windows_new, designates.
    destruct (CreateWindowExW_result os) as [w|]; [|exact I].
    destruct icon as [i|], tip as [t|]; cbn; auto. }
  destruct (CreateWindowExW_result os) as [w|].
  - destruct Hnew as (b & E & _ & _ & Rq & _). rewrite E in *. rewrite Rq.
    cbn [app].
    destruct (requests_designate_calls w cs b Hdes) as (b' & E' & D' & F').
    rewrite E'. apply Forall_app. split; [exact F'|].
    unfold tray_windows_destroy. unfold designates in D'. open_handle b'.
    destruct fvis, fhicon, fcur, fhwnd; cbn; repeat constructor;
      cbn; unfold designates; tauto.
  - rewrite Hnew. cbn [value trace fst snd]. rewrite calls_on_null. reflexivity.
Qed.

(** ** The status-bar-item backend: destruction while creation is pending *)




